(** * GM_Scan: authentication gateway and document store

    A shallow embedding of the request handlers of [auth_utils.py],
    [auth_routes.py], [document_routes.py] and [main.py], and the
    properties of the specification that are settled on them.

    Python values are embedded as one dynamically typed universe [pyval];
    MongoDB collections are lists of documents in natural (insertion)
    order; handlers are computations in a state-and-exception monad over
    a [world] holding the two collections, the request session, the clock,
    the random source, the mail outbox and a trace of observable effects. *)

From stdpp Require Import gmap strings list fin_maps pretty.
From Stdlib Require Import ZArith.

Open Scope Z_scope.

(** ** Python values *)

(** JSON-like values, ObjectIds, and signed identity tokens.  A token is
    kept structured (payload and signature) instead of being serialised to
    its compact string form; every other string is a [PStr]. *)
#[warnings="-register-all"]
Inductive pyval :=
| PNone
| PBool (b : bool)
| PInt (z : Z)
| PStr (s : string)
| PId (oid : N)
| PDict (d : gmap string pyval)
| PTok (payload : gmap string pyval) (signature : string).

Global Instance pyval_eq_dec : EqDecision pyval.
Proof.
  refine (fix go (x y : pyval) {struct x} : Decision (x = y) :=
    let _ : EqDecision pyval := go in
    match x, y with
    | PNone, PNone => left _
    | PBool a, PBool b => cast_if (decide (a = b))
    | PInt a, PInt b => cast_if (decide (a = b))
    | PStr a, PStr b => cast_if (decide (a = b))
    | PId a, PId b => cast_if (decide (a = b))
    | PDict a, PDict b => cast_if (decide (a = b))
    | PTok a s, PTok b t => cast_if_and (decide (a = b)) (decide (s = t))
    | _, _ => right _
    end); abstract congruence.
Defined.

(** Python truthiness, as used by [if x:] and [not x]. *)
Definition truthy (v : pyval) : bool :=
  match v with
  | PNone => false
  | PBool b => b
  | PInt z => negb (z =? 0)
  | PStr s => negb (bool_decide (s = ""))
  | PId _ => true
  | PDict d => negb (bool_decide (d = ∅))
  | PTok _ _ => true
  end.

(** An [Optional[str]] query parameter seen as a Python value. *)
Definition opt_str (o : option string) : pyval :=
  match o with Some s => PStr s | None => PNone end.

(** Truthiness of an [Optional[str]]. *)
Definition opt_truthy (o : option string) : bool := truthy (opt_str o).

(** ** ObjectId: 12 bytes, printed as 24 lower-case hexadecimal digits *)

Definition hex_digit (n : N) : Ascii.ascii :=
  if (n <? 10)%N then Ascii.ascii_of_N (48 + n) else Ascii.ascii_of_N (87 + n).

Fixpoint hex_digits (k : nat) (n : N) (acc : string) : string :=
  match k with
  | O => acc
  | S k' => hex_digits k' (n / 16)%N (String (hex_digit (n mod 16)%N) acc)
  end.

(** [str(ObjectId)] *)
Definition oid_str (n : N) : string := hex_digits 24 n "".

Definition hex_value (c : Ascii.ascii) : option N :=
  let n := Ascii.N_of_ascii c in
  if ((48 <=? n) && (n <=? 57))%N then Some (n - 48)%N
  else if ((97 <=? n) && (n <=? 102))%N then Some (n - 87)%N
  else if ((65 <=? n) && (n <=? 70))%N then Some (n - 55)%N
  else None.

Fixpoint parse_hex (s : string) (acc : N) : option N :=
  match s with
  | EmptyString => Some acc
  | String c s' =>
      match hex_value c with
      | Some d => parse_hex s' (16 * acc + d)%N
      | None => None
      end
  end.

(** [ObjectId.is_valid(s)] and [ObjectId(s)] on strings. *)
Definition ObjectId (s : string) : option N :=
  if (String.length s =? 24)%nat then parse_hex s 0%N else None.

Definition ObjectId_is_valid (s : string) : bool :=
  match ObjectId s with Some _ => true | None => false end.

(** ** Exceptions and HTTP outcomes *)

Inductive exn :=
| HTTPException (status_code : Z) (detail : string)
| RequestValidationError (field : string)
| HTTPStatusError (response_text : string)
| ValueError (msg : string)
| PyError (msg : string).

Global Instance exn_eq_dec : EqDecision exn.
Proof. solve_decision. Defined.

(** The status line the framework answers with: an [HTTPException] carries
    its own, a request that fails validation is 422, any other exception is
    an internal server error. *)
Definition http_status {A} (r : exn + A) : Z :=
  match r with
  | inr _ => 200
  | inl (HTTPException c _) => c
  | inl (RequestValidationError _) => 422
  | inl _ => 500
  end.


(** The reply of an outbound HTTP call. [json_body = None] is a body that
    does not parse as JSON. *)
Record http_response := {
  status_code_of : Z;
  json_body : option pyval;
  response_text_of : string
}.

(** Observable effects, recorded in order. *)
Inductive event :=
| EvSessionGet (key : string)
| EvSessionSet (key : string) (v : pyval)
| EvSessionPop (key : string)
| EvHttpPost (url : string) (data : list (string * string))
| EvHttpGet (url : string) (args : list (string * string))
| EvUsersFind (filter : list (string * pyval))
| EvUsersInsert (d : gmap string pyval)
| EvUsersUpdate (filter : list (string * pyval))
| EvDocumentsFind (filter : list (string * pyval))
| EvSendEmail (to_email : string).

Global Instance event_eq_dec : EqDecision event.
Proof. solve_decision. Defined.

(** ** The environment: configuration, primitives and the outside world

    [config.py] is not part of the sources, so its constants are fields
    here, next to the cryptographic primitives, the providers' HTTP
    endpoints and the renderings the frameworks supply. *)
Class Env := {
  getenv : string → option string;
  sha256_hexdigest : string → string;
  hs256 : string → gmap string pyval → string;
  token_urlsafe : N → string;
  py_repr : pyval → string;
  http_exception_str : Z → string → string;
  http_post : string → list (string * string) → exn + http_response;
  http_get : string → list (string * string) → exn + http_response;
  smtp_failure : string → string → option string;
  pydantic_accepts : gmap string pyval → bool;
  urlencode : list (string * string) → string;
  quote : string → string;
  LINKEDIN_AUTH_URL : string;
  GOOGLE_SCOPES : list string;
  SECRET_KEY : string;
  GOOGLE_CLIENT_ID : string;
  GOOGLE_CLIENT_SECRET : string;
  GOOGLE_REDIRECT_URI : string;
  LINKEDIN_CLIENT_ID : string;
  LINKEDIN_CLIENT_SECRET : string;
  LINKEDIN_REDIRECT_URI : string;
  LINKEDIN_TOKEN_URL : string;
  LINKEDIN_USER_INFO_URL : string;
  FACEBOOK_APP_ID : string;
  FACEBOOK_APP_SECRET : string;
  FACEBOOK_REDIRECT_URI : string
}.

(** ** The world and the handler monad *)

Record world := World {
  users : list (gmap string pyval);
  documents : list (gmap string pyval);
  session : gmap string pyval;
  clock : Z;
  entropy : list N;
  outbox : list (string * string);
  trace : list event
}.

Global Instance world_eq_dec : EqDecision world.
Proof. solve_decision. Defined.

Definition set_users (us : list (gmap string pyval)) (w : world) : world :=
  World us (documents w) (session w) (clock w) (entropy w) (outbox w) (trace w).
Definition set_documents (ds : list (gmap string pyval)) (w : world) : world :=
  World (users w) ds (session w) (clock w) (entropy w) (outbox w) (trace w).
Definition set_session (s : gmap string pyval) (w : world) : world :=
  World (users w) (documents w) s (clock w) (entropy w) (outbox w) (trace w).
Definition set_clock (t : Z) (w : world) : world :=
  World (users w) (documents w) (session w) t (entropy w) (outbox w) (trace w).
Definition set_entropy (e : list N) (w : world) : world :=
  World (users w) (documents w) (session w) (clock w) e (outbox w) (trace w).
Definition set_outbox (o : list (string * string)) (w : world) : world :=
  World (users w) (documents w) (session w) (clock w) (entropy w) o (trace w).
Definition log (e : event) (w : world) : world :=
  World (users w) (documents w) (session w) (clock w) (entropy w) (outbox w)
        (trace w ++ [e]).

(** A computation either raises or returns, and in both cases leaves a
    world behind: Python does not roll effects back on an exception. *)
Definition M (A : Type) : Type := world → (exn + A) * world.

Definition ret {A} (a : A) : M A := λ w, (inr a, w).
Definition bind {A B} (m : M A) (k : A → M B) : M B :=
  λ w, match m w with
       | (inr a, w') => k a w'
       | (inl e, w') => (inl e, w')
       end.
Definition raise {A} (e : exn) : M A := λ w, (inl e, w).
(** [try: m except Exception as e: h e] *)
Definition try_except {A} (m : M A) (h : exn → M A) : M A :=
  λ w, match m w with
       | (inr a, w') => (inr a, w')
       | (inl e, w') => h e w'
       end.
Definition gets {A} (f : world → A) : M A := λ w, (inr (f w), w).
Definition modify (f : world → world) : M unit := λ w, (inr tt, f w).
Definition lift {A} (r : exn + A) : M A := λ w, (r, w).

Global Instance M_ret : MRet M := @ret.
Global Instance M_bind : MBind M := λ A B k m, bind m k.

(** ** Python dictionaries held in values *)

(** [v.get(k, default)]; an [AttributeError] when [v] is no dict. *)
Definition py_get (v : pyval) (k : string) (dflt : pyval) : M pyval :=
  match v with
  | PDict d => ret (default dflt (d !! k))
  | _ => raise (PyError "object has no attribute 'get'")
  end.

(** [v[k]]; a [KeyError] when the key is absent. *)
Definition py_getitem (v : pyval) (k : string) : M pyval :=
  match v with
  | PDict d =>
      match d !! k with
      | Some x => ret x
      | None => raise (PyError ("'" +:+ k +:+ "'"))
      end
  | _ => raise (PyError "object is not subscriptable")
  end.

(** A dict literal [{k1: v1, ...}]. *)
Definition dict (l : list (string * pyval)) : gmap string pyval := list_to_map l.

(** ** MongoDB collections *)

(** An equality filter [{k1: v1, ...}]: every listed field equals the
    given value; a [null] value also matches a missing field. *)
Definition field_matches (d : gmap string pyval) (kv : string * pyval) : bool :=
  bool_decide (d !! kv.1 = Some kv.2)
  || (bool_decide (kv.2 = PNone) && bool_decide (d !! kv.1 = None)).

Definition matches (filter : list (string * pyval)) (d : gmap string pyval) : bool :=
  forallb (field_matches d) filter.

Definition find_one (filter : list (string * pyval))
    (c : list (gmap string pyval)) : option (gmap string pyval) :=
  List.find (matches filter) c.

Definition find (filter : list (string * pyval))
    (c : list (gmap string pyval)) : list (gmap string pyval) :=
  List.filter (matches filter) c.

Definition doc_id (d : gmap string pyval) : N :=
  match d !! "_id" with Some (PId n) => n | _ => 0%N end.

(** A fresh ObjectId: larger than every id in the collection. *)
Definition fresh_id (c : list (gmap string pyval)) : N :=
  N.succ (foldr N.max 0%N (doc_id <$> c)).

Definition insert_one (d : gmap string pyval)
    (c : list (gmap string pyval)) : N * list (gmap string pyval) :=
  let i := fresh_id c in (i, c ++ [<["_id" := PId i]> d]).

(** [{"$set": set, "$unset": unset}] applied to one document. *)
Definition apply_update (set : gmap string pyval) (unset : list string)
    (d : gmap string pyval) : gmap string pyval :=
  foldr delete (set ∪ d) unset.

(** [update_one]: the first matching document is rewritten. *)
Fixpoint update_one (filter : list (string * pyval)) (set : gmap string pyval)
    (unset : list string) (c : list (gmap string pyval))
  : list (gmap string pyval) :=
  match c with
  | [] => []
  | d :: c' =>
      if matches filter d then apply_update set unset d :: c'
      else d :: update_one filter set unset c'
  end.

(** [result.modified_count] of that call. *)
Definition modified_count (filter : list (string * pyval)) (set : gmap string pyval)
    (unset : list string) (c : list (gmap string pyval)) : Z :=
  match find_one filter c with
  | Some d => if bool_decide (apply_update set unset d = d) then 0 else 1
  | None => 0
  end.

(** [delete_one]: the first matching document is removed. *)
Fixpoint delete_one (filter : list (string * pyval))
    (c : list (gmap string pyval)) : list (gmap string pyval) :=
  match c with
  | [] => []
  | d :: c' => if matches filter d then c' else d :: delete_one filter c'
  end.

(** [result.matched_count] of an [update_one] and [result.deleted_count]
    of a [delete_one]: one when a document matches. *)
Definition matched_count (filter : list (string * pyval))
    (c : list (gmap string pyval)) : Z :=
  match find_one filter c with Some _ => 1 | None => 0 end.

(** ** Effects of the handlers *)

Section Effects.
Context `{Env}.

(** [request.session.get(key)] *)
Definition session_get (key : string) : M pyval :=
  modify (log (EvSessionGet key));;
  s ← gets session;
  mret (default PNone (s !! key)).

(** [request.session[key] = v] *)
Definition session_set (key : string) (v : pyval) : M unit :=
  modify (log (EvSessionSet key v));;
  modify (λ w, set_session (<[key := v]> (session w)) w).

(** [request.session.pop(key, None)] *)
Definition session_pop (key : string) : M unit :=
  modify (log (EvSessionPop key));;
  modify (λ w, set_session (delete key (session w)) w).

(** [datetime.utcnow()], in seconds. *)
Definition utcnow : M Z := gets clock.

(** One draw from the random source ([0] once it is exhausted). *)
Definition draw : M N :=
  e ← gets entropy;
  match e with
  | [] => mret 0%N
  | n :: e' => modify (set_entropy e');; mret n
  end.

(** [random.randint(a, b)]: an integer of the closed range. *)
Definition randint (a b : Z) : M Z :=
  n ← draw; mret (a + Z.of_N n mod (b - a + 1)).

(** [requests.post] / [client.post] and [requests.get] / [client.get]. *)
Definition send_post (url : string) (data : list (string * string))
  : M http_response :=
  modify (log (EvHttpPost url data));; lift (http_post url data).

Definition send_get (url : string) (args : list (string * string))
  : M http_response :=
  modify (log (EvHttpGet url args));; lift (http_get url args).

(** [response.json()] *)
Definition response_json (r : http_response) : M pyval :=
  match json_body r with
  | Some v => mret v
  | None => raise (PyError "Expecting value")
  end.

(** [response.raise_for_status()] of httpx: anything but 2xx raises. *)
Definition raise_for_status (r : http_response) : M unit :=
  if (200 <=? status_code_of r) && (status_code_of r <? 300) then mret tt
  else raise (HTTPStatusError (response_text_of r)).

(** A found document as the value Python sees: [None] or a dict. *)
Definition found (o : option (gmap string pyval)) : pyval :=
  match o with Some d => PDict d | None => PNone end.

(** [users_collection.find_one(filter)] *)
Definition users_find_one (filter : list (string * pyval)) : M pyval :=
  modify (log (EvUsersFind filter));;
  us ← gets users;
  mret (found (find_one filter us)).

(** [users_collection.insert_one(d)], returning [inserted_id]. *)
Definition users_insert_one (d : gmap string pyval) : M N :=
  modify (log (EvUsersInsert d));;
  us ← gets users;
  modify (set_users (insert_one d us).2);;
  mret (insert_one d us).1.

(** [users_collection.update_one(filter, {"$set": .., "$unset": ..})],
    returning [modified_count]. *)
Definition users_update_one (filter : list (string * pyval))
    (set : gmap string pyval) (unset : list string) : M Z :=
  modify (log (EvUsersUpdate filter));;
  us ← gets users;
  modify (set_users (update_one filter set unset us));;
  mret (modified_count filter set unset us).

(** [str(x)] for the values the handlers format. *)
Definition py_str (v : pyval) : string :=
  match v with
  | PStr s => s
  | PId n => oid_str n
  | PInt z => pretty z
  | PNone => "None"
  | PBool true => "True"
  | PBool false => "False"
  | _ => py_repr v
  end.

(** [str(e)] for a caught exception. *)
Definition exn_str (e : exn) : string :=
  match e with
  | HTTPException c d => http_exception_str c d
  | RequestValidationError f => f
  | HTTPStatusError t => t
  | ValueError m => m
  | PyError m => m
  end.
End Effects.

(** ** auth_utils.py *)

Module AuthUtils.
Section AuthUtils.
Context `{Env}.

Definition hash_password (password : string) : string :=
  let salt := default "default_salt" (getenv "PASSWORD_SALT") in
  sha256_hexdigest (password +:+ salt).

Definition generate_temp_password : M string :=
  r ← randint 1000 9999; mret (pretty r).

(** [secrets.token_urlsafe(16)] *)
Definition generate_oauth_state : M string :=
  n ← draw; mret (token_urlsafe n).

(** The message is handed to the mail server, which may refuse it. *)
Definition send_email (to_email temp_password : string) : M unit :=
  let body := "Your temporary password is: " +:+ temp_password in
  modify (log (EvSendEmail to_email));;
  match smtp_failure to_email body with
  | Some err => raise (PyError err)
  | None => modify (λ w, set_outbox (outbox w ++ [(to_email, body)]) w)
  end.

(** A [datetime] is held as [PInt] seconds. *)
Definition generate_otp (email : string) : M string :=
  otp ← generate_temp_password;
  let hashed_otp := hash_password otp in
  now ← utcnow;
  let expiration := now + 15 * 60 in
  users_update_one [("email", PStr email)]
    (<["temp_password" := PStr hashed_otp]>
       (<["otp_expiration" := PInt expiration]> ∅)) [];;
  mret otp.

Definition verify_otp (email otp : string) : M bool :=
  user ← users_find_one [("email", PStr email)];
  if negb (truthy user) then mret false else
  temp_password ← py_get user "temp_password" PNone;
  otp_expiration ← py_get user "otp_expiration" PNone;
  now ← utcnow;
  expired ← (if negb (truthy temp_password) then mret true
             else if negb (truthy otp_expiration) then mret true
             else match otp_expiration with
                  | PInt t => mret (t <? now)
                  | _ => raise (PyError "'>' not supported")
                  end);
  if (expired : bool) then mret false else
  let hashed_otp := hash_password otp in
  mret (bool_decide (PStr hashed_otp = temp_password)).

(** *** The token library *)

Inductive jwt_error := ExpiredSignatureError | InvalidTokenError.

(** Modelled from the spec: [jwt.encode] of the PyJWT package, which is
    not part of the sources.  The token embeds the claims and is signed
    with the secret; HS256 itself is the primitive [hs256]. *)
Definition jwt_encode (payload : gmap string pyval) (key : string) : pyval :=
  PTok payload (hs256 key payload).

(** Modelled from the spec: [jwt.decode] of the PyJWT package:
    "signature and expiry both checked", the signature first; a token is
    expired once the current time has reached its [exp]. *)
Definition jwt_decode (token : pyval) (key : string) (now : Z)
  : jwt_error + gmap string pyval :=
  match token with
  | PTok payload sig =>
      if bool_decide (sig = hs256 key payload) then
        match payload !! "exp" with
        | None => inr payload
        | Some (PInt exp) =>
            if exp <=? now then inl ExpiredSignatureError else inr payload
        | Some _ => inl InvalidTokenError
        end
      else inl InvalidTokenError
  | _ => inl InvalidTokenError
  end.

Definition generate_access_token (user_data : gmap string pyval)
    (expires_delta : option Z) : M pyval :=
  let to_encode := user_data in
  let expires_delta := default (24 * 60 * 60) expires_delta in
  now ← utcnow;
  let expire := now + expires_delta in
  let to_encode := <["exp" := PInt expire]> to_encode in
  mret (jwt_encode to_encode SECRET_KEY).

Definition verify_access_token (token : pyval) : M (gmap string pyval) :=
  now ← utcnow;
  match jwt_decode token SECRET_KEY now with
  | inr payload => mret payload
  | inl ExpiredSignatureError => raise (ValueError "Token has expired")
  | inl InvalidTokenError => raise (ValueError "Invalid token")
  end.

(** *** The current user *)

(** What lies between the first space of [s] and the next one (or the
    end): [s.split(" ")[1]]; [None] when [s] has no space. *)
Fixpoint until_space (s : string) : string :=
  match s with
  | EmptyString => EmptyString
  | String c s' =>
      if bool_decide (c = Ascii.Space) then EmptyString
      else String c (until_space s')
  end.

Fixpoint after_space (s : string) : option string :=
  match s with
  | EmptyString => None
  | String c s' =>
      if bool_decide (c = Ascii.Space) then Some s' else after_space s'
  end.

Definition second_word (s : string) : option string :=
  until_space <$> after_space s.

(** The header carries the token in its compact form; [token_of_string],
    a parameter, is the token library reading that form back. *)
Definition get_current_user (token_of_string : string → pyval)
    (authorization : option string) : M pyval :=
  if negb (opt_truthy authorization)
     || negb (String.prefix "Bearer " (default "" authorization)) then
    raise (HTTPException 401 "Missing or invalid access token")
  else
  token ← match second_word (default "" authorization) with
          | Some t => mret t
          | None => raise (PyError "list index out of range")
          end;
  try_except
    (token_data ← verify_access_token (token_of_string token);
     mret (PDict (dict [("id", default PNone (token_data !! "sub"));
                        ("email", default PNone (token_data !! "email"))])))
    (λ e, match e with
          | ValueError msg => raise (HTTPException 401 msg)
          | _ => raise e
          end).
End AuthUtils.
End AuthUtils.

(** ** auth_routes.py *)

Record UserCreate := {
  uc_email : option string;
  uc_password : option string;
  uc_first_name : option string;
  uc_last_name : option string;
  uc_mobile_number : option string
}.

Record LoginRequest := { lr_email : string; lr_password : string }.

Record ResetPasswordRequest := {
  otp : string; new_password : string; confirm_password : string
}.

(** The query string of a provider redirect. *)
Record callback_query := {
  q_code : option string;
  q_state : option string;
  q_error : option string;
  q_error_description : option string
}.

Module AuthRoutes.
Import AuthUtils.
Section AuthRoutes.
Context `{Env}.

Definition register_user (user : UserCreate) : M pyval :=
  existing_user ← users_find_one [("email", opt_str (uc_email user))];
  if truthy existing_user then
    raise (HTTPException 400 "Email already registered")
  else
  password ← match uc_password user with
             | Some p => mret p
             | None => raise (PyError "unsupported operand type(s) for +")
             end;
  let hashed_password := hash_password password in
  let user_data := dict [("email", opt_str (uc_email user));
                         ("password", PStr hashed_password);
                         ("first_name", opt_str (uc_first_name user));
                         ("last_name", opt_str (uc_last_name user))] in
  inserted_id ← users_insert_one user_data;
  let user_id := oid_str inserted_id in
  access_token ← generate_access_token
    (dict [("sub", PStr user_id); ("email", opt_str (uc_email user))]) None;
  mret (PDict (dict [("access_token", access_token);
                     ("user", PDict (dict [("id", PStr user_id);
                        ("first_name", opt_str (uc_first_name user));
                        ("last_name", opt_str (uc_last_name user));
                        ("email", opt_str (uc_email user))]))])).

(** One optional slot of the patch: [if x is not None: fields[k] = x]. *)
Definition add_field (k : string) (x : option string)
    (fields : gmap string pyval) : gmap string pyval :=
  match x with Some v => <[k := PStr v]> fields | None => fields end.

(** [ObjectId(v)]: parses a string, and makes a new id from [None]. *)
Definition make_object_id (v : pyval) : M N :=
  match v with
  | PStr s => match ObjectId s with
              | Some n => mret n
              | None => raise (PyError "is not a valid ObjectId")
              end
  | PId n => mret n
  | PNone => draw
  | _ => raise (PyError "id must be an instance of (bytes, str, ObjectId)")
  end.

Definition update_profile (update_data : UserCreate) (current_user : pyval)
  : M pyval :=
  try_except
    (user_id ← py_getitem current_user "id";
     let update_fields := ∅ in
     let update_fields := add_field "first_name" (uc_first_name update_data) update_fields in
     let update_fields := add_field "last_name" (uc_last_name update_data) update_fields in
     let update_fields := add_field "email" (uc_email update_data) update_fields in
     let update_fields := add_field "mobile_number" (uc_mobile_number update_data) update_fields in
     if negb (truthy (PDict update_fields)) then
       raise (HTTPException 400 "No update fields provided")
     else
     oid ← make_object_id user_id;
     modified ← users_update_one [("_id", PId oid)] update_fields [];
     if modified =? 0 then
       raise (HTTPException 400 "No changes made to profile")
     else
     oid' ← make_object_id user_id;
     updated_user ← users_find_one [("_id", PId oid')];
     id ← py_getitem updated_user "_id";
     first_name ← py_get updated_user "first_name" PNone;
     last_name ← py_get updated_user "last_name" PNone;
     email ← py_get updated_user "email" PNone;
     mobile_number ← py_get updated_user "mobile_number" PNone;
     mret (PDict (dict [("message", PStr "User profile details Updated Successfully");
                        ("user", PDict (dict [("id", PStr (py_str id));
                           ("first_name", first_name);
                           ("last_name", last_name);
                           ("email", email);
                           ("mobile_number", mobile_number)]))])))
    (λ e, raise (HTTPException 500
            ("An error occurred during profile update: " +:+ exn_str e))).

Definition login_user (login_data : LoginRequest) : M pyval :=
  existing_user ← users_find_one [("email", PStr (lr_email login_data))];
  if negb (truthy existing_user) then
    raise (HTTPException 400 "Invalid email or password")
  else
  let hashed_password := hash_password (lr_password login_data) in
  stored ← py_getitem existing_user "password";
  if negb (bool_decide (PStr hashed_password = stored)) then
    raise (HTTPException 400 "Invalid email or password")
  else
  id ← py_getitem existing_user "_id";
  email ← py_getitem existing_user "email";
  access_token ← generate_access_token
    (dict [("sub", PStr (py_str id)); ("email", email)]) None;
  first_name ← py_get existing_user "first_name" PNone;
  last_name ← py_get existing_user "last_name" PNone;
  mret (PDict (dict [("access_token", access_token);
                     ("user", PDict (dict [("id", PStr (py_str id));
                        ("first_name", first_name);
                        ("last_name", last_name);
                        ("email", email)]))])).

(** *** The routes of the three handlers above

    [register_user], [update_profile] and [login_user] are mounted with
    [response_model=Dict[str, Union[str, Dict[str, str]]]] (lines 17, 50
    and 115): what the handler returns is validated against that type
    before it is sent, and a reply that does not conform (a [None] name,
    say) is answered with status 500, after the handler has run.  A token
    is a [str]. *)
Definition is_str (v : pyval) : bool :=
  match v with
  | PStr _ | PTok _ _ => true
  | _ => false
  end.

Definition is_str_or_dict_of_str (v : pyval) : bool :=
  match v with
  | PDict d => bool_decide (map_Forall (λ _ x, is_str x = true) d)
  | _ => is_str v
  end.

Definition response_model (content : pyval) : M pyval :=
  match content with
  | PDict d =>
      if bool_decide (map_Forall (λ _ v, is_str_or_dict_of_str v = true) d)
      then mret content
      else raise (PyError "ResponseValidationError")
  | _ => raise (PyError "ResponseValidationError")
  end.


(** [@router.put("/profiles", response_model=...)] *)
Definition put_profiles (update_data : UserCreate) (current_user : pyval)
  : M pyval :=
  content ← update_profile update_data current_user;
  response_model content.


Definition forgot_password (email : string) : M pyval :=
  existing_user ← users_find_one [("email", PStr email)];
  if negb (truthy existing_user) then
    raise (HTTPException 400 "Email not found")
  else
  temp_password ← generate_temp_password;
  let hashed_temp_password := hash_password temp_password in
  users_update_one [("email", PStr email)]
    (dict [("temp_password", PStr hashed_temp_password)]) [];;
  send_email email temp_password;;
  mret (PDict (dict [("message", PStr "Temporary password sent to your email")])).

Definition reset_password (reset_data : ResetPasswordRequest) : M pyval :=
  if negb (bool_decide (new_password reset_data = confirm_password reset_data)) then
    raise (HTTPException 400 "Passwords do not match")
  else
  let hashed_otp := hash_password (otp reset_data) in
  existing_user ← users_find_one [("temp_password", PStr hashed_otp)];
  if negb (truthy existing_user) then
    raise (HTTPException 400 "Invalid OTP")
  else
  let hashed_new_password := hash_password (new_password reset_data) in
  id ← py_getitem existing_user "_id";
  users_update_one [("_id", id)]
    (dict [("password", PStr hashed_new_password)]) ["temp_password"];;
  mret (PDict (dict [("message", PStr "Password reset successfully")])).

(** *** OAuth: account reconciliation

    The find-or-create step that the three callbacks share (lines
    248-274, 396-426 and 552-584): [fields] are the name and provider
    fields, written on creation and on every later login. *)
Definition reconcile (email : pyval) (fields : gmap string pyval) : M string :=
  existing_user ← users_find_one [("email", email)];
  if negb (truthy existing_user) then
    r ← randint 100000 999999;
    let hashed_password := hash_password (pretty r) in
    let user_data :=
      <["email" := email]> (<["password" := PStr hashed_password]> fields) in
    inserted_id ← users_insert_one user_data;
    mret (oid_str inserted_id)
  else
    users_update_one [("email", email)] fields [];;
    id ← py_getitem existing_user "_id";
    mret (py_str id).

Definition google_fields (first_name last_name : pyval) : gmap string pyval :=
  dict [("first_name", first_name); ("last_name", last_name);
        ("auth_provider", PStr "google")].

Definition linkedin_fields (given_name family_name user_id : pyval)
  : gmap string pyval :=
  dict [("first_name", given_name); ("last_name", family_name);
        ("linkedin_id", user_id); ("auth_provider", PStr "linkedin")].

Definition facebook_fields (first_name last_name facebook_id profile_picture : pyval)
  : gmap string pyval :=
  dict [("first_name", first_name); ("last_name", last_name);
        ("facebook_id", facebook_id); ("profile_picture", profile_picture);
        ("auth_provider", PStr "facebook")].

(** [RedirectResponse(url)] *)
Definition RedirectResponse (url : string) : pyval :=
  PDict (dict [("status_code", PInt 307); ("location", PStr url)]).

(** *** Google *)

Definition auth_google : M pyval :=
  state ← generate_oauth_state;
  session_set "google_oauth_state" (PStr state);;
  let params := [("response_type", "code");
                 ("client_id", GOOGLE_CLIENT_ID);
                 ("redirect_uri", GOOGLE_REDIRECT_URI);
                 ("scope", String.concat " " GOOGLE_SCOPES);
                 ("state", state);
                 ("access_type", "offline");
                 ("prompt", "consent")] in
  mret (RedirectResponse
          ("https://accounts.google.com/o/oauth2/auth?" +:+ urlencode params)).

(** The signature declares [code: str] (required) and [state]; a request
    without [code] is answered by the framework before the body runs, and
    every other query parameter is dropped. *)
Definition auth_google_callback (q : callback_query) : M pyval :=
  match q_code q with
  | None => raise (RequestValidationError "code")
  | Some code =>
  let state := q_state q in
  stored_state ← session_get "google_oauth_state";
  if negb (truthy stored_state) || negb (bool_decide (stored_state = opt_str state)) then
    raise (HTTPException 400 "Invalid state parameter")
  else
  try_except
    (let token_url := "https://oauth2.googleapis.com/token" in
     let data := [("code", code);
                  ("client_id", GOOGLE_CLIENT_ID);
                  ("client_secret", GOOGLE_CLIENT_SECRET);
                  ("redirect_uri", GOOGLE_REDIRECT_URI);
                  ("grant_type", "authorization_code")] in
     response ← send_post token_url data;
     token_data ← response_json response;
     access_token ← py_get token_data "access_token" PNone;
     if negb (truthy access_token) then
       raise (HTTPException 400 "Failed to retrieve access token")
     else
     let user_info_url := "https://www.googleapis.com/oauth2/v1/userinfo" in
     let headers := [("Authorization", "Bearer " +:+ py_str access_token)] in
     user_info_response ← send_get user_info_url headers;
     user_info ← response_json user_info_response;
     email ← py_get user_info "email" PNone;
     first_name ← py_get user_info "given_name" (PStr "");
     last_name ← py_get user_info "family_name" (PStr "");
     if negb (truthy email) then
       raise (HTTPException 400 "Failed to retrieve user email")
     else
     user_id ← reconcile email (google_fields first_name last_name);
     access_token ← generate_access_token
       (dict [("sub", PStr user_id); ("email", email)]) None;
     session_set "user"
       (PDict (dict [("id", PStr user_id); ("email", email);
                     ("first_name", first_name); ("last_name", last_name);
                     ("auth_provider", PStr "google")]));;
     mret (PDict (dict [("access_token", access_token);
                        ("user", PDict (dict [("id", PStr user_id);
                           ("email", email);
                           ("first_name", first_name);
                           ("last_name", last_name)]))])))
    (λ e, raise (HTTPException 400 (exn_str e)))
  end.

(** *** LinkedIn *)

Definition auth_linkedin : M pyval :=
  state ← generate_oauth_state;
  session_set "linkedin_oauth_state" (PStr state);;
  let redirect_uri := quote LINKEDIN_REDIRECT_URI in
  let auth_url :=
    LINKEDIN_AUTH_URL +:+ "?response_type=code&client_id=" +:+ LINKEDIN_CLIENT_ID
    +:+ "&redirect_uri=" +:+ redirect_uri +:+ "&state=" +:+ state
    +:+ "&scope=openid%20profile%20email" in
  mret (RedirectResponse auth_url).

(** The message of a provider-reported error. *)
Definition provider_error_msg (provider error : string)
    (error_description : option string) : string :=
  let error_msg := provider +:+ " OAuth error: " +:+ error in
  if opt_truthy error_description
  then error_msg +:+ " - " +:+ default "" error_description
  else error_msg.

(** The two [except] clauses of the LinkedIn and Facebook callbacks. *)
Definition api_error_handler (provider : string) (e : exn) : M pyval :=
  match e with
  | HTTPStatusError text =>
      raise (HTTPException 400 (provider +:+ " API error: " +:+ text))
  | _ => raise (HTTPException 500 ("An error occurred: " +:+ exn_str e))
  end.

Definition linkedin_callback (q : callback_query) : M pyval :=
  let code := q_code q in
  let state := q_state q in
  if opt_truthy (q_error q) then
    raise (HTTPException 400
             (provider_error_msg "LinkedIn" (default "" (q_error q))
                                 (q_error_description q)))
  else
  if negb (opt_truthy code) || negb (opt_truthy state) then
    raise (HTTPException 400 "Missing required parameters (code or state)")
  else
  stored_state ← session_get "linkedin_oauth_state";
  if negb (truthy stored_state) || negb (bool_decide (stored_state = opt_str state)) then
    raise (HTTPException 400 "Invalid state parameter")
  else
  let token_data := [("grant_type", "authorization_code");
                     ("code", default "" code);
                     ("redirect_uri", LINKEDIN_REDIRECT_URI);
                     ("client_id", LINKEDIN_CLIENT_ID);
                     ("client_secret", LINKEDIN_CLIENT_SECRET)] in
  try_except
    (token_response ← send_post LINKEDIN_TOKEN_URL token_data;
     raise_for_status token_response;;
     token_info ← response_json token_response;
     oauth_access_token ← py_getitem token_info "access_token";
     user_response ← send_get LINKEDIN_USER_INFO_URL
       [("Authorization", "Bearer " +:+ py_str oauth_access_token)];
     raise_for_status user_response;;
     user_data ← response_json user_response;
     user_id ← py_get user_data "sub" (PStr "");
     email ← py_get user_data "email" (PStr "");
     given_name ← py_get user_data "given_name" (PStr "");
     family_name ← py_get user_data "family_name" (PStr "");
     if negb (truthy email) then
       raise (HTTPException 400 "Failed to retrieve user email")
     else
     user_id ← reconcile email (linkedin_fields given_name family_name user_id);
     access_token ← generate_access_token
       (dict [("sub", PStr user_id); ("email", email)]) None;
     session_set "user"
       (PDict (dict [("id", PStr user_id); ("email", email);
                     ("first_name", given_name); ("last_name", family_name);
                     ("auth_provider", PStr "linkedin")]));;
     mret (PDict (dict [("access_token", access_token);
                        ("user", PDict (dict [("id", PStr user_id);
                           ("first_name", given_name);
                           ("last_name", family_name);
                           ("email", email)]))])))
    (api_error_handler "LinkedIn").

(** *** Facebook *)

Definition auth_facebook : M pyval :=
  state ← generate_oauth_state;
  session_set "facebook_oauth_state" (PStr state);;
  let params := [("client_id", FACEBOOK_APP_ID);
                 ("redirect_uri", FACEBOOK_REDIRECT_URI);
                 ("state", state);
                 ("scope", "email,public_profile")] in
  mret (RedirectResponse
          ("https://www.facebook.com/v12.0/dialog/oauth?" +:+ urlencode params)).

Definition facebook_callback (q : callback_query) : M pyval :=
  let code := q_code q in
  let state := q_state q in
  if opt_truthy (q_error q) then
    raise (HTTPException 400
             (provider_error_msg "Facebook" (default "" (q_error q))
                                 (q_error_description q)))
  else
  if negb (opt_truthy code) || negb (opt_truthy state) then
    raise (HTTPException 400 "Missing required parameters (code or state)")
  else
  stored_state ← session_get "facebook_oauth_state";
  if negb (truthy stored_state) || negb (bool_decide (stored_state = opt_str state)) then
    raise (HTTPException 400 "Invalid state parameter")
  else
  try_except
    (let token_url := "https://graph.facebook.com/v12.0/oauth/access_token" in
     let token_params := [("client_id", FACEBOOK_APP_ID);
                          ("client_secret", FACEBOOK_APP_SECRET);
                          ("redirect_uri", FACEBOOK_REDIRECT_URI);
                          ("code", default "" code)] in
     token_response ← send_get token_url token_params;
     raise_for_status token_response;;
     token_data ← response_json token_response;
     access_token ← py_getitem token_data "access_token";
     let user_info_url := "https://graph.facebook.com/me" in
     let user_params := [("fields", "id,email,first_name,last_name,picture");
                         ("access_token", py_str access_token)] in
     user_response ← send_get user_info_url user_params;
     raise_for_status user_response;;
     user_data ← response_json user_response;
     facebook_id ← py_get user_data "id" (PStr "");
     email ← py_get user_data "email" (PStr "");
     first_name ← py_get user_data "first_name" (PStr "");
     last_name ← py_get user_data "last_name" (PStr "");
     picture ← py_get user_data "picture" (PDict ∅);
     picture_data ← py_get picture "data" (PDict ∅);
     profile_picture ← py_get picture_data "url" (PStr "");
     if negb (truthy email) then
       raise (HTTPException 400 "Failed to retrieve user email")
     else
     user_id ← reconcile email
       (facebook_fields first_name last_name facebook_id profile_picture);
     session_set "user"
       (PDict (dict [("id", PStr user_id); ("email", email);
                     ("first_name", first_name); ("last_name", last_name);
                     ("profile_picture", profile_picture);
                     ("auth_provider", PStr "facebook")]));;
     mret (PDict (dict [("access_token", access_token);
                        ("user", PDict (dict [("id", PStr user_id);
                           ("first_name", first_name);
                           ("last_name", last_name);
                           ("email", email);
                           ("profile_picture", profile_picture)]))])))
    (api_error_handler "Facebook").
End AuthRoutes.
End AuthRoutes.

(** ** main.py *)

Module Main.
Section Main.
Context `{Env}.

Definition logout : M pyval :=
  session_pop "user";;
  session_pop "google_oauth_state";;
  session_pop "linkedin_oauth_state";;
  session_pop "facebook_oauth_state";;
  mret (PDict (dict [("message", PStr "Logged out successfully")])).

Definition profile : M pyval :=
  user ← session_get "user";
  if negb (truthy user) then
    mret (PDict (dict [("message", PStr "Not logged in");
                       ("authenticated", PBool false)]))
  else
    mret (PDict (dict [("message", PStr "You are logged in!");
                       ("user", user);
                       ("authenticated", PBool true)])).
End Main.
End Main.

(** ** document_routes.py *)

Module DocumentRoutes.
Section DocumentRoutes.
Context `{Env}.

(** [db.documents.find(filter).skip(skip).limit(limit).to_list(length=limit)];
    the driver refuses a negative [skip] or [length]. *)
Definition documents_find (filter : list (string * pyval)) (skip limit : Z)
  : M (list (gmap string pyval)) :=
  modify (log (EvDocumentsFind filter));;
  if skip <? 0 then raise (ValueError "The 'skip' parameter must be >= 0")
  else if limit <? 0 then raise (ValueError "length must be non-negative")
  else
    ds ← gets documents;
    mret (take (Z.to_nat limit) (drop (Z.to_nat skip) (find filter ds))).

(** [db.documents.find_one(filter)] *)
Definition documents_find_one (filter : list (string * pyval)) : M pyval :=
  modify (log (EvDocumentsFind filter));;
  ds ← gets documents;
  mret (found (find_one filter ds)).

(** [DocumentResponse.from_mongo]: [_id] becomes the string [id], every
    other field is kept; the model's own validation can only refuse. *)
Definition from_mongo (document : gmap string pyval) : M (gmap string pyval) :=
  let doc_dict := document in
  let doc_dict :=
    match doc_dict !! "_id" with
    | Some i => <["id" := PStr (py_str i)]> (delete "_id" doc_dict)
    | None => doc_dict
    end in
  if pydantic_accepts doc_dict then mret doc_dict
  else raise (PyError "validation error for DocumentResponse").

(** [[f(x) for x in l]] for a computation [f]. *)
Fixpoint for_each {A B} (f : A → M B) (l : list A) : M (list B) :=
  match l with
  | [] => mret []
  | x :: l' => y ← f x; ys ← for_each f l'; mret (y :: ys)
  end.

Definition read_documents (skip limit : Z) (current_user : pyval)
  : M (list (gmap string pyval)) :=
  uid ← py_getitem current_user "id";
  documents ← documents_find [("user_id", uid)] skip limit;
  for_each from_mongo documents.

Definition read_document (document_id : string) (current_user : pyval)
  : M (gmap string pyval) :=
  if negb (ObjectId_is_valid document_id) then
    raise (HTTPException 400 "Invalid document ID format")
  else
  oid ← AuthRoutes.make_object_id (PStr document_id);
  uid ← py_getitem current_user "id";
  document ← documents_find_one [("_id", PId oid); ("user_id", uid)];
  match document with
  | PDict d => from_mongo d
  | _ => raise (HTTPException 404 "Document not found or unauthorized")
  end.

(** [db.documents.insert_one], [update_one] (returning [matched_count])
    and [delete_one] (returning [deleted_count]). *)
Definition documents_insert_one (d : gmap string pyval) : M N :=
  ds ← gets documents;
  modify (set_documents (insert_one d ds).2);;
  mret (insert_one d ds).1.

Definition documents_update_one (filter : list (string * pyval))
    (set : gmap string pyval) : M Z :=
  ds ← gets documents;
  modify (set_documents (update_one filter set [] ds));;
  mret (matched_count filter ds).

Definition documents_delete_one (filter : list (string * pyval)) : M Z :=
  ds ← gets documents;
  modify (set_documents (delete_one filter ds));;
  mret (matched_count filter ds).

(** [document] is [document.model_dump(exclude_unset=True)] of the
    validated body. *)
Definition create_document (document : gmap string pyval) (current_user : pyval)
  : M (gmap string pyval) :=
  let document_data := document in
  uid ← py_getitem current_user "id";
  let document_data := <["user_id" := uid]> document_data in
  current_time ← utcnow;
  let document_data := <["created_at" := PInt current_time]> document_data in
  let document_data := <["updated_at" := PInt current_time]> document_data in
  inserted_id ← documents_insert_one document_data;
  created_document ← documents_find_one [("_id", PId inserted_id)];
  match created_document with
  | PDict d => from_mongo d
  | _ => raise (HTTPException 404 "Document creation failed")
  end.

(** [document] is [document.model_dump()] of the validated body: every
    field of [DocumentUpdate], [None] where the body has none. *)
Definition update_document (document_id : string)
    (document : gmap string pyval) (current_user : pyval)
  : M (gmap string pyval) :=
  if negb (ObjectId_is_valid document_id) then
    raise (HTTPException 400 "Invalid document ID format")
  else
  let update_data := filter (λ kv, kv.2 ≠ PNone) document in
  if negb (truthy (PDict update_data)) then
    raise (HTTPException 400 "No fields to update")
  else
  now ← utcnow;
  let update_data := <["updated_at" := PInt now]> update_data in
  oid ← AuthRoutes.make_object_id (PStr document_id);
  uid ← py_getitem current_user "id";
  matched ← documents_update_one [("_id", PId oid); ("user_id", uid)] update_data;
  if matched =? 0 then
    raise (HTTPException 404 "Document not found or unauthorized")
  else
  oid' ← AuthRoutes.make_object_id (PStr document_id);
  updated_document ← documents_find_one [("_id", PId oid')];
  match updated_document with
  | PDict d => from_mongo d
  | _ => raise (PyError "'NoneType' object has no attribute 'items'")
  end.

(** The handler returns [None]: an empty 204 reply. *)
Definition delete_document (document_id : string) (current_user : pyval)
  : M pyval :=
  if negb (ObjectId_is_valid document_id) then
    raise (HTTPException 400 "Invalid document ID format")
  else
  oid ← AuthRoutes.make_object_id (PStr document_id);
  uid ← py_getitem current_user "id";
  deleted ← documents_delete_one [("_id", PId oid); ("user_id", uid)];
  if deleted =? 0 then
    raise (HTTPException 404 "Document not found or unauthorized")
  else mret PNone.
End DocumentRoutes.
End DocumentRoutes.

(** * The vocabulary of the properties *)

(** The three providers, and the session key each keeps its state under. *)
Inductive provider := Google | LinkedIn | Facebook.

Definition state_key (p : provider) : string :=
  match p with
  | Google => "google_oauth_state"
  | LinkedIn => "linkedin_oauth_state"
  | Facebook => "facebook_oauth_state"
  end.

(** The state a session holds for a provider, as the guard reads it. *)
Definition stored_state (p : provider) (w : world) : pyval :=
  default PNone (session w !! state_key p).

(** The checks a callback makes on the query before it looks at the
    session. *)
Definition well_formed_query (p : provider) (q : callback_query) : bool :=
  match p with
  | Google => bool_decide (is_Some (q_code q))
  | _ => negb (opt_truthy (q_error q)) && opt_truthy (q_code q)
         && opt_truthy (q_state q)
  end.

Section Vocabulary.
Import AuthUtils AuthRoutes.
Context `{Env}.

(** The start and callback handler of each provider. *)
Definition start (p : provider) : M pyval :=
  match p with
  | Google => auth_google
  | LinkedIn => auth_linkedin
  | Facebook => auth_facebook
  end.

Definition callback (p : provider) : callback_query → M pyval :=
  match p with
  | Google => auth_google_callback
  | LinkedIn => linkedin_callback
  | Facebook => facebook_callback
  end.

(** The code-for-token request each callback sends first. *)
Definition token_request (p : provider) (q : callback_query) : event :=
  let code := default "" (q_code q) in
  match p with
  | Google =>
      EvHttpPost "https://oauth2.googleapis.com/token"
        [("code", code); ("client_id", GOOGLE_CLIENT_ID);
         ("client_secret", GOOGLE_CLIENT_SECRET);
         ("redirect_uri", GOOGLE_REDIRECT_URI);
         ("grant_type", "authorization_code")]
  | LinkedIn =>
      EvHttpPost LINKEDIN_TOKEN_URL
        [("grant_type", "authorization_code"); ("code", code);
         ("redirect_uri", LINKEDIN_REDIRECT_URI);
         ("client_id", LINKEDIN_CLIENT_ID);
         ("client_secret", LINKEDIN_CLIENT_SECRET)]
  | Facebook =>
      EvHttpGet "https://graph.facebook.com/v12.0/oauth/access_token"
        [("client_id", FACEBOOK_APP_ID);
         ("client_secret", FACEBOOK_APP_SECRET);
         ("redirect_uri", FACEBOOK_REDIRECT_URI);
         ("code", code)]
  end.

(** The code [forgot_password] draws in a given world. *)
Definition drawn_code (w : world) : string :=
  pretty (1000 + Z.of_N (default 0%N (head (entropy w))) mod (9999 - 1000 + 1)).

(** The [$set] part of the update [reset_password] makes. *)
Definition reset_update (new_password : string) : gmap string pyval :=
  dict [("password", PStr (hash_password new_password))].

(** The document [reconcile] inserts for a new email. *)
Definition new_user (email : pyval) (fields : gmap string pyval) (w : world)
  : gmap string pyval :=
  let r := 100000 + Z.of_N (default 0%N (head (entropy w))) mod (999999 - 100000 + 1) in
  <["_id" := PId (fresh_id (users w))]>
    (<["email" := email]> (<["password" := PStr (hash_password (pretty r))]> fields)).

(** The fields each callback hands to [reconcile]. *)
Definition provider_fields (p : provider)
    (first_name last_name external_id picture : pyval) : gmap string pyval :=
  match p with
  | Google => google_fields first_name last_name
  | LinkedIn => linkedin_fields first_name last_name external_id
  | Facebook => facebook_fields first_name last_name external_id picture
  end.
End Vocabulary.

(** The name and provider-linkage fields. *)
Definition overwritten : list string :=
  ["first_name"; "last_name"; "auth_provider"; "linkedin_id"; "facebook_id";
   "profile_picture"].

(** The session entry [k] is the same in both worlds. *)
Definition keeps (k : string) : relation world :=
  λ w w', session w' !! k = session w !! k.

(** The trace of the second world continues that of the first. *)
Definition extends : relation world :=
  λ w w', ∃ tr, trace w' = trace w ++ tr.

(** A stored document carries an ObjectId. *)
Definition has_id (d : gmap string pyval) : Prop := ∃ n, d !! "_id" = Some (PId n).

(** A collection as the database keeps it: every document carries an
    ObjectId, and no two share one. *)
Definition well_formed (c : list (gmap string pyval)) : Prop :=
  Forall has_id c ∧ NoDup (doc_id <$> c).

(** [doc.get("user_id")] *)
Definition owner (d : gmap string pyval) : pyval := default PNone (d !! "user_id").

(** [preserves R m]: every run of [m] takes a world to an [R]-related one,
    whether it returns or raises. *)
Definition preserves (R : relation world) {A : Type} (m : M A) : Prop :=
  ∀ w, R w (m w).2.


(** The [user.id] of a response. *)
Definition response_user_id (body : pyval) : option pyval :=
  match body with
  | PDict b => match b !! "user" with
               | Some (PDict u) => u !! "id"
               | _ => None
               end
  | _ => None
  end.


(** The [$set] of [update_profile]: the four fields a patch can carry. *)
Definition profile_update (patch : UserCreate) : gmap string pyval :=
  AuthRoutes.add_field "mobile_number" (uc_mobile_number patch)
    (AuthRoutes.add_field "email" (uc_email patch)
       (AuthRoutes.add_field "last_name" (uc_last_name patch)
          (AuthRoutes.add_field "first_name" (uc_first_name patch) ∅))).

(** Both collections, the session and the outbox are the same in both
    worlds. *)
Definition untouched : relation world :=
  λ w w', users w' = users w ∧ documents w' = documents w
          ∧ session w' = session w ∧ outbox w' = outbox w.

(** [fails_clean m]: from a store whose users carry ids, a run of [m] that
    raises leaves both collections, the session and the outbox as they
    were. *)
Definition fails_clean {A : Type} (m : M A) : Prop :=
  ∀ w e w', Forall has_id (users w) → m w = (inl e, w') → untouched w w'.

(** The document [create_document] stores for a body, and the reply
    [from_mongo] makes of a stored document. *)
Definition created (document : gmap string pyval) (uid : pyval) (w : world)
  : gmap string pyval :=
  <["_id" := PId (fresh_id (documents w))]>
    (<["updated_at" := PInt (clock w)]>
       (<["created_at" := PInt (clock w)]> (<["user_id" := uid]> document))).

Definition answered (stored : gmap string pyval) : gmap string pyval :=
  <["id" := PStr (oid_str (doc_id stored))]> (delete "_id" stored).

(** The [$set] of [update_document]: the fields the body gives, and the
    time of the update. *)
Definition document_update (document : gmap string pyval) (w : world)
  : gmap string pyval :=
  <["updated_at" := PInt (clock w)]> (filter (λ kv, kv.2 ≠ PNone) document).

(** The [auth_provider] each callback records. *)
Definition provider_name (p : provider) : string :=
  match p with
  | Google => "google"
  | LinkedIn => "linkedin"
  | Facebook => "facebook"
  end.

(** ** A sample environment

    A stand-in for the outside world, used to run the handlers on concrete
    requests: transparent digests and signatures, a provider that accepts
    every code, a mail server that always delivers. *)

Module Sample.
Definition atom (v : pyval) : string :=
  match v with
  | PStr s => s
  | PInt z => pretty z
  | PId n => oid_str n
  | _ => "?"
  end.

Definition mac (key : string) (payload : gmap string pyval) : string :=
  key +:+ "|" +:+
  String.concat ";" ((λ kv, kv.1 +:+ "=" +:+ atom kv.2) <$> map_to_list payload).

Definition ok (body : pyval) : exn + http_response :=
  inr {| status_code_of := 200; json_body := Some body; response_text_of := "" |}.

Definition post (url : string) (data : list (string * string))
  : exn + http_response :=
  ok (PDict (dict [("access_token", PStr "provider-access-token")])).

Definition get (url : string) (args : list (string * string))
  : exn + http_response :=
  if bool_decide (url = "https://graph.facebook.com/v12.0/oauth/access_token")
  then ok (PDict (dict [("access_token", PStr "provider-access-token")]))
  else ok (PDict (dict [("sub", PStr "ext-7"); ("id", PStr "ext-7");
                        ("email", PStr "carol@example.com");
                        ("given_name", PStr "Carol"); ("family_name", PStr "Diaz");
                        ("first_name", PStr "Carol"); ("last_name", PStr "Diaz")])).

#[export] Instance env : Env := {|
  getenv := λ _, None;
  sha256_hexdigest := λ s, "sha256:" +:+ s;
  hs256 := mac;
  token_urlsafe := λ n, "state-" +:+ pretty n;
  py_repr := λ _, "<object>";
  http_exception_str := λ c d, pretty c +:+ ": " +:+ d;
  http_post := post;
  http_get := get;
  smtp_failure := λ _ _, None;
  pydantic_accepts := λ _, true;
  urlencode := λ l, String.concat "&" ((λ kv, kv.1 +:+ "=" +:+ kv.2) <$> l);
  quote := λ s, s;
  LINKEDIN_AUTH_URL := "https://www.linkedin.com/oauth/v2/authorization";
  GOOGLE_SCOPES := ["openid"; "email"; "profile"];
  SECRET_KEY := "secret";
  GOOGLE_CLIENT_ID := "google-client";
  GOOGLE_CLIENT_SECRET := "google-secret";
  GOOGLE_REDIRECT_URI := "http://localhost:8000/auth/google/callback";
  LINKEDIN_CLIENT_ID := "linkedin-client";
  LINKEDIN_CLIENT_SECRET := "linkedin-secret";
  LINKEDIN_REDIRECT_URI := "http://localhost:8000/auth/linkedin/callback";
  LINKEDIN_TOKEN_URL := "https://www.linkedin.com/oauth/v2/accessToken";
  LINKEDIN_USER_INFO_URL := "https://api.linkedin.com/v2/userinfo";
  FACEBOOK_APP_ID := "facebook-app";
  FACEBOOK_APP_SECRET := "facebook-secret";
  FACEBOOK_REDIRECT_URI := "http://localhost:8000/auth/facebook/callback"
|}.

(** Two registered users, as [register_user] stores them. *)
Definition alice : gmap string pyval :=
  dict [("_id", PId 1); ("email", PStr "alice@example.com");
        ("password", PStr "sha256:wonderlanddefault_salt");
        ("first_name", PStr "Alice"); ("last_name", PStr "Liddell")].

Definition bob : gmap string pyval :=
  dict [("_id", PId 2); ("email", PStr "bob@example.com");
        ("password", PStr "sha256:builderdefault_salt");
        ("first_name", PStr "Bob"); ("last_name", PStr "Builder")].

Definition world0 : world :=
  {| users := [alice; bob]; documents := []; session := ∅; clock := 1700000000;
     entropy := []; outbox := []; trace := [] |}.
End Sample.

(** A session in which the Google flow was started, and the redirect that
    answers it. *)
Definition started : world :=
  (@AuthRoutes.auth_google Sample.env (set_entropy [7%N; 3%N] Sample.world0)).2.

Definition redirect : callback_query :=
  {| q_code := Some "4/0AfJohXn"; q_state := Some "state-7";
     q_error := None; q_error_description := None |}.

(** A second redirect to the same session: another code, the same state. *)
Definition redirect_again : callback_query :=
  {| q_code := Some "4/0BgKpiYo"; q_state := Some "state-7";
     q_error := None; q_error_description := None |}.

(** The same for Facebook. *)
Definition started_facebook : world :=
  (@AuthRoutes.auth_facebook Sample.env (set_entropy [5%N] Sample.world0)).2.

Definition redirect_facebook : callback_query :=
  {| q_code := Some "AQDx9"; q_state := Some "state-5";
     q_error := None; q_error_description := None |}.

(** Alice has asked for a code; then Bob has, and drew the same one. *)
Definition asked : world :=
  (@AuthRoutes.forgot_password Sample.env "alice@example.com"
     (set_entropy [234%N; 234%N] Sample.world0)).2.

Definition both_asked : world :=
  (@AuthRoutes.forgot_password Sample.env "bob@example.com" asked).2.

Definition reset_request : ResetPasswordRequest :=
  {| otp := "1234"; new_password := "rabbit"; confirm_password := "rabbit" |}.

(** A store with one document of Alice and one of Bob. *)
Definition shelf : world :=
  {| users := users Sample.world0;
     documents :=
       [dict [("_id", PId 16); ("user_id", PStr (oid_str 1));
              ("document_name", PStr "passport"); ("scan_type", PStr "id")];
        dict [("_id", PId 17); ("user_id", PStr (oid_str 2));
              ("document_name", PStr "invoice"); ("scan_type", PStr "document")]];
     session := ∅; clock := 1700000000; entropy := []; outbox := [];
     trace := [] |}.

(** Alice as [get_current_user] returns her. *)
Definition alice_user : gmap string pyval :=
  dict [("id", PStr (oid_str 1)); ("email", PStr "alice@example.com")].

(** Two requests to register: one for Alice's address, one for a new one. *)
Definition alice_again : UserCreate :=
  {| uc_email := Some "alice@example.com"; uc_password := Some "looking-glass";
     uc_first_name := Some "Alice"; uc_last_name := Some "Liddell";
     uc_mobile_number := None |}.


(** The sample environment with a mail server that refuses every message. *)
Definition offline : Env := {|
  getenv := @getenv Sample.env;
  sha256_hexdigest := @sha256_hexdigest Sample.env;
  hs256 := @hs256 Sample.env;
  token_urlsafe := @token_urlsafe Sample.env;
  py_repr := @py_repr Sample.env;
  http_exception_str := @http_exception_str Sample.env;
  http_post := @http_post Sample.env;
  http_get := @http_get Sample.env;
  smtp_failure := λ _ _, Some "Connection refused";
  pydantic_accepts := @pydantic_accepts Sample.env;
  urlencode := @urlencode Sample.env;
  quote := @quote Sample.env;
  LINKEDIN_AUTH_URL := @LINKEDIN_AUTH_URL Sample.env;
  GOOGLE_SCOPES := @GOOGLE_SCOPES Sample.env;
  SECRET_KEY := @SECRET_KEY Sample.env;
  GOOGLE_CLIENT_ID := @GOOGLE_CLIENT_ID Sample.env;
  GOOGLE_CLIENT_SECRET := @GOOGLE_CLIENT_SECRET Sample.env;
  GOOGLE_REDIRECT_URI := @GOOGLE_REDIRECT_URI Sample.env;
  LINKEDIN_CLIENT_ID := @LINKEDIN_CLIENT_ID Sample.env;
  LINKEDIN_CLIENT_SECRET := @LINKEDIN_CLIENT_SECRET Sample.env;
  LINKEDIN_REDIRECT_URI := @LINKEDIN_REDIRECT_URI Sample.env;
  LINKEDIN_TOKEN_URL := @LINKEDIN_TOKEN_URL Sample.env;
  LINKEDIN_USER_INFO_URL := @LINKEDIN_USER_INFO_URL Sample.env;
  FACEBOOK_APP_ID := @FACEBOOK_APP_ID Sample.env;
  FACEBOOK_APP_SECRET := @FACEBOOK_APP_SECRET Sample.env;
  FACEBOOK_REDIRECT_URI := @FACEBOOK_REDIRECT_URI Sample.env
|}.

(** A world in which the next draw is 234, so that the next code is 1234. *)
Definition before_asking : world := set_entropy [234%N] Sample.world0.

(** A redirect that presents a state the session never held. *)
Definition forged : callback_query :=
  {| q_code := Some "4/0AfJohXn"; q_state := Some "state-8";
     q_error := None; q_error_description := None |}.

(** Bodies of document requests: a new document, a rename, and an update
    that sets nothing. *)
Definition visa : gmap string pyval :=
  dict [("document_name", PStr "visa"); ("scan_type", PStr "id")].

Definition rename : gmap string pyval :=
  dict [("document_name", PStr "old passport"); ("scan_type", PNone)].

Definition blank : gmap string pyval :=
  dict [("document_name", PNone); ("scan_type", PNone)].

(** Two profile patches for Alice: one gives a new first name and a
    mobile number, the other a new first name only. *)
Definition new_name : UserCreate :=
  {| uc_email := None; uc_password := Some "ignored";
     uc_first_name := Some "Alicia"; uc_last_name := None;
     uc_mobile_number := Some "+44 1865 270000" |}.

Definition new_first_name : UserCreate :=
  {| uc_email := None; uc_password := None;
     uc_first_name := Some "Alicia"; uc_last_name := None;
     uc_mobile_number := None |}.

(** The token Alice was issued at the sample time, and a reading of
    headers that knows its compact form. *)
Definition alice_claims : gmap string pyval :=
  dict [("sub", PStr (oid_str 1)); ("email", PStr "alice@example.com")].

Definition alice_token : pyval :=
  @AuthUtils.jwt_encode Sample.env
    (<["exp" := PInt (1700000000 + 24 * 60 * 60)]> alice_claims)
    (@SECRET_KEY Sample.env).

Definition read_token (s : string) : pyval :=
  if bool_decide (s = "alice.compact.token") then alice_token else PStr s.

(** * Properties *)

Global Arguments find_one : simpl never.
Global Arguments find : simpl never.
Global Arguments update_one : simpl never.
Global Arguments insert_one : simpl never.
Global Arguments modified_count : simpl never.
Global Arguments matches : simpl never.
Global Arguments AuthUtils.hash_password : simpl never.
Global Arguments oid_str : simpl never.

(** ** Running computations *)

Ltac unfold_monad :=
  unfold mbind, M_bind, mret, M_ret, bind, ret, raise, gets, modify, lift,
    try_except.

Ltac unfold_effects :=
  unfold session_get, session_set, session_pop, utcnow, randint, draw,
    send_post, send_get, users_find_one, users_insert_one, users_update_one,
    py_get, py_getitem.


(** A closed decidable statement, settled by running its decision. *)
Ltac by_running := apply (bool_decide_unpack _); vm_compute; exact I.

Section MongoFacts.
Implicit Types (c : list (gmap string pyval)) (d : gmap string pyval).
Implicit Types (filter : list (string * pyval)).

Lemma find_one_Some filter c d :
  find_one filter c = Some d → d ∈ c ∧ matches filter d = true.
Proof.
  unfold find_one. intros Hf. apply find_some in Hf as [Hin Hm].
  split; [by apply list_elem_of_In | done].
Qed.

Lemma find_one_None filter c d :
  find_one filter c = None → d ∈ c → matches filter d = false.
Proof.
  unfold find_one. intros Hf Hin. apply list_elem_of_In in Hin.
  apply not_true_is_false. intros Hm.
  by rewrite (find_none _ _ Hf _ Hin) in Hm.
Qed.

Lemma matches_cons filter k v d :
  matches ((k, v) :: filter) d = field_matches d (k, v) && matches filter d.
Proof. reflexivity. Qed.

(** A filter on a value that is not [null] pins the field. *)
Lemma field_matches_value d k v :
  v ≠ PNone → field_matches d (k, v) = bool_decide (d !! k = Some v).
Proof.
  intros Hv. unfold field_matches. cbn.
  rewrite (bool_decide_eq_false_2 (v = PNone)) by done.
  by rewrite andb_false_l, orb_false_r.
Qed.

Lemma matches_value_lookup filter k v d :
  v ≠ PNone → matches ((k, v) :: filter) d = true → d !! k = Some v.
Proof.
  intros Hv. rewrite matches_cons, field_matches_value by done.
  intros [Hk _]%andb_prop. by apply bool_decide_eq_true in Hk.
Qed.

Lemma truthy_not_None v : truthy v = true → v ≠ PNone.
Proof. by intros Ht ->. Qed.

Lemma truthy_found_None : truthy (found None) = false.
Proof. reflexivity. Qed.

(** What a filter on a present value finds is never an empty document. *)
Lemma truthy_found_Some filter k v c d :
  v ≠ PNone → find_one ((k, v) :: filter) c = Some d → truthy (PDict d) = true.
Proof.
  intros Hv [_ Hm]%find_one_Some.
  apply matches_value_lookup in Hm; [|done].
  cbn. apply negb_true_iff, bool_decide_eq_false. intros ->.
  by rewrite lookup_empty in Hm.
Qed.
End MongoFacts.

(** ** Collections as lists *)

Section MongoLists.
Implicit Types (c : list (gmap string pyval)) (d : gmap string pyval).
Implicit Types (filter : list (string * pyval)).

Lemma find_one_nil filter : find_one filter [] = None.
Proof. reflexivity. Qed.

Lemma find_one_cons filter d c :
  find_one filter (d :: c) = if matches filter d then Some d else find_one filter c.
Proof. reflexivity. Qed.

Lemma update_one_cons filter set unset d c :
  update_one filter set unset (d :: c)
  = if matches filter d then apply_update set unset d :: c
    else d :: update_one filter set unset c.
Proof. reflexivity. Qed.

Lemma find_cons filter d c :
  find filter (d :: c) = if matches filter d then d :: find filter c else find filter c.
Proof. reflexivity. Qed.

(** The first match splits the collection. *)
Lemma find_one_split filter c d :
  find_one filter c = Some d →
  ∃ c1 c2, c = c1 ++ d :: c2
           ∧ Forall (λ x, matches filter x = false) c1
           ∧ matches filter d = true.
Proof.
  induction c as [|x c IH]; [done|].
  rewrite find_one_cons. destruct (matches filter x) eqn:Hx.
  - intros [= ->]. by exists [], c.
  - intros (c1 & c2 & -> & Hc1 & Hd)%IH.
    exists (x :: c1), c2. split_and!; [done | by constructor | done].
Qed.

Lemma find_one_app_skip filter c1 c2 :
  Forall (λ x, matches filter x = false) c1 →
  find_one filter (c1 ++ c2) = find_one filter c2.
Proof.
  induction 1 as [|x c1 Hx _ IH]; [done|].
  cbn [app]. by rewrite find_one_cons, Hx.
Qed.

Lemma update_one_app_skip filter set unset c1 c2 :
  Forall (λ x, matches filter x = false) c1 →
  update_one filter set unset (c1 ++ c2) = c1 ++ update_one filter set unset c2.
Proof.
  induction 1 as [|x c1 Hx _ IH]; [done|].
  cbn [app]. by rewrite update_one_cons, Hx, IH.
Qed.

Lemma find_one_None_Forall filter c :
  find_one filter c = None ↔ Forall (λ x, matches filter x = false) c.
Proof.
  induction c as [|x c IH]; [by split|].
  rewrite find_one_cons. destruct (matches filter x) eqn:Hx.
  - split; [done|]. intros Hf. apply Forall_cons in Hf as [Hf _]. congruence.
  - rewrite IH. split; [by constructor | by intros [_ ?]%Forall_cons].
Qed.

Lemma update_one_no_match filter set unset c :
  find_one filter c = None → update_one filter set unset c = c.
Proof.
  intros Hf%find_one_None_Forall.
  rewrite <-(app_nil_r c) at 1. rewrite update_one_app_skip by done.
  by rewrite app_nil_r.
Qed.

Lemma find_app filter c1 c2 :
  find filter (c1 ++ c2) = find filter c1 ++ find filter c2.
Proof. unfold find. apply List.filter_app. Qed.

Lemma find_no_match filter c :
  Forall (λ x, matches filter x = false) c → find filter c = [].
Proof.
  induction 1 as [|x c Hx _ IH]; [done|]. by rewrite find_cons, Hx.
Qed.

Lemma find_nil_find_one filter c : find filter c = [] → find_one filter c = None.
Proof.
  induction c as [|x c IH]; [done|].
  rewrite find_cons, find_one_cons. destruct (matches filter x); [done | exact IH].
Qed.
End MongoLists.

(** ** Login failures *)

Section Login.
Import AuthUtils AuthRoutes.
Context `{Env}.



End Login.


(** ** Profile update with an empty patch *)

Section Profile.
Import AuthUtils AuthRoutes.
Context `{Env}.

(** C9. A profile update whose four patch slots are all absent leaves
    the world untouched, but the 400 "No update fields provided" raised
    inside the [try] block is caught by the blanket [except Exception]
    and re-raised as status 500. *)
Theorem update_profile_empty_patch (password : option string)
    (uid email : pyval) (w : world) :
  let patch := {| uc_email := None; uc_password := password;
                  uc_first_name := None; uc_last_name := None;
                  uc_mobile_number := None |} in
  let r := update_profile patch (PDict (dict [("id", uid); ("email", email)])) w in
  r = (inl (HTTPException 500
              ("An error occurred during profile update: "
               +:+ http_exception_str 400 "No update fields provided")), w)
  ∧ http_status r.1 = 500
  ∧ users r.2 = users w.
Proof.
  intros patch r. unfold r, update_profile, patch. cbn [uc_first_name
    uc_last_name uc_email uc_mobile_number add_field].
  split_and!; reflexivity.
Qed.
End Profile.

(** ** What a computation leaves alone

    [preserves R m]: every run of [m] takes a world to an [R]-related one,
    whether it returns or raises.  Used with [keeps k] (the session entry
    [k] is untouched) and [extends] (the trace only grows). *)

Section Frame.
Context (R : relation world) `{!PreOrder R}.

Lemma preserves_ret {A} (a : A) : preserves R (mret a).
Proof. intros w. reflexivity. Qed.

Lemma preserves_raise {A} (e : exn) : preserves R (@raise A e).
Proof. intros w. reflexivity. Qed.

Lemma preserves_gets {A} (f : world → A) : preserves R (gets f).
Proof. intros w. reflexivity. Qed.

Lemma preserves_lift {A} (r : exn + A) : preserves R (lift r).
Proof. intros w. reflexivity. Qed.

Lemma preserves_modify (f : world → world) :
  (∀ w, R w (f w)) → preserves R (modify f).
Proof. intros Hf w. apply Hf. Qed.

Lemma preserves_bind {A B} (m : M A) (k : A → M B) :
  preserves R m → (∀ a, preserves R (k a)) → preserves R (m ≫= k).
Proof.
  intros Hm Hk w. unfold_monad. specialize (Hm w).
  destruct (m w) as [[e|a] w1]; cbn in *; [done|].
  etrans; [exact Hm | apply Hk].
Qed.

Lemma preserves_try {A} (m : M A) (h : exn → M A) :
  preserves R m → (∀ e, preserves R (h e)) → preserves R (try_except m h).
Proof.
  intros Hm Hh w. unfold_monad. specialize (Hm w).
  destruct (m w) as [[e|a] w1]; cbn in *; [|done].
  etrans; [exact Hm | apply Hh].
Qed.
End Frame.

Global Instance keeps_preorder k : PreOrder (keeps k).
Proof.
  split; [by intros w |].
  intros a b c Hab Hbc. unfold keeps in *. congruence.
Qed.

Global Instance extends_preorder : PreOrder extends.
Proof.
  split.
  - intros w. exists []. by rewrite app_nil_r.
  - intros a b c [t1 H1] [t2 H2]. exists (t1 ++ t2).
    by rewrite H2, H1, app_assoc.
Qed.

Lemma keeps_log k e w : keeps k w (log e w).
Proof. reflexivity. Qed.

Lemma keeps_set_users k u w : keeps k w (set_users u w).
Proof. reflexivity. Qed.

Lemma keeps_set_entropy k u w : keeps k w (set_entropy u w).
Proof. reflexivity. Qed.

Lemma keeps_set_outbox k o w : keeps k w (set_outbox o w).
Proof. reflexivity. Qed.

Lemma keeps_set_session k k' v w :
  k' ≠ k → keeps k w (set_session (<[k' := v]> (session w)) w).
Proof. intros Hne. unfold keeps. cbn. by rewrite lookup_insert_ne. Qed.

Lemma extends_log e w : extends w (log e w).
Proof. by exists [e]. Qed.

Lemma extends_same_trace w w' : trace w' = trace w → extends w w'.
Proof. intros Ht. exists []. by rewrite app_nil_r. Qed.

Ltac frame_step :=
  lazymatch goal with
  | |- preserves _ (mret _) => apply preserves_ret
  | |- preserves _ (ret _) => apply preserves_ret
  | |- preserves _ (raise _) => apply preserves_raise
  | |- preserves _ (gets _) => apply preserves_gets
  | |- preserves _ (lift _) => apply preserves_lift
  | |- preserves _ (_ ≫= _) => apply preserves_bind
  | |- preserves _ (try_except _ _) => apply preserves_try
  | |- PreOrder _ => apply _
  | |- ∀ _, _ => intros ?
  | |- preserves _ (if ?b then _ else _) => destruct b
  | |- preserves _ (match ?x with _ => _ end) => destruct x
  | |- preserves _ (let _ := _ in _) => lazy zeta
  end.

Ltac unfold_handlers :=
  unfold AuthRoutes.reconcile, AuthUtils.generate_access_token,
    AuthUtils.verify_access_token, raise_for_status, response_json,
    AuthRoutes.api_error_handler, AuthUtils.send_email,
    AuthUtils.generate_temp_password, AuthUtils.generate_oauth_state;
  unfold_effects.

Ltac frame_keeps :=
  unfold_handlers;
  repeat first
    [ frame_step
    | apply preserves_modify; intros ?;
      first [ apply keeps_log | apply keeps_set_users | apply keeps_set_entropy
            | apply keeps_set_outbox | apply keeps_set_session; discriminate ] ].

Ltac frame_extends :=
  unfold_handlers;
  repeat first
    [ frame_step
    | apply preserves_modify; intros ?;
      first [ apply extends_log | by apply extends_same_trace ] ].

(** ** The OAuth callbacks, by provider *)

Section Providers.
Import AuthUtils AuthRoutes.
Context `{Env}.

Lemma callback_keeps_state p q : preserves (keeps (state_key p)) (callback p q).
Proof.
  destruct p; cbn [callback state_key].
  - unfold auth_google_callback. frame_keeps.
  - unfold linkedin_callback. frame_keeps.
  - unfold facebook_callback. frame_keeps.
Qed.

Lemma try_send_post_trace {A} url data (rest : http_response → M A) h w :
  (∀ a, preserves extends (rest a)) → (∀ e, preserves extends (h e)) →
  ∃ tr, trace (try_except (send_post url data ≫= rest) h w).2
        = trace w ++ EvHttpPost url data :: tr.
Proof.
  intros Hr Hh. unfold send_post. unfold_monad. cbn.
  destruct (http_post url data) as [e|a]; cbn.
  - destruct (Hh e (log (EvHttpPost url data) w)) as [tr Htr].
    exists tr. rewrite Htr. cbn. by rewrite <-app_assoc.
  - specialize (Hr a (log (EvHttpPost url data) w)).
    destruct (rest a (log (EvHttpPost url data) w)) as [[e|b] w'] eqn:Hrest;
      cbn in *.
    + destruct Hr as [tr Htr]. destruct (Hh e w') as [tr' Htr'].
      exists (tr ++ tr'). rewrite Htr', Htr. cbn. by rewrite <-!app_assoc.
    + destruct Hr as [tr Htr]. exists tr. rewrite Htr. cbn.
      by rewrite <-app_assoc.
Qed.

Lemma try_send_get_trace {A} url args (rest : http_response → M A) h w :
  (∀ a, preserves extends (rest a)) → (∀ e, preserves extends (h e)) →
  ∃ tr, trace (try_except (send_get url args ≫= rest) h w).2
        = trace w ++ EvHttpGet url args :: tr.
Proof.
  intros Hr Hh. unfold send_get. unfold_monad. cbn.
  destruct (http_get url args) as [e|a]; cbn.
  - destruct (Hh e (log (EvHttpGet url args) w)) as [tr Htr].
    exists tr. rewrite Htr. cbn. by rewrite <-app_assoc.
  - specialize (Hr a (log (EvHttpGet url args) w)).
    destruct (rest a (log (EvHttpGet url args) w)) as [[e|b] w'] eqn:Hrest;
      cbn in *.
    + destruct Hr as [tr Htr]. destruct (Hh e w') as [tr' Htr'].
      exists (tr ++ tr'). rewrite Htr', Htr. cbn. by rewrite <-!app_assoc.
    + destruct Hr as [tr Htr]. exists tr. rewrite Htr. cbn.
      by rewrite <-app_assoc.
Qed.
End Providers.

(** ** The OAuth state guard *)

Section StateGuard.
Import AuthUtils AuthRoutes.
Context `{Env}.

Ltac abstract_try :=
  lazy zeta;
  match goal with
  | |- context [try_except ?m ?h] => set (blk := try_except m h)
  end.

Lemma callback_guard_passes p q w :
  well_formed_query p q = true →
  truthy (stored_state p w) = true →
  stored_state p w = opt_str (q_state q) →
  ∃ tr, trace (callback p q w).2
        = trace w ++ EvSessionGet (state_key p) :: token_request p q :: tr.
Proof.
  unfold stored_state.
  destruct p; cbn [callback state_key well_formed_query token_request];
    intros Hq Ht Heq.
  - apply bool_decide_eq_true in Hq as [code Hcode].
    unfold auth_google_callback. rewrite Hcode. abstract_try.
    unfold session_get. unfold_monad. cbn.
    rewrite Ht, Heq, bool_decide_eq_true_2 by done. cbn. subst blk.
    edestruct (try_send_post_trace (A:=pyval)) as [tr Htr]; cycle 2.
    + exists tr. rewrite Htr. cbn. by rewrite <-app_assoc.
    + intros a. frame_extends.
    + intros e. frame_extends.
  - apply andb_prop in Hq as [[He Hc]%andb_prop Hs].
    apply negb_true_iff in He.
    unfold linkedin_callback. rewrite He, Hc, Hs. abstract_try.
    unfold session_get. unfold_monad. cbn.
    rewrite Ht, Heq, bool_decide_eq_true_2 by done. cbn. subst blk.
    edestruct (try_send_post_trace (A:=pyval)) as [tr Htr]; cycle 2.
    + exists tr. rewrite Htr. cbn. by rewrite <-app_assoc.
    + intros a. frame_extends.
    + intros e. frame_extends.
  - apply andb_prop in Hq as [[He Hc]%andb_prop Hs].
    apply negb_true_iff in He.
    unfold facebook_callback. rewrite He, Hc, Hs. abstract_try.
    unfold session_get. unfold_monad. cbn.
    rewrite Ht, Heq, bool_decide_eq_true_2 by done. cbn. subst blk.
    lazy zeta.
    edestruct (try_send_get_trace (A:=pyval)) as [tr Htr]; cycle 2.
    + exists tr. rewrite Htr. cbn. by rewrite <-app_assoc.
    + intros a. frame_extends.
    + intros e. frame_extends.
Qed.

Lemma guard_false (stored st : pyval) :
  negb (truthy stored) || negb (bool_decide (stored = st)) = false →
  truthy stored = true ∧ stored = st.
Proof.
  intros [Ht He]%orb_false_elim.
  apply negb_false_iff in Ht. apply negb_false_iff in He.
  by apply bool_decide_eq_true in He.
Qed.

Lemma callback_success_inv p q w body w1 :
  callback p q w = (inr body, w1) →
  well_formed_query p q = true
  ∧ truthy (stored_state p w) = true
  ∧ stored_state p w = opt_str (q_state q).
Proof.
  unfold stored_state.
  destruct p; cbn [callback state_key well_formed_query].
  - unfold auth_google_callback.
    destruct (q_code q) as [code|]; [|discriminate].
    abstract_try. unfold session_get. unfold_monad. cbn.
    destruct (negb _ || negb _) eqn:Hg; [discriminate|].
    apply guard_false in Hg.
    done.
  - unfold linkedin_callback.
    destruct (opt_truthy (q_error q)); [discriminate|].
    destruct (opt_truthy (q_code q)); [|discriminate].
    destruct (opt_truthy (q_state q)); [|discriminate].
    abstract_try. unfold session_get. unfold_monad. cbn.
    destruct (negb _ || negb _) eqn:Hg; [discriminate|].
    apply guard_false in Hg.
    done.
  - unfold facebook_callback.
    destruct (opt_truthy (q_error q)); [discriminate|].
    destruct (opt_truthy (q_code q)); [|discriminate].
    destruct (opt_truthy (q_state q)); [|discriminate].
    abstract_try. unfold session_get. unfold_monad. cbn.
    destruct (negb _ || negb _) eqn:Hg; [discriminate|].
    apply guard_false in Hg.
    done.
Qed.

Lemma callback_guard_rejects p q w :
  well_formed_query p q = true →
  session w !! state_key p = None →
  (callback p q w).1 = inl (HTTPException 400 "Invalid state parameter").
Proof.
  destruct p; cbn [callback state_key well_formed_query]; intros Hq Hs.
  - apply bool_decide_eq_true in Hq as [code Hcode].
    unfold auth_google_callback. rewrite Hcode. abstract_try.
    unfold session_get. unfold_monad. cbn. by rewrite Hs.
  - apply andb_prop in Hq as [[He Hc]%andb_prop Hst].
    apply negb_true_iff in He.
    unfold linkedin_callback. rewrite He, Hc, Hst. abstract_try.
    unfold session_get. unfold_monad. cbn. by rewrite Hs.
  - apply andb_prop in Hq as [[He Hc]%andb_prop Hst].
    apply negb_true_iff in He.
    unfold facebook_callback. rewrite He, Hc, Hst. abstract_try.
    unfold session_get. unfold_monad. cbn. by rewrite Hs.
Qed.

Lemma logout_clears_state p w : session (Main.logout w).2 !! state_key p = None.
Proof.
  unfold Main.logout. unfold_effects. unfold_monad. cbn.
  destruct p; cbn [state_key]; by simplify_map_eq.
Qed.

(** Every flow start overwrites the entry with a newly drawn token. *)
Lemma start_writes_state p w :
  session (start p w).2 !! state_key p
  = Some (PStr (token_urlsafe (default 0%N (head (entropy w))))).
Proof.
  destruct p; cbn [start state_key];
    unfold auth_google, auth_linkedin, auth_facebook, generate_oauth_state;
    unfold_effects; unfold_monad; cbn;
    destruct (entropy w); cbn; by simplify_map_eq.
Qed.

(** C4 (as the code has it). The state entry is written once at every
    flow start and is not consumed by the matching successful callback.
    When a callback succeeds with state [s]: the session holds for that
    provider what it held before the callback, which is [s]; and a second
    callback in that session presenting the same [s] (with a code and no
    provider error) is not rejected at the state check: it passes and
    goes on to the code-for-token request. *)
Theorem oauth_state_survives_callback (p : provider) (q : callback_query)
    (w w1 : world) (body : pyval) :
  callback p q w = (inr body, w1) →
  (∀ w0, session (start p w0).2 !! state_key p
         = Some (PStr (token_urlsafe (default 0%N (head (entropy w0))))))
  ∧ session w1 !! state_key p = session w !! state_key p
  ∧ stored_state p w1 = opt_str (q_state q)
  ∧ truthy (stored_state p w1) = true
  ∧ (∀ q', q_state q' = q_state q →
           opt_truthy (q_code q') = true →
           opt_truthy (q_error q') = false →
       ∃ tr, trace (callback p q' w1).2
             = trace w1 ++ EvSessionGet (state_key p) :: token_request p q' :: tr).
Proof.
  intros Hok.
  assert (Hkeep : session w1 !! state_key p = session w !! state_key p).
  { pose proof (callback_keeps_state p q w) as Hk.
    unfold keeps in Hk. by rewrite Hok in Hk. }
  destruct (callback_success_inv _ _ _ _ _ Hok) as (Hq & Ht & Hs).
  assert (Hs1 : stored_state p w1 = opt_str (q_state q))
    by (unfold stored_state in *; by rewrite Hkeep).
  split_and!; [apply start_writes_state | done | done | by rewrite Hs1, <-Hs |].
  intros q' Hst Hcode Herr. apply callback_guard_passes.
  - destruct p; cbn [well_formed_query].
    + destruct (q_code q'); [by apply bool_decide_eq_true_2 | done].
    + rewrite Herr, Hcode. cbn. unfold opt_truthy. by rewrite Hst, <-Hs.
    + rewrite Herr, Hcode. cbn. unfold opt_truthy. by rewrite Hst, <-Hs.
  - by rewrite Hs1, <-Hs.
  - by rewrite Hst.
Qed.
End StateGuard.

(** C4 (as stated) fails: after a callback has succeeded with a state, a
    second callback in the same session presenting the same state succeeds
    as well. *)
Lemma second_callback_same_state_accepted :
  let first := @AuthRoutes.auth_google_callback Sample.env redirect started in
  let second :=
    @AuthRoutes.auth_google_callback Sample.env redirect_again first.2 in
  q_state redirect_again = q_state redirect
  ∧ http_status first.1 = 200
  ∧ http_status second.1 = 200.
Proof. cbv zeta. by_running. Qed.

Lemma oauth_state_survives_callback_witness :
  let first := @callback Sample.env Google redirect started in
  session first.2 !! "google_oauth_state" = Some (PStr "state-7")
  ∧ ∃ tr, trace (@callback Sample.env Google redirect_again first.2).2
          = trace first.2 ++ EvSessionGet "google_oauth_state"
                             :: @token_request Sample.env Google redirect_again :: tr.
Proof.
  intros first.
  destruct (@oauth_state_survives_callback Sample.env Google redirect started
              first.2 (match first.1 with inr b => b | inl _ => PNone end))
    as (_ & Hkeep & _ & _ & Hagain).
  - by_running.
  - split.
    + cbn [state_key] in Hkeep. rewrite Hkeep. by_running.
    + apply (Hagain redirect_again); reflexivity.
Defined.

(** ** Successful runs, step by step *)

Section Inversion.
Import AuthUtils AuthRoutes.
Context `{Env}.

Lemma bind_inr {A B} (m : M A) (k : A → M B) w b w' :
  (m ≫= k) w = (inr b, w') → ∃ a w0, m w = (inr a, w0) ∧ k a w0 = (inr b, w').
Proof.
  unfold_monad. destruct (m w) as [[e|a] w0]; [discriminate|]. eauto.
Qed.

Lemma try_inr {A} (m : M A) (h : exn → M A) w b w' :
  (∀ e w0, ∃ e', (h e w0).1 = inl e') →
  try_except m h w = (inr b, w') → m w = (inr b, w').
Proof.
  intros Hh. unfold_monad. destruct (m w) as [[e|a] w0]; [|done].
  destruct (Hh e w0) as [e' He']. intros Heq. rewrite Heq in He'. discriminate.
Qed.

Lemma api_error_handler_raises provider e w0 :
  ∃ e', (api_error_handler provider e w0).1 = inl e'.
Proof. destruct e; cbn; eauto. Qed.

Lemma send_get_inr url args w r w' :
  send_get url args w = (inr r, w') →
  http_get url args = inr r ∧ w' = log (EvHttpGet url args) w.
Proof.
  unfold send_get. unfold_monad. cbn. destruct (http_get url args); [discriminate|].
  by intros [= -> <-].
Qed.

Lemma send_post_inr url args w r w' :
  send_post url args w = (inr r, w') →
  http_post url args = inr r ∧ w' = log (EvHttpPost url args) w.
Proof.
  unfold send_post. unfold_monad. cbn. destruct (http_post url args); [discriminate|].
  by intros [= -> <-].
Qed.

Lemma raise_for_status_inr r w u w' :
  raise_for_status r w = (inr u, w') → w' = w.
Proof.
  unfold raise_for_status. destruct (_ && _); [|discriminate]. by intros [= _ <-].
Qed.

Lemma response_json_inr r w v w' :
  response_json r w = (inr v, w') → json_body r = Some v ∧ w' = w.
Proof.
  unfold response_json. destruct (json_body r); [|discriminate]. by intros [= -> <-].
Qed.

Lemma py_get_inr v k dflt w x w' :
  py_get v k dflt w = (inr x, w') →
  ∃ d, v = PDict d ∧ x = default dflt (d !! k) ∧ w' = w.
Proof.
  unfold py_get. destruct v; try discriminate. intros [= <- <-]. eauto.
Qed.

Lemma py_getitem_inr v k w x w' :
  py_getitem v k w = (inr x, w') →
  ∃ d, v = PDict d ∧ d !! k = Some x ∧ w' = w.
Proof.
  unfold py_getitem. destruct v; try discriminate.
  destruct (d !! k) eqn:Hk; [|discriminate]. intros [= <- <-]. eauto.
Qed.

Lemma session_set_inr k v w u w' :
  session_set k v w = (inr u, w') →
  w' = set_session (<[k := v]> (session w)) (log (EvSessionSet k v) w).
Proof. unfold session_set. unfold_monad. cbn. by intros [= <-]. Qed.

Lemma generate_access_token_inr user_data w tok w' :
  generate_access_token user_data None w = (inr tok, w') →
  tok = jwt_encode (<["exp" := PInt (clock w + 24 * 60 * 60)]> user_data) SECRET_KEY
  ∧ w' = w.
Proof.
  unfold generate_access_token, utcnow. unfold_monad. cbn. by intros [= <- <-].
Qed.
End Inversion.

Ltac inv_bind_as H Hs :=
  let a := fresh "a" in
  let w0 := fresh "w" in
  apply bind_inr in H as (a & w0 & Hs & H); cbv beta in H.

Ltac inv_bind H := let Hs := fresh "Hstep" in inv_bind_as H Hs.

(** ** Which token a callback returns *)

Section CallbackToken.
Import AuthUtils AuthRoutes.
Context `{Env}.

(** A token made by [generate_access_token] verifies at any clock reading
    before its expiry. *)
Lemma verify_issued (claims : gmap string pyval) (issued : Z) (w : world) :
  clock w < issued + 24 * 60 * 60 →
  (verify_access_token
     (jwt_encode (<["exp" := PInt (issued + 24 * 60 * 60)]> claims) SECRET_KEY) w).1
  = inr (<["exp" := PInt (issued + 24 * 60 * 60)]> claims).
Proof.
  intros Hlt. unfold verify_access_token, utcnow, jwt_encode, jwt_decode.
  unfold_monad. cbn.
  rewrite bool_decide_eq_true_2 by done.
  rewrite lookup_insert_eq.
  destruct (Z.leb_spec (issued + 24 * 60 * 60) (clock w)); [lia | done].
Qed.

(** Nothing but an issued token verifies: a plain string never does. *)
Lemma verify_plain_string (s : string) (w : world) :
  (verify_access_token (PStr s) w).1 = inl (ValueError "Invalid token").
Proof. reflexivity. Qed.

(** C1, at the Facebook callback. Whenever the handler succeeds, the
    [access_token] field of its response is the value the provider's token
    endpoint returned under [access_token], passed through unchanged; when
    that is a string, as a provider token is, it does not verify as an
    identity token. *)
Theorem facebook_callback_returns_provider_token (q : callback_query)
    (w w1 : world) (body : pyval) :
  facebook_callback q w = (inr body, w1) →
  ∃ resp td tok b,
    http_get "https://graph.facebook.com/v12.0/oauth/access_token"
      [("client_id", FACEBOOK_APP_ID); ("client_secret", FACEBOOK_APP_SECRET);
       ("redirect_uri", FACEBOOK_REDIRECT_URI); ("code", default "" (q_code q))]
    = inr resp
    ∧ json_body resp = Some (PDict td)
    ∧ td !! "access_token" = Some tok
    ∧ body = PDict b
    ∧ b !! "access_token" = Some tok
    ∧ (∀ s w', tok = PStr s →
         (verify_access_token tok w').1 = inl (ValueError "Invalid token")).
Proof.
  unfold facebook_callback.
  destruct (opt_truthy (q_error q)); [discriminate|].
  destruct (negb _ || negb _) eqn:Hpar; [discriminate|].
  intros Hok. inv_bind Hok.
  destruct (negb _ || negb _) eqn:Hg in Hok; [discriminate|].
  apply try_inr in Hok; [|apply api_error_handler_raises].
  lazy zeta in Hok.
  inv_bind_as Hok Hs. apply send_get_inr in Hs as [Htok ->].
  inv_bind_as Hok Hs. apply raise_for_status_inr in Hs as ->.
  inv_bind_as Hok Hs. apply response_json_inr in Hs as [Hjson ->].
  inv_bind_as Hok Hs. apply py_getitem_inr in Hs as (td & -> & Hat & ->).
  repeat (inv_bind Hok).
  destruct (negb (truthy _)) in Hok; [discriminate|].
  repeat (inv_bind Hok).
  injection Hok as <- _.
  eexists _, td, _, _. split_and!; try done.
  intros s w' ->. apply verify_plain_string.
Qed.

(** The sibling paths: a successful Google or LinkedIn callback returns
    a token issued by [generate_access_token] that verifies in the
    resulting world, with the reconciled user id as its subject. *)
Lemma google_callback_issues_identity_token (q : callback_query)
    (w w1 : world) (body : pyval) :
  auth_google_callback q w = (inr body, w1) →
  ∃ b tok user uid claims,
    body = PDict b
    ∧ b !! "access_token" = Some tok
    ∧ b !! "user" = Some (PDict user)
    ∧ user !! "id" = Some (PStr uid)
    ∧ (verify_access_token tok w1).1 = inr claims
    ∧ claims !! "sub" = Some (PStr uid).
Proof.
  unfold auth_google_callback.
  destruct (q_code q) as [code|]; [|discriminate].
  intros Hok. inv_bind Hok.
  destruct (negb _ || negb _) eqn:Hg in Hok; [discriminate|].
  apply try_inr in Hok; [|intros; cbn; eauto].
  lazy zeta in Hok.
  repeat (inv_bind Hok).
  destruct (negb (truthy _)) in Hok; [discriminate|].
  repeat (inv_bind Hok).
  destruct (negb (truthy _)) in Hok; [discriminate|].
  inv_bind Hok.
  inv_bind_as Hok Hs. apply generate_access_token_inr in Hs as [-> ->].
  inv_bind_as Hok Hs. apply session_set_inr in Hs as ->.
  injection Hok as <- <-.
  eexists _, _, _, _, _. split_and!; [done | done | done | done | |].
  - apply verify_issued. cbn. lia.
  - by simplify_map_eq.
Qed.

Lemma linkedin_callback_issues_identity_token (q : callback_query)
    (w w1 : world) (body : pyval) :
  linkedin_callback q w = (inr body, w1) →
  ∃ b tok user uid claims,
    body = PDict b
    ∧ b !! "access_token" = Some tok
    ∧ b !! "user" = Some (PDict user)
    ∧ user !! "id" = Some (PStr uid)
    ∧ (verify_access_token tok w1).1 = inr claims
    ∧ claims !! "sub" = Some (PStr uid).
Proof.
  unfold linkedin_callback.
  destruct (opt_truthy (q_error q)); [discriminate|].
  destruct (negb _ || negb _) eqn:Hpar; [discriminate|].
  intros Hok. inv_bind Hok.
  destruct (negb _ || negb _) eqn:Hg in Hok; [discriminate|].
  apply try_inr in Hok; [|apply api_error_handler_raises].
  lazy zeta in Hok.
  repeat (inv_bind Hok).
  destruct (negb (truthy _)) in Hok; [discriminate|].
  inv_bind Hok.
  inv_bind_as Hok Hs. apply generate_access_token_inr in Hs as [-> ->].
  inv_bind_as Hok Hs. apply session_set_inr in Hs as ->.
  injection Hok as <- <-.
  eexists _, _, _, _, _. split_and!; [done | done | done | done | |].
  - apply verify_issued. cbn. lia.
  - by simplify_map_eq.
Qed.
End CallbackToken.

Lemma facebook_callback_returns_provider_token_witness :
  let r := @AuthRoutes.facebook_callback Sample.env redirect_facebook started_facebook in
  ∃ b, r.1 = inr (PDict b)
       ∧ b !! "access_token" = Some (PStr "provider-access-token")
       ∧ (@AuthUtils.verify_access_token Sample.env
            (PStr "provider-access-token") r.2).1
         = inl (ValueError "Invalid token").
Proof.
  intros r.
  destruct (@facebook_callback_returns_provider_token Sample.env
              redirect_facebook started_facebook r.2
              (match r.1 with inr b => b | inl _ => PNone end))
    as (resp & td & tok & b & Hget & Hjson & Htd & Hb & Hbt & Hver).
  - by_running.
  - injection Hget as <-. injection Hjson as <-.
    assert (Htok : tok = PStr "provider-access-token")
      by (apply (inj Some); rewrite <-Htd; by_running).
    subst tok. exists b. split_and!.
    + rewrite <-Hb. by_running.
    + exact Hbt.
    + reflexivity.
Defined.

(** ** Provider-reported errors *)

Section ProviderError.
Import AuthUtils AuthRoutes.
Context `{Env}.

(** LinkedIn and Facebook: an [error] parameter ends the request at once,
    before the session or the network is touched. *)
Lemma linkedin_callback_provider_error (q : callback_query) (w : world) :
  opt_truthy (q_error q) = true →
  linkedin_callback q w
  = (inl (HTTPException 400
            (provider_error_msg "LinkedIn" (default "" (q_error q))
                                (q_error_description q))), w).
Proof. intros He. unfold linkedin_callback. by rewrite He. Qed.

Lemma facebook_callback_provider_error (q : callback_query) (w : world) :
  opt_truthy (q_error q) = true →
  facebook_callback q w
  = (inl (HTTPException 400
            (provider_error_msg "Facebook" (default "" (q_error q))
                                (q_error_description q))), w).
Proof. intros He. unfold facebook_callback. by rewrite He. Qed.

Lemma session_get_first {A} (k : string) (rest : pyval → M A) (w : world) :
  (∀ a, preserves extends (rest a)) →
  ∃ tr, trace ((session_get k ≫= rest) w).2 = trace w ++ EvSessionGet k :: tr.
Proof.
  intros Hr. unfold session_get. unfold_monad. cbn.
  destruct (Hr (default PNone (session w !! k)) (log (EvSessionGet k) w))
    as [tr Htr].
  exists tr. rewrite Htr. cbn. by rewrite <-app_assoc.
Qed.

(** C2, at the Google callback. The handler never looks at the provider's
    [error] parameter: its outcome is that of the same request without it.
    With a [code] it goes on to read the stored state from the session, and
    when the presented state matches it sends the code-for-token request;
    without a [code] the request is refused as malformed (422), not as
    denied by the provider. *)
Theorem google_callback_ignores_provider_error (code error : string)
    (state description : option string) (c : Ascii.ascii) (s : string)
    (w : world) :
  let q := {| q_code := Some code; q_state := state;
              q_error := Some error; q_error_description := description |} in
  let matching := {| q_code := Some code; q_state := Some (String c s);
                     q_error := Some error;
                     q_error_description := description |} in
  let holding :=
    set_session (<["google_oauth_state" := PStr (String c s)]> (session w)) w in
  auth_google_callback q w
  = auth_google_callback {| q_code := Some code; q_state := state;
                            q_error := None; q_error_description := None |} w
  ∧ (∃ tr, trace (auth_google_callback q w).2
           = trace w ++ EvSessionGet "google_oauth_state" :: tr)
  ∧ (∃ tr, trace (auth_google_callback matching holding).2
           = trace holding ++ EvSessionGet "google_oauth_state"
               :: token_request Google matching :: tr)
  ∧ auth_google_callback {| q_code := None; q_state := state;
                            q_error := Some error;
                            q_error_description := description |} w
    = (inl (RequestValidationError "code"), w).
Proof.
  intros q matching holding. split_and!.
  - reflexivity.
  - unfold auth_google_callback. cbn [q_code q]. lazy zeta.
    apply session_get_first. intros a. frame_extends.
  - apply (callback_guard_passes Google matching holding).
    + reflexivity.
    + unfold stored_state, holding. cbn. by rewrite lookup_insert_eq.
    + unfold stored_state, holding. cbn. by rewrite lookup_insert_eq.
  - reflexivity.
Qed.
End ProviderError.

(** The same on a concrete request: the session started a Google flow, the
    redirect carries [error=access_denied] next to a code and the state,
    and the user is logged in all the same. *)
Lemma google_callback_logs_in_despite_error :
  let q := {| q_code := Some "4/0AfJohXn"; q_state := Some "state-7";
              q_error := Some "access_denied";
              q_error_description := Some "The user denied the request" |} in
  http_status (@AuthRoutes.auth_google_callback Sample.env q started).1 = 200.
Proof. cbv zeta. by_running. Qed.

(** ** One-time codes *)

Section Otp.
Import AuthUtils AuthRoutes.
Context `{Env}.

Lemma forgot_password_users (email : string) (w : world) :
  users (forgot_password email w).2
  = if truthy (found (find_one [("email", PStr email)] (users w)))
    then update_one [("email", PStr email)]
           (dict [("temp_password", PStr (hash_password (drawn_code w)))]) []
           (users w)
    else users w.
Proof.
  unfold forgot_password, generate_temp_password, send_email, drawn_code.
  unfold_effects. unfold_monad. cbn.
  destruct (truthy (found _)); cbn; [|done].
  destruct (entropy w); cbn; destruct (smtp_failure _ _); reflexivity.
Qed.

Lemma reset_password_ignores_clock (reset_data : ResetPasswordRequest)
    (t : Z) (w : world) :
  reset_password reset_data (set_clock t w)
  = ((reset_password reset_data w).1, set_clock t (reset_password reset_data w).2).
Proof.
  unfold reset_password.
  destruct (negb (bool_decide _)); [done|].
  unfold_effects. unfold_monad. cbn.
  destruct (truthy (found _)); cbn; [|done].
  destruct (found _); try done.
  destruct (d !! "_id"); done.
Qed.

(** C3, as the code has it. [forgot_password] writes the salted hash of the
    code under [temp_password] and nothing else: no expiry is stored.  And
    [reset_password] never reads the clock: whatever it answers at one
    time it answers at any other, so a correct code is accepted however
    late it is presented. *)
Theorem otp_has_no_expiry (email : string) (reset_data : ResetPasswordRequest)
    (t : Z) (w : world) :
  users (forgot_password email w).2
  = (if truthy (found (find_one [("email", PStr email)] (users w)))
     then update_one [("email", PStr email)]
            (dict [("temp_password", PStr (hash_password (drawn_code w)))]) []
            (users w)
     else users w)
  ∧ (reset_password reset_data (set_clock t w)).1
    = (reset_password reset_data w).1.
Proof.
  split; [apply forgot_password_users|].
  by rewrite reset_password_ignores_clock.
Qed.
End Otp.

(** The same on a concrete run: Alice asks for a code, the code is
    presented a year later, and the password is reset. *)
Lemma late_reset_succeeds :
  let asked :=
    (@AuthRoutes.forgot_password Sample.env "alice@example.com"
       (set_entropy [234%N] Sample.world0)).2 in
  let late := set_clock (clock asked + 365 * 24 * 60 * 60) asked in
  let reset := @AuthRoutes.reset_password Sample.env
      {| otp := "1234"; new_password := "rabbit"; confirm_password := "rabbit" |}
      late in
  outbox asked = [("alice@example.com", "Your temporary password is: 1234")]
  ∧ find_one [("email", PStr "alice@example.com")] (users asked)
    = Some (<["temp_password" := PStr "sha256:1234default_salt"]> Sample.alice)
  ∧ http_status reset.1 = 200
  ∧ find_one [("email", PStr "alice@example.com")] (users reset.2)
    = Some (<["password" := PStr "sha256:rabbitdefault_salt"]> Sample.alice).
Proof. cbv zeta. by_running. Qed.

(** The helpers of [auth_utils.py] that the two routes do not call do keep
    an expiry: a code made by [generate_otp] verifies a minute later and no
    longer after fifteen. *)
Lemma helpers_enforce_expiry :
  let issued := @AuthUtils.generate_otp Sample.env "alice@example.com"
                  (set_entropy [234%N] Sample.world0) in
  let soon := set_clock (clock issued.2 + 60) issued.2 in
  let late := set_clock (clock issued.2 + 15 * 60 + 1) issued.2 in
  issued.1 = inr "1234"
  ∧ (@AuthUtils.verify_otp Sample.env "alice@example.com" "1234" soon).1 = inr true
  ∧ (@AuthUtils.verify_otp Sample.env "alice@example.com" "1234" late).1 = inr false.
Proof. cbv zeta. by_running. Qed.

(** ** Identity tokens *)

Section Tokens.
Import AuthUtils.
Context `{Env}.

Lemma verify_outcomes (token : pyval) (w : world) :
  (∃ claims, verify_access_token token w = (inr claims, w))
  ∨ verify_access_token token w = (inl (ValueError "Token has expired"), w)
  ∨ verify_access_token token w = (inl (ValueError "Invalid token"), w).
Proof.
  unfold verify_access_token, utcnow. unfold_monad. cbn.
  destruct (jwt_decode _ _ _) as [[]|claims]; eauto.
Qed.

Lemma verify_bad_signature (payload : gmap string pyval) (sig : string)
    (w : world) :
  sig ≠ hs256 SECRET_KEY payload →
  (verify_access_token (PTok payload sig) w).1 = inl (ValueError "Invalid token").
Proof.
  intros Hsig. unfold verify_access_token, utcnow, jwt_decode. unfold_monad. cbn.
  by rewrite bool_decide_eq_false_2.
Qed.

(** C5. A token issued from [claims] carries the claims with [exp] set to
    the issue time plus the time to live (one day unless given).  Verified
    at a time before [exp] it returns exactly that payload, which agrees
    with [claims] on every other key; verified at or after [exp] it fails
    as expired.  A token whose signature or payload was altered (the
    signature no longer being the one of the payload) fails as invalid,
    and no verification fails in any other way. *)
Theorem token_round_trip (claims : gmap string pyval) (expires_delta : option Z)
    (w w' : world) :
  let ttl := default (24 * 60 * 60) expires_delta in
  let payload := <["exp" := PInt (clock w + ttl)]> claims in
  let signature := hs256 SECRET_KEY payload in
  generate_access_token claims expires_delta w = (inr (PTok payload signature), w)
  ∧ (verify_access_token (PTok payload signature) w').1
    = (if clock w' <? clock w + ttl then inr payload
       else inl (ValueError "Token has expired"))
  ∧ (∀ k, k ≠ "exp" → payload !! k = claims !! k)
  ∧ (∀ signature', signature' ≠ signature →
       (verify_access_token (PTok payload signature') w').1
       = inl (ValueError "Invalid token"))
  ∧ (∀ payload', hs256 SECRET_KEY payload' ≠ signature →
       (verify_access_token (PTok payload' signature) w').1
       = inl (ValueError "Invalid token"))
  ∧ (∀ token,
       (∃ c, verify_access_token token w' = (inr c, w'))
       ∨ verify_access_token token w' = (inl (ValueError "Token has expired"), w')
       ∨ verify_access_token token w' = (inl (ValueError "Invalid token"), w')).
Proof.
  intros ttl payload signature. split_and!.
  - reflexivity.
  - unfold verify_access_token, utcnow, jwt_decode. unfold_monad. cbn.
    rewrite bool_decide_eq_true_2 by done.
    unfold payload. rewrite lookup_insert_eq.
    destruct (Z.leb_spec (clock w + ttl) (clock w'));
      destruct (Z.ltb_spec (clock w') (clock w + ttl)); (done || lia).
  - intros k Hk. unfold payload. by rewrite lookup_insert_ne.
  - intros signature' Hne. by apply verify_bad_signature.
  - intros payload' Hne. apply verify_bad_signature. congruence.
  - intros token. apply verify_outcomes.
Qed.
End Tokens.

Lemma token_round_trip_witness :
  let claims := dict [("sub", PStr (oid_str 1)); ("email", PStr "alice@example.com")] in
  let issued := Sample.world0 in
  let later := set_clock (clock issued + 3600) issued in
  let expired := set_clock (clock issued + 86400) issued in
  let payload := <["exp" := PInt (clock issued + 86400)]> claims in
  let forged := <["sub" := PStr (oid_str 2)]> payload in
  ∃ signature,
    @AuthUtils.generate_access_token Sample.env claims None issued
    = (inr (PTok payload signature), issued)
    ∧ (@AuthUtils.verify_access_token Sample.env (PTok payload signature) later).1
      = inr payload
    ∧ (@AuthUtils.verify_access_token Sample.env (PTok payload signature) expired).1
      = inl (ValueError "Token has expired")
    ∧ payload !! "sub" = claims !! "sub"
    ∧ (@AuthUtils.verify_access_token Sample.env (PTok payload "forged") later).1
      = inl (ValueError "Invalid token")
    ∧ (@AuthUtils.verify_access_token Sample.env (PTok forged signature) later).1
      = inl (ValueError "Invalid token").
Proof.
  intros claims issued later expired payload forged.
  exists (@hs256 Sample.env (@SECRET_KEY Sample.env) payload).
  destruct (@token_round_trip Sample.env claims None issued later)
    as (Hissue & Hok & Hsame & Hsig & Hpay & _).
  destruct (@token_round_trip Sample.env claims None issued expired)
    as (_ & Hexp & _).
  split_and!.
  - exact Hissue.
  - exact Hok.
  - exact Hexp.
  - apply Hsame. discriminate.
  - apply Hsig. by_running.
  - apply Hpay. by_running.
Defined.

(** ** Password reset *)

Section Reset.
Import AuthUtils AuthRoutes.
Context `{Env}.
Implicit Types (c : list (gmap string pyval)) (d : gmap string pyval).

Lemma has_id_doc_id d : has_id d → d !! "_id" = Some (PId (doc_id d)).
Proof. intros [n Hn]. unfold doc_id. by rewrite Hn. Qed.

Lemma matches_single k v d :
  v ≠ PNone → matches [(k, v)] d = bool_decide (d !! k = Some v).
Proof.
  intros Hv. rewrite matches_cons, field_matches_value by done.
  unfold matches. cbn. apply andb_true_r.
Qed.

Lemma matches_id d n : matches [("_id", PId n)] d = true → doc_id d = n.
Proof.
  intros Hm. apply matches_value_lookup in Hm; [|done].
  unfold doc_id. by rewrite Hm.
Qed.

Lemma matches_id_self d : has_id d → matches [("_id", PId (doc_id d))] d = true.
Proof.
  intros Hd%has_id_doc_id. rewrite matches_single by done.
  by apply bool_decide_eq_true_2.
Qed.

(** With unique ids, the documents around one are not found by its id. *)
Lemma unique_id_before c1 d c2 :
  NoDup (doc_id <$> (c1 ++ d :: c2)) →
  Forall (λ x, matches [("_id", PId (doc_id d))] x = false) c1.
Proof.
  rewrite fmap_app, fmap_cons. intros Hnd.
  apply NoDup_app in Hnd as (_ & Hdisj & _).
  apply Forall_forall. intros x Hx. apply not_true_is_false. intros Hm%matches_id.
  apply (Hdisj (doc_id x)); [by apply list_elem_of_fmap_2 | rewrite Hm; left].
Qed.

Lemma unique_id_after c1 d c2 x :
  NoDup (doc_id <$> (c1 ++ d :: c2)) → x ∈ c2 → doc_id x ≠ doc_id d.
Proof.
  rewrite fmap_app, fmap_cons. intros Hnd Hx Heq.
  apply NoDup_app in Hnd as (_ & _ & Hnd).
  apply NoDup_cons in Hnd as [Hnotin _].
  apply Hnotin. rewrite <-Heq. by apply list_elem_of_fmap_2.
Qed.

Lemma reset_password_mismatch (r : ResetPasswordRequest) w :
  new_password r ≠ confirm_password r →
  reset_password r w = (inl (HTTPException 400 "Passwords do not match"), w).
Proof.
  intros Hne. unfold reset_password. by rewrite bool_decide_eq_false_2.
Qed.

Lemma reset_password_unknown (r : ResetPasswordRequest) w :
  new_password r = confirm_password r →
  find_one [("temp_password", PStr (hash_password (otp r)))] (users w) = None →
  (reset_password r w).1 = inl (HTTPException 400 "Invalid OTP")
  ∧ users (reset_password r w).2 = users w.
Proof.
  intros Heq Hf. unfold reset_password. rewrite bool_decide_eq_true_2 by done.
  unfold_effects. unfold_monad. cbn. by rewrite Hf.
Qed.

Lemma reset_password_found (r : ResetPasswordRequest) w d :
  has_id d →
  new_password r = confirm_password r →
  find_one [("temp_password", PStr (hash_password (otp r)))] (users w) = Some d →
  (reset_password r w).1
  = inr (PDict (dict [("message", PStr "Password reset successfully")]))
  ∧ users (reset_password r w).2
    = update_one [("_id", PId (doc_id d))] (reset_update (new_password r))
        ["temp_password"] (users w).
Proof.
  intros Hid Heq Hf. unfold reset_password. rewrite bool_decide_eq_true_2 by done.
  unfold_effects. unfold_monad. cbn. rewrite Hf. cbn [found].
  assert (Ht : truthy (PDict d) = true)
    by (eapply truthy_found_Some; [|exact Hf]; discriminate).
  rewrite Ht. cbn. by rewrite (has_id_doc_id _ Hid).
Qed.

Lemma reset_update_lookup (new : string) d :
  let d' := apply_update (reset_update new) ["temp_password"] d in
  d' !! "temp_password" = None
  ∧ d' !! "password" = Some (PStr (hash_password new))
  ∧ d' !! "_id" = d !! "_id".
Proof.
  unfold apply_update, reset_update, dict. cbn. split_and!.
  - by rewrite lookup_delete_eq.
  - rewrite lookup_delete_ne by done.
    rewrite lookup_union_l'; by rewrite lookup_insert_eq.
  - rewrite lookup_delete_ne by done.
    rewrite lookup_union_r; [done|]. by rewrite lookup_insert_ne.
Qed.

Lemma reset_password_success (r : ResetPasswordRequest) (w : world)
    (d : gmap string pyval) :
  let code := [("temp_password", PStr (hash_password (otp r)))] in
  let w1 := (reset_password r w).2 in
  well_formed (users w) →
  new_password r = confirm_password r →
  find_one code (users w) = Some d →
  (reset_password r w).1
  = inr (PDict (dict [("message", PStr "Password reset successfully")]))
  ∧ users w1
    = update_one [("_id", PId (doc_id d))] (reset_update (new_password r))
        ["temp_password"] (users w)
  ∧ (∃ d', find_one [("_id", PId (doc_id d))] (users w1) = Some d'
           ∧ d' !! "temp_password" = None
           ∧ d' !! "password" = Some (PStr (hash_password (new_password r))))
  ∧ ((∀ x, x ∈ users w → x !! "temp_password" = Some (PStr (hash_password (otp r))) →
           doc_id x = doc_id d) →
     (reset_password r w1).1 = inl (HTTPException 400 "Invalid OTP")
     ∧ users (reset_password r w1).2 = users w1).
Proof.
  intros code w1 [Hids Hnd] Heq Hf.
  destruct (find_one_split _ _ _ Hf) as (c1 & c2 & Hc & Hc1 & Hd).
  assert (Hid : has_id d).
  { rewrite Forall_forall in Hids. apply Hids. rewrite Hc. set_solver. }
  destruct (reset_password_found r w d Hid Heq Hf) as [Hres Husers].
  rewrite Hc in Hnd.
  assert (Hupd : users w1
                 = c1 ++ apply_update (reset_update (new_password r))
                           ["temp_password"] d :: c2).
  { unfold w1. rewrite Husers, Hc.
    rewrite update_one_app_skip by (by eapply unique_id_before).
    by rewrite update_one_cons, matches_id_self. }
  destruct (reset_update_lookup (new_password r) d) as (Htemp & Hpw & Hid').
  split_and!; [done | done | |].
  - eexists. split_and!; [|exact Htemp|exact Hpw].
    rewrite Hupd, find_one_app_skip by (by eapply unique_id_before).
    rewrite find_one_cons.
    replace (matches _ _) with true; [done|].
    symmetry. rewrite matches_single by done.
    apply bool_decide_eq_true_2. by rewrite Hid', (has_id_doc_id _ Hid).
  - intros Hsole. apply reset_password_unknown; [done|].
    rewrite Hupd. apply find_one_None_Forall.
    apply Forall_app. split; [done|]. apply Forall_cons. split.
    + unfold code. rewrite matches_single by done.
      apply bool_decide_eq_false_2. by rewrite Htemp.
    + apply Forall_forall. intros x Hx. apply not_true_is_false. intros Hm.
      apply matches_value_lookup in Hm; [|done].
      apply (unique_id_after _ _ _ x Hnd Hx).
      apply Hsole; [|done]. rewrite Hc. set_solver.
Qed.

(** C6 (as the code has it). A reset with mismatched confirmation or with
    a code no user holds fails and leaves the store as it was.  A reset
    that matches a user clears that user's [temp_password] in the very
    update that sets the new password; presenting the same code again then
    fails, provided no other user holds the same code hash (the lookup is
    by hash alone). *)
Theorem reset_password_consumes_code (r : ResetPasswordRequest) (w : world) :
  let code := [("temp_password", PStr (hash_password (otp r)))] in
  let w1 := (reset_password r w).2 in
  well_formed (users w) →
  (new_password r ≠ confirm_password r →
     reset_password r w = (inl (HTTPException 400 "Passwords do not match"), w))
  ∧ (new_password r = confirm_password r → find_one code (users w) = None →
       (reset_password r w).1 = inl (HTTPException 400 "Invalid OTP")
       ∧ users w1 = users w)
  ∧ (∀ d, new_password r = confirm_password r → find_one code (users w) = Some d →
       (reset_password r w).1
       = inr (PDict (dict [("message", PStr "Password reset successfully")]))
       ∧ users w1
         = update_one [("_id", PId (doc_id d))] (reset_update (new_password r))
             ["temp_password"] (users w)
       ∧ (∃ d', find_one [("_id", PId (doc_id d))] (users w1) = Some d'
                ∧ d' !! "temp_password" = None
                ∧ d' !! "password" = Some (PStr (hash_password (new_password r))))
       ∧ ((∀ x, x ∈ users w →
                x !! "temp_password" = Some (PStr (hash_password (otp r))) →
                doc_id x = doc_id d) →
          (reset_password r w1).1 = inl (HTTPException 400 "Invalid OTP")
          ∧ users (reset_password r w1).2 = users w1)).
Proof.
  intros code w1 Hwf. split_and!.
  - apply reset_password_mismatch.
  - apply reset_password_unknown.
  - intros d Heq Hf. by apply reset_password_success.
Qed.
End Reset.

(** C6 (as stated) fails: when two users hold the same code, a second
    reset presenting the code again succeeds, on the other user. *)
Lemma second_reset_same_code_succeeds :
  let first := @AuthRoutes.reset_password Sample.env reset_request both_asked in
  let second := @AuthRoutes.reset_password Sample.env reset_request first.2 in
  http_status first.1 = 200
  ∧ http_status second.1 = 200
  ∧ find_one [("email", PStr "bob@example.com")] (users second.2)
    = Some (<["password" := PStr "sha256:rabbitdefault_salt"]> Sample.bob).
Proof. cbv zeta. by_running. Qed.

Lemma asked_well_formed : well_formed (users asked).
Proof.
  split.
  - repeat constructor; eexists; reflexivity.
  - apply (bool_decide_unpack _). vm_compute. exact I.
Qed.

Lemma reset_password_consumes_code_witness :
  let first := @AuthRoutes.reset_password Sample.env reset_request asked in
  let second := @AuthRoutes.reset_password Sample.env reset_request first.2 in
  http_status first.1 = 200
  ∧ second.1 = inl (HTTPException 400 "Invalid OTP")
  ∧ users second.2 = users first.2.
Proof.
  intros first second.
  destruct (@reset_password_consumes_code Sample.env reset_request asked
              asked_well_formed) as (_ & _ & Hok).
  destruct (Hok (<["temp_password" := PStr "sha256:1234default_salt"]> Sample.alice))
    as (Hres & _ & _ & Hreplay).
  - reflexivity.
  - by_running.
  - destruct Hreplay as [Hfail Hsame].
    + refine (proj1 (Forall_forall _ _) _). by_running.
    + split_and!; [|exact Hfail|exact Hsame].
      unfold first. by rewrite Hres.
Defined.

(** ** Account reconciliation *)

Section Reconcile.
Import AuthUtils AuthRoutes.
Context `{Env}.
Implicit Types (c : list (gmap string pyval)) (d fields : gmap string pyval).

Lemma reconcile_insert email fields w :
  find_one [("email", email)] (users w) = None →
  (reconcile email fields w).1 = inr (oid_str (fresh_id (users w)))
  ∧ users (reconcile email fields w).2 = users w ++ [new_user email fields w].
Proof.
  intros Hf. unfold reconcile, new_user. unfold_effects. unfold_monad. cbn.
  rewrite Hf. cbn. destruct (entropy w); done.
Qed.

Lemma reconcile_update email fields w d :
  email ≠ PNone → has_id d →
  find_one [("email", email)] (users w) = Some d →
  (reconcile email fields w).1 = inr (oid_str (doc_id d))
  ∧ users (reconcile email fields w).2
    = update_one [("email", email)] fields [] (users w).
Proof.
  intros He Hid Hf. unfold reconcile. unfold_effects. unfold_monad. cbn.
  rewrite Hf. cbn [found].
  assert (Ht : truthy (PDict d) = true) by (by eapply truthy_found_Some).
  rewrite Ht. cbn. by rewrite (has_id_doc_id _ Hid).
Qed.

Lemma reconcile_twice email fields w :
  truthy email = true →
  fields !! "email" = None → fields !! "_id" = None → fields !! "password" = None →
  Forall has_id (users w) →
  (length (find [("email", email)] (users w)) ≤ 1)%nat →
  let w1 := (reconcile email fields w).2 in
  let w2 := (reconcile email fields w1).2 in
  ∃ uid, (reconcile email fields w).1 = inr uid
         ∧ (reconcile email fields w1).1 = inr uid
         ∧ users w2 = users w1
         ∧ length (find [("email", email)] (users w2)) = 1%nat
         ∧ (∀ d, find_one [("email", email)] (users w) = Some d →
              find_one [("email", email)] (users w1) = Some (fields ∪ d)
              ∧ length (users w1) = length (users w)
              ∧ (fields ∪ d) !! "password" = d !! "password"
              ∧ (∀ k, fields !! k = None → (fields ∪ d) !! k = d !! k)).
Proof.
  intros Ht%truthy_not_None Hfe Hfi Hfp Hids Hcount w1 w2.
  destruct (find_one [("email", email)] (users w)) as [d|] eqn:Hf.
  - (* the email is known: the first document with it is rewritten *)
    destruct (find_one_split _ _ _ Hf) as (c1 & c2 & Hc & Hc1 & Hd).
    assert (Hid : has_id d).
    { rewrite Forall_forall in Hids. apply Hids. rewrite Hc. set_solver. }
    destruct (reconcile_update email fields w d Ht Hid Hf) as [Hr1 Hu1].
    assert (Hd' : matches [("email", email)] (fields ∪ d) = true).
    { rewrite matches_single in Hd |- * by done.
      apply bool_decide_eq_true in Hd. apply bool_decide_eq_true_2.
      by rewrite lookup_union_r. }
    assert (Hw1 : users w1 = c1 ++ (fields ∪ d) :: c2).
    { unfold w1. rewrite Hu1, Hc, update_one_app_skip by done.
      by rewrite update_one_cons, Hd. }
    assert (Hf1 : find_one [("email", email)] (users w1) = Some (fields ∪ d)).
    { rewrite Hw1, find_one_app_skip by done. by rewrite find_one_cons, Hd'. }
    assert (Hid' : has_id (fields ∪ d)).
    { destruct Hid as [n Hn]. exists n. by rewrite lookup_union_r. }
    destruct (reconcile_update email fields w1 _ Ht Hid' Hf1) as [Hr2 Hu2].
    assert (Hw2 : users w2 = users w1).
    { unfold w2. rewrite Hu2, Hw1, update_one_app_skip by done.
      rewrite update_one_cons, Hd'. unfold apply_update. cbn.
      by rewrite (assoc_L (∪)), (idemp_L (∪)). }
    exists (oid_str (doc_id d)). split_and!; [done | | done | |].
    + rewrite Hr2. unfold doc_id. by rewrite lookup_union_r.
    + rewrite Hw2, Hw1, find_app, (find_no_match _ c1 Hc1), find_cons, Hd'.
      rewrite Hc, find_app, (find_no_match _ c1 Hc1), find_cons, Hd in Hcount.
      cbn in *. destruct (find _ c2); [done | cbn in Hcount; lia].
    + intros ? [= <-]. split_and!; [done | | |].
      * rewrite Hw1, Hc. by rewrite !length_app.
      * by rewrite lookup_union_r.
      * intros k Hk. by rewrite lookup_union_r.
  - (* the email is new: one document is appended *)
    destruct (reconcile_insert email fields w Hf) as [Hr1 Hu1].
    set (d := new_user email fields w) in *.
    assert (Hnone := proj1 (find_one_None_Forall _ _) Hf).
    assert (Hd : matches [("email", email)] d = true).
    { rewrite matches_single by done. apply bool_decide_eq_true_2.
      unfold d, new_user. by simplify_map_eq. }
    assert (Hf1 : find_one [("email", email)] (users w1) = Some d).
    { unfold w1. rewrite Hu1, find_one_app_skip by done.
      by rewrite find_one_cons, Hd. }
    assert (Hid : has_id d).
    { eexists. unfold d, new_user. by rewrite lookup_insert_eq. }
    destruct (reconcile_update email fields w1 _ Ht Hid Hf1) as [Hr2 Hu2].
    assert (Hsub : fields ∪ d = d).
    { apply map_subseteq_union. unfold d, new_user.
      do 3 (apply insert_subseteq_r; [done|]). done. }
    assert (Hw2 : users w2 = users w1).
    { unfold w2. rewrite Hu2. unfold w1. rewrite Hu1.
      rewrite update_one_app_skip by done.
      rewrite update_one_cons, Hd. unfold apply_update. cbn. by rewrite Hsub. }
    exists (oid_str (fresh_id (users w))). split_and!; [done | | done | | done].
    + rewrite Hr2. unfold doc_id, d, new_user. by rewrite lookup_insert_eq.
    + rewrite Hw2. unfold w1. rewrite Hu1, find_app, (find_no_match _ _ Hnone).
      by rewrite find_cons, Hd.
Qed.

Lemma provider_fields_only p first_name last_name external_id picture k :
  k ∉ overwritten →
  provider_fields p first_name last_name external_id picture !! k = None.
Proof.
  unfold overwritten. rewrite !not_elem_of_cons.
  intros (? & ? & ? & ? & ? & ? & _).
  destruct p; cbn; unfold google_fields, linkedin_fields, facebook_fields, dict;
    cbn; by simplify_map_eq.
Qed.

Lemma provider_fields_values p first_name last_name external_id picture :
  let fields := provider_fields p first_name last_name external_id picture in
  fields !! "first_name" = Some first_name
  ∧ fields !! "last_name" = Some last_name
  ∧ fields !! "auth_provider" = Some (PStr (provider_name p)).
Proof.
  destruct p; cbn; unfold google_fields, linkedin_fields, facebook_fields, dict;
    cbn; split_and!; by simplify_map_eq.
Qed.

(** The record of a known email is rewritten where it stands. *)
Lemma reconcile_known email fields w d :
  truthy email = true →
  Forall has_id (users w) →
  find_one [("email", email)] (users w) = Some d →
  ∃ c1 c2, users w = c1 ++ d :: c2
           ∧ users (reconcile email fields w).2 = c1 ++ (fields ∪ d) :: c2.
Proof.
  intros Ht%truthy_not_None Hids Hf.
  destruct (find_one_split _ _ _ Hf) as (c1 & c2 & Hc & Hc1 & Hd).
  assert (Hid : has_id d).
  { rewrite Forall_forall in Hids. apply Hids. rewrite Hc.
    apply elem_of_app. right. left. }
  destruct (reconcile_update email fields w d Ht Hid Hf) as [_ Hu1].
  exists c1, c2. split; [done|].
  rewrite Hu1, Hc, update_one_app_skip by done.
  by rewrite update_one_cons, Hd.
Qed.

(** C7. For the profile of any of the three providers, in a store whose
    documents carry ids and which holds at most one record for the email:
    reconciling twice returns the same user id both times, the second run
    changes nothing, and exactly one record for the email is stored.
    When the email was known beforehand, its record is rewritten where it
    stands and no record is added: the name and provider-linkage fields
    of the profile are written over the stored ones (first name, last
    name and the provider's name among them), while the password and
    every field other than the name and provider-linkage ones keep their
    stored values.  When the email was new, one record is appended. *)
Theorem reconcile_idempotent (p : provider)
    (email first_name last_name external_id picture : pyval) (w : world) :
  let fields := provider_fields p first_name last_name external_id picture in
  let w1 := (reconcile email fields w).2 in
  let w2 := (reconcile email fields w1).2 in
  truthy email = true →
  Forall has_id (users w) →
  (length (find [("email", email)] (users w)) ≤ 1)%nat →
  ∃ uid, (reconcile email fields w).1 = inr uid
         ∧ (reconcile email fields w1).1 = inr uid
         ∧ users w2 = users w1
         ∧ length (find [("email", email)] (users w2)) = 1%nat
         ∧ (∀ d, find_one [("email", email)] (users w) = Some d →
              ∃ d', find_one [("email", email)] (users w1) = Some d'
                    ∧ length (users w1) = length (users w)
                    ∧ d' !! "password" = d !! "password"
                    ∧ (∀ k, k ∉ overwritten → d' !! k = d !! k)
                    ∧ (∀ k v, fields !! k = Some v → d' !! k = Some v)
                    ∧ d' !! "first_name" = Some first_name
                    ∧ d' !! "last_name" = Some last_name
                    ∧ d' !! "auth_provider" = Some (PStr (provider_name p))
                    ∧ uid = oid_str (doc_id d)
                    ∧ (∃ c1 c2, users w = c1 ++ d :: c2
                                ∧ users w1 = c1 ++ d' :: c2))
         ∧ (find_one [("email", email)] (users w) = None →
              uid = oid_str (fresh_id (users w))
              ∧ users w1 = users w ++ [new_user email fields w]).
Proof.
  intros fields w1 w2 Ht Hids Hcount.
  assert (Hk : ∀ k, k ∉ overwritten → fields !! k = None)
    by (intros k; apply provider_fields_only).
  assert (Hfe : fields !! "email" = None)
    by (apply Hk, (bool_decide_unpack _); vm_compute; exact I).
  assert (Hfi : fields !! "_id" = None)
    by (apply Hk, (bool_decide_unpack _); vm_compute; exact I).
  assert (Hfp : fields !! "password" = None)
    by (apply Hk, (bool_decide_unpack _); vm_compute; exact I).
  destruct (provider_fields_values p first_name last_name external_id picture)
    as (Hfn & Hln & Hap).
  fold fields in Hfn, Hln, Hap.
  destruct (reconcile_twice email fields w Ht Hfe Hfi Hfp Hids Hcount)
    as (uid & Hfirst & Hsecond & Hsame & Hone & Hknown).
  exists uid. split_and!; [done | done | done | done | |].
  - intros d Hd. destruct (Hknown d Hd) as (Hf & Hlen & Hpw & Hother).
    assert (Hwritten : ∀ k v, fields !! k = Some v → (fields ∪ d) !! k = Some v)
      by (intros k v Hkv; by apply lookup_union_Some_l).
    exists (fields ∪ d). split_and!; [exact Hf | done | done | | done | | | | |].
    + intros k Hnot. apply Hother, Hk, Hnot.
    + by apply Hwritten.
    + by apply Hwritten.
    + by apply Hwritten.
    + assert (Hid : has_id d).
      { apply find_one_Some in Hd as [Hin _].
        rewrite Forall_forall in Hids. by apply Hids. }
      destruct (reconcile_update email fields w d (truthy_not_None _ Ht) Hid Hd)
        as [Hr _].
      rewrite Hr in Hfirst. by injection Hfirst as <-.
    + by apply reconcile_known.
  - intros Hnone. destruct (reconcile_insert email fields w Hnone) as [Hr Hu].
    split; [|exact Hu].
    rewrite Hr in Hfirst. by injection Hfirst as <-.
Qed.
End Reconcile.

Lemma sample_users_have_ids : Forall has_id (users Sample.world0).
Proof. repeat constructor; eexists; reflexivity. Qed.

Lemma reconcile_idempotent_witness :
  let email := PStr "alice@example.com" in
  let fields := @AuthRoutes.google_fields (PStr "Alice") (PStr "Pleasance") in
  let w1 := (@AuthRoutes.reconcile Sample.env email fields Sample.world0).2 in
  let w2 := (@AuthRoutes.reconcile Sample.env email fields w1).2 in
  ∃ uid, (@AuthRoutes.reconcile Sample.env email fields Sample.world0).1 = inr uid
         ∧ (@AuthRoutes.reconcile Sample.env email fields w1).1 = inr uid
         ∧ users w2 = users w1
         ∧ length (find [("email", email)] (users w2)) = 1%nat
         ∧ ∃ d', find_one [("email", email)] (users w1) = Some d'
                 ∧ d' !! "last_name" = Some (PStr "Pleasance")
                 ∧ d' !! "auth_provider" = Some (PStr "google")
                 ∧ d' !! "password" = Some (PStr "sha256:wonderlanddefault_salt").
Proof.
  intros email fields w1 w2.
  destruct (@reconcile_idempotent Sample.env Google email (PStr "Alice")
              (PStr "Pleasance") PNone PNone Sample.world0)
    as (uid & H1 & H2 & H3 & H4 & Hknown & _).
  - reflexivity.
  - exact sample_users_have_ids.
  - by_running.
  - destruct (Hknown Sample.alice) as (d' & Hf & _ & Hpw & _ & _ & _ & Hln & Hap & _).
    + by_running.
    + exists uid. split_and!; [exact H1 | exact H2 | exact H3 | exact H4 |].
      exists d'. split_and!; [exact Hf | exact Hln | exact Hap |].
      rewrite Hpw. by_running.
Defined.

(** ** Documents and their owners *)

Section Documents.
Import AuthUtils AuthRoutes DocumentRoutes.
Context `{Env}.
Implicit Types (c : list (gmap string pyval)) (d : gmap string pyval).

Lemma field_matches_get d k v : field_matches d (k, v) = true → default PNone (d !! k) = v.
Proof.
  unfold field_matches. cbn. intros [Hk|[Hv Hk]%andb_prop]%orb_prop.
  - apply bool_decide_eq_true in Hk. by rewrite Hk.
  - apply bool_decide_eq_true in Hv, Hk. by rewrite Hk, Hv.
Qed.

Lemma matches_owner filter d uid :
  ("user_id", uid) ∈ filter → matches filter d = true → owner d = uid.
Proof.
  intros Hin Hm. unfold matches in Hm. rewrite forallb_forall in Hm.
  apply field_matches_get, Hm. by apply list_elem_of_In.
Qed.

Lemma find_elem_of filter c d : d ∈ find filter c → matches filter d = true.
Proof.
  unfold find. rewrite list_elem_of_In, filter_In. by intros [_ ?].
Qed.

Lemma from_mongo_owner d w d' w' :
  from_mongo d w = (inr d', w') → owner d' = owner d.
Proof.
  unfold from_mongo. lazy zeta.
  destruct (pydantic_accepts _); [|discriminate].
  intros [= <- _]. unfold owner.
  destruct (d !! "_id"); [|done].
  by rewrite lookup_insert_ne, lookup_delete_ne.
Qed.

Lemma for_each_from_mongo_owner (uid : pyval) c r w w' :
  Forall (λ d, owner d = uid) c →
  for_each from_mongo c w = (inr r, w') →
  Forall (λ d, owner d = uid) r.
Proof.
  intros Hc. revert r w w'. induction Hc as [|d c Hd Hc IH]; intros r w w'.
  - cbn. by intros [= <- _].
  - cbn [for_each]. intros Hrun.
    inv_bind_as Hrun Hs. inv_bind_as Hrun Hs'.
    injection Hrun as <- _. constructor.
    + by rewrite (from_mongo_owner _ _ _ _ Hs).
    + by eapply IH.
Qed.

Lemma documents_find_owned filter skip limit w l w' uid :
  ("user_id", uid) ∈ filter →
  documents_find filter skip limit w = (inr l, w') →
  Forall (λ d, owner d = uid) l.
Proof.
  intros Hin. unfold documents_find. unfold_monad. cbn.
  destruct (skip <? 0); [discriminate|]. destruct (limit <? 0); [discriminate|].
  intros [= <- _]. apply Forall_forall. intros d Hd.
  apply subseteq_take, subseteq_drop in Hd.
  eapply matches_owner; [done|]. by eapply find_elem_of.
Qed.

Lemma read_documents_owned skip limit (cu : gmap string pyval) uid w r w' :
  cu !! "id" = Some uid →
  read_documents skip limit (PDict cu) w = (inr r, w') →
  Forall (λ d, owner d = uid) r.
Proof.
  intros Hid. unfold read_documents, py_getitem. rewrite Hid.
  intros Hrun. inv_bind_as Hrun Hs. injection Hs as <- <-.
  inv_bind_as Hrun Hs.
  eapply for_each_from_mongo_owner; [|exact Hrun].
  eapply documents_find_owned; [|exact Hs]. set_solver.
Qed.

Lemma read_document_owned document_id (cu : gmap string pyval) uid w d w' :
  cu !! "id" = Some uid →
  read_document document_id (PDict cu) w = (inr d, w') →
  owner d = uid.
Proof.
  intros Hid. unfold read_document, py_getitem. rewrite Hid.
  destruct (negb _); [discriminate|].
  intros Hrun. inv_bind_as Hrun Hs. inv_bind_as Hrun Hs'.
  injection Hs' as <- <-.
  inv_bind_as Hrun Hs'.
  unfold documents_find_one in Hs'. revert Hs'. unfold_monad. cbn.
  intros [= <- <-].
  destruct (find_one _ _) as [x|] eqn:Hf; cbn [found] in Hrun; [|discriminate].
  rewrite (from_mongo_owner _ _ _ _ Hrun).
  apply find_one_Some in Hf as [_ Hm].
  eapply matches_owner; [|exact Hm]. set_solver.
Qed.

Lemma read_document_not_owned document_id oid (cu : gmap string pyval) uid w :
  cu !! "id" = Some uid →
  ObjectId document_id = Some oid →
  (∀ x, x ∈ documents w → x !! "_id" = Some (PId oid) → owner x ≠ uid) →
  (read_document document_id (PDict cu) w).1
  = inl (HTTPException 404 "Document not found or unauthorized").
Proof.
  intros Hid Hoid Hnot. unfold read_document, py_getitem, ObjectId_is_valid.
  rewrite Hid. unfold make_object_id, documents_find_one. rewrite Hoid.
  unfold_monad. cbn.
  replace (find_one _ _) with (@None (gmap string pyval)); [done|].
  symmetry. apply find_one_None_Forall, Forall_forall. intros x Hx.
  apply not_true_is_false. intros Hm.
  apply (Hnot x Hx).
  - eapply matches_value_lookup; [|exact Hm]. done.
  - eapply matches_owner; [|exact Hm]. set_solver.
Qed.

(** C8. Whatever the store holds, a listing returns only records whose
    [user_id] is the requester's id, and so does a single read; a read of
    an [_id] that exists only under other owners fails with 404
    "Document not found or unauthorized". *)
Theorem documents_owner_scoped (current_user : gmap string pyval)
    (uid : pyval) (w : world) :
  current_user !! "id" = Some uid →
  (∀ skip limit r w',
     read_documents skip limit (PDict current_user) w = (inr r, w') →
     Forall (λ d, owner d = uid) r)
  ∧ (∀ document_id d w',
       read_document document_id (PDict current_user) w = (inr d, w') →
       owner d = uid)
  ∧ (∀ document_id oid,
       ObjectId document_id = Some oid →
       (∀ x, x ∈ documents w → x !! "_id" = Some (PId oid) → owner x ≠ uid) →
       (read_document document_id (PDict current_user) w).1
       = inl (HTTPException 404 "Document not found or unauthorized")).
Proof.
  intros Hid. split_and!.
  - intros skip limit r w'. by apply read_documents_owned.
  - intros document_id d w'. by apply read_document_owned.
  - intros document_id oid. by apply read_document_not_owned.
Qed.
End Documents.

Lemma documents_owner_scoped_witness :
  (@DocumentRoutes.read_documents Sample.env 0 10 (PDict alice_user) shelf).1
  = inr [dict [("id", PStr (oid_str 16)); ("user_id", PStr (oid_str 1));
               ("document_name", PStr "passport"); ("scan_type", PStr "id")]]
  ∧ (@DocumentRoutes.read_document Sample.env (oid_str 17) (PDict alice_user) shelf).1
    = inl (HTTPException 404 "Document not found or unauthorized").
Proof.
  destruct (@documents_owner_scoped Sample.env alice_user (PStr (oid_str 1)) shelf)
    as (_ & _ & Hother).
  - reflexivity.
  - split; [by_running|].
    apply (Hother (oid_str 17) 17%N).
    + by_running.
    + refine (proj1 (Forall_forall _ _) _). by_running.
Defined.

(** ** Registration, login and the temporary password *)

Section Credentials.
Import AuthUtils AuthRoutes.
Context {env : Env}.
Implicit Types (c : list (gmap string pyval)) (d : gmap string pyval).


(** X1. Registering an address that a stored user already has is refused
    with 400 "Email already registered"; nothing is stored and no token
    is issued: the lookup is the only thing that happened. *)
Theorem register_user_duplicate (user : UserCreate) (e : string) (w : world)
    (d : gmap string pyval) :
  uc_email user = Some e →
  find_one [("email", PStr e)] (users w) = Some d →
  register_user user w
  = (inl (HTTPException 400 "Email already registered"),
     log (EvUsersFind [("email", PStr e)]) w).
Proof.
  intros He Hf. unfold register_user. rewrite He. cbn [opt_str].
  unfold_effects. unfold_monad. cbn. rewrite Hf. cbn [found].
  assert (Ht : truthy (PDict d) = true)
    by (eapply truthy_found_Some; [|exact Hf]; discriminate).
  by rewrite Ht.
Qed.









Lemma dict_single_union (k : string) (v : pyval) d :
  dict [(k, v)] ∪ d = <[k := v]> d.
Proof.
  unfold dict. cbn. by rewrite <-insert_union_l, (left_id_L ∅ (∪)).
Qed.

Lemma drawn_code_digits (w : world) :
  ∃ r, 1000 ≤ r ≤ 9999 ∧ drawn_code w = pretty r.
Proof.
  eexists. split; [|reflexivity].
  pose proof (Z.mod_pos_bound
                (Z.of_N (default 0%N (head (entropy w)))) (9999 - 1000 + 1)).
  lia.
Qed.

Lemma forgot_password_run (email : string) (w : world) (d : gmap string pyval) :
  find_one [("email", PStr email)] (users w) = Some d →
  let body := "Your temporary password is: " +:+ drawn_code w in
  (forgot_password email w).1
  = match smtp_failure email body with
    | Some err => inl (PyError err)
    | None => inr (PDict (dict [("message", PStr "Temporary password sent to your email")]))
    end
  ∧ outbox (forgot_password email w).2
    = match smtp_failure email body with
      | Some _ => outbox w
      | None => outbox w ++ [(email, body)]
      end.
Proof.
  intros Hf body. unfold body, forgot_password, generate_temp_password, send_email,
    drawn_code.
  unfold_effects. unfold_monad. cbn. rewrite Hf. cbn [found].
  assert (Ht : truthy (PDict d) = true)
    by (eapply truthy_found_Some; [|exact Hf]; discriminate).
  rewrite Ht. cbn.
  destruct (entropy w); cbn; destruct (smtp_failure _ _); done.
Qed.

Lemma forgot_password_stored (email : string) (w : world) (d : gmap string pyval) :
  find_one [("email", PStr email)] (users w) = Some d →
  let d' := <["temp_password" := PStr (hash_password (drawn_code w))]> d in
  find_one [("email", PStr email)] (users (forgot_password email w).2) = Some d'
  ∧ length (users (forgot_password email w).2) = length (users w)
  ∧ (∀ x, x ∈ users (forgot_password email w).2 → x = d' ∨ x ∈ users w).
Proof.
  intros Hf d'. rewrite forgot_password_users, Hf. cbn [found].
  assert (Ht : truthy (PDict d) = true)
    by (eapply truthy_found_Some; [|exact Hf]; discriminate).
  rewrite Ht.
  destruct (find_one_split _ _ _ Hf) as (c1 & c2 & Hc & Hc1 & Hd).
  rewrite Hc, update_one_app_skip, update_one_cons, Hd by done.
  unfold apply_update. cbn [foldr]. rewrite dict_single_union. fold d'.
  assert (Hd' : matches [("email", PStr email)] d' = true).
  { rewrite matches_single in Hd |- * by done.
    apply bool_decide_eq_true in Hd. apply bool_decide_eq_true_2.
    unfold d'. by rewrite lookup_insert_ne. }
  split_and!.
  - rewrite find_one_app_skip by done. by rewrite find_one_cons, Hd'.
  - by rewrite !length_app.
  - intros x [Hx|[->|Hx]%elem_of_cons]%elem_of_app.
    + right. apply elem_of_app. by left.
    + by left.
    + right. apply elem_of_app. right. by right.
Qed.

(** X3. A temporary password asked for an address no user has is refused
    with 400 "Email not found": no user is written and no mail is sent. *)
Theorem forgot_password_unknown_email (email : string) (w : world) :
  find_one [("email", PStr email)] (users w) = None →
  forgot_password email w
  = (inl (HTTPException 400 "Email not found"),
     log (EvUsersFind [("email", PStr email)]) w).
Proof.
  intros Hf. unfold forgot_password. unfold_effects. unfold_monad. cbn.
  by rewrite Hf.
Qed.

(** X4. When the mail server accepts the message, [forgot_password]
    answers 200, the code it mails is a number from 1000 to 9999, and what
    it stored under [temp_password] of that user is the hash of the very
    code it mailed; no user is added or removed. *)
Theorem forgot_password_mails_stored_code (email : string) (w : world)
    (d : gmap string pyval) :
  let w1 := (forgot_password email w).2 in
  find_one [("email", PStr email)] (users w) = Some d →
  smtp_failure email ("Your temporary password is: " +:+ drawn_code w) = None →
  ∃ r, 1000 ≤ r ≤ 9999
       ∧ http_status (forgot_password email w).1 = 200
       ∧ outbox w1 = outbox w ++ [(email, "Your temporary password is: " +:+ pretty r)]
       ∧ find_one [("email", PStr email)] (users w1)
         = Some (<["temp_password" := PStr (hash_password (pretty r))]> d)
       ∧ length (users w1) = length (users w).
Proof.
  intros w1 Hf Hmail.
  destruct (drawn_code_digits w) as (r & Hr & Hcode).
  destruct (forgot_password_run email w d Hf) as [Hres Hout].
  destruct (forgot_password_stored email w d Hf) as (Hst & Hlen & _).
  rewrite Hmail in Hres, Hout. rewrite Hcode in Hout, Hst.
  exists r. split_and!; [lia | lia | by rewrite Hres | done | done | done].
Qed.

(** X5. The temporary password is stored before the mail is sent: when
    the mail server refuses the message the request fails with status 500
    and nothing is in the outbox, yet the user keeps the hash of the code
    nobody received. *)
Theorem forgot_password_mail_refused (email err : string) (w : world)
    (d : gmap string pyval) :
  let w1 := (forgot_password email w).2 in
  find_one [("email", PStr email)] (users w) = Some d →
  smtp_failure email ("Your temporary password is: " +:+ drawn_code w) = Some err →
  http_status (forgot_password email w).1 = 500
  ∧ outbox w1 = outbox w
  ∧ find_one [("email", PStr email)] (users w1)
    = Some (<["temp_password" := PStr (hash_password (drawn_code w))]> d).
Proof.
  intros w1 Hf Hmail.
  destruct (forgot_password_run email w d Hf) as [Hres Hout].
  destruct (forgot_password_stored email w d Hf) as (Hst & _ & _).
  rewrite Hmail in Hres, Hout. split_and!; [by rewrite Hres | done | done].
Qed.

(** X23. A registration without a password is not refused as a bad
    request: for an address no user has, hashing the missing password
    raises, the request fails with status 500, and no user is stored. *)
Theorem register_user_without_password (user : UserCreate) (w : world) :
  uc_password user = None →
  find_one [("email", opt_str (uc_email user))] (users w) = None →
  http_status (register_user user w).1 = 500
  ∧ users (register_user user w).2 = users w
  ∧ outbox (register_user user w).2 = outbox w.
Proof.
  intros Hp Hf. unfold register_user. rewrite Hp.
  unfold_effects. unfold_monad. cbn. rewrite Hf. cbn. done.
Qed.
End Credentials.

Lemma register_user_duplicate_witness :
  @AuthRoutes.register_user Sample.env alice_again Sample.world0
  = (inl (HTTPException 400 "Email already registered"),
     log (EvUsersFind [("email", PStr "alice@example.com")]) Sample.world0).
Proof.
  apply (@register_user_duplicate Sample.env alice_again "alice@example.com"
           Sample.world0 Sample.alice).
  - reflexivity.
  - by_running.
Defined.


Lemma forgot_password_unknown_email_witness :
  @AuthRoutes.forgot_password Sample.env "nobody@example.com" Sample.world0
  = (inl (HTTPException 400 "Email not found"),
     log (EvUsersFind [("email", PStr "nobody@example.com")]) Sample.world0).
Proof.
  apply (@forgot_password_unknown_email Sample.env). by_running.
Defined.

Lemma forgot_password_mails_stored_code_witness :
  let w1 := (@AuthRoutes.forgot_password Sample.env "alice@example.com"
               before_asking).2 in
  ∃ r : Z, outbox w1 = [("alice@example.com", "Your temporary password is: " +:+ pretty r)]
       ∧ find_one [("email", PStr "alice@example.com")] (users w1)
         = Some (<["temp_password" := PStr (@AuthUtils.hash_password Sample.env (pretty r))]>
                   Sample.alice).
Proof.
  intros w1.
  destruct (@forgot_password_mails_stored_code Sample.env "alice@example.com"
              before_asking Sample.alice)
    as (r & _ & _ & Hout & Hst & _).
  - by_running.
  - reflexivity.
  - exists r. split; [exact Hout | exact Hst].
Defined.

Lemma forgot_password_mail_refused_witness :
  let r := @AuthRoutes.forgot_password offline "alice@example.com" before_asking in
  http_status r.1 = 500
  ∧ outbox r.2 = []
  ∧ find_one [("email", PStr "alice@example.com")] (users r.2)
    = Some (<["temp_password" := PStr "sha256:1234default_salt"]> Sample.alice).
Proof.
  apply (@forgot_password_mail_refused offline "alice@example.com"
           "Connection refused" before_asking Sample.alice).
  - by_running.
  - reflexivity.
Defined.


Lemma register_user_without_password_witness :
  let r := @AuthRoutes.register_user Sample.env
             {| uc_email := Some "dave@example.com"; uc_password := None;
                uc_first_name := Some "Dave"; uc_last_name := None;
                uc_mobile_number := None |} Sample.world0 in
  http_status r.1 = 500 ∧ users r.2 = users Sample.world0.
Proof.
  cbv zeta.
  destruct (@register_user_without_password Sample.env
              {| uc_email := Some "dave@example.com"; uc_password := None;
                 uc_first_name := Some "Dave"; uc_last_name := None;
                 uc_mobile_number := None |} Sample.world0)
    as (Hst & Hu & _).
  - reflexivity.
  - by_running.
  - by split.
Defined.

(** ** What a run leaves alone *)

Global Instance untouched_preorder : PreOrder untouched.
Proof.
  split; [by intros w |].
  intros a b c (? & ? & ? & ?) (? & ? & ? & ?). unfold untouched.
  split_and!; congruence.
Qed.

Lemma untouched_log e w : untouched w (log e w).
Proof. by unfold untouched. Qed.

Ltac frame_untouched :=
  unfold_handlers;
  repeat first
    [ frame_step
    | apply preserves_modify; intros ?; apply untouched_log ].

(** ** ObjectIds and their strings *)

Section ObjectIds.

Lemma hex_value_digit (d : N) : (d < 16)%N → hex_value (hex_digit d) = Some d.
Proof.
  intros Hd.
  assert (Hcases : d ∈ (N.of_nat <$> seq 0 16)).
  { apply list_elem_of_fmap. exists (N.to_nat d). split; [lia|].
    apply elem_of_seq. lia. }
  cbn in Hcases.
  repeat (apply elem_of_cons in Hcases as [->|Hcases]; [reflexivity|]).
  by apply elem_of_nil in Hcases.
Qed.

Lemma parse_hex_digits (k : nat) (n : N) (acc : string) (a : N) :
  parse_hex (hex_digits k n acc) a
  = parse_hex acc (a * 16 ^ N.of_nat k + n mod 16 ^ N.of_nat k)%N.
Proof.
  revert n acc a. induction k as [|k IH]; intros n acc a.
  - cbn [hex_digits]. f_equal. change (16 ^ N.of_nat 0)%N with 1%N.
    rewrite N.mod_1_r. lia.
  - cbn [hex_digits]. rewrite IH. cbn [parse_hex].
    rewrite hex_value_digit by (apply N.mod_upper_bound; lia).
    f_equal. rewrite Nat2N.inj_succ, N.pow_succ_r'.
    rewrite (N.Div0.mod_mul_r n 16 (16 ^ N.of_nat k)). lia.
Qed.

Lemma length_hex_digits (k : nat) (n : N) (acc : string) :
  String.length (hex_digits k n acc) = (k + String.length acc)%nat.
Proof.
  revert n acc. induction k as [|k IH]; intros n acc; [done|].
  cbn [hex_digits]. rewrite IH. cbn. lia.
Qed.

(** [ObjectId(str(oid)) == oid] for the 12-byte ids. *)
Lemma ObjectId_oid_str (n : N) : (n < 2 ^ 96)%N → ObjectId (oid_str n) = Some n.
Proof.
  intros Hn. unfold ObjectId, oid_str.
  rewrite length_hex_digits. cbn [String.length Nat.add Nat.eqb].
  rewrite parse_hex_digits. cbn [parse_hex]. f_equal.
  change (16 ^ N.of_nat 24)%N with (2 ^ 96)%N.
  rewrite N.mod_small by done. lia.
Qed.
End ObjectIds.

(** ** One-time codes *)

Section OtpLifetime.
Import AuthUtils AuthRoutes.
Context {env : Env}.

Lemma generate_otp_run (email : string) (w : world) :
  (generate_otp email w).1 = inr (drawn_code w)
  ∧ users (generate_otp email w).2
    = update_one [("email", PStr email)]
        (<["temp_password" := PStr (hash_password (drawn_code w))]>
           (<["otp_expiration" := PInt (clock w + 15 * 60)]> ∅)) [] (users w)
  ∧ clock (generate_otp email w).2 = clock w.
Proof.
  unfold generate_otp, generate_temp_password, drawn_code.
  unfold_effects. unfold_monad. cbn. destruct (entropy w); done.
Qed.

(** X7. The one-time code of [generate_otp] and its check by
    [verify_otp]. The code handed out for a stored user is accepted up to
    and including fifteen minutes after it was issued and refused from the
    next second on; within that time a guess is accepted exactly when it
    hashes to the hash of the code. *)
Theorem otp_round_trip (email guess : string) (t : Z) (w : world)
    (d : gmap string pyval) :
  let issued := generate_otp email w in
  find_one [("email", PStr email)] (users w) = Some d →
  0 ≤ clock w →
  hash_password (drawn_code w) ≠ "" →
  issued.1 = inr (drawn_code w)
  ∧ (verify_otp email guess (set_clock t issued.2)).1
    = inr (bool_decide (t ≤ clock w + 15 * 60)
           && bool_decide (hash_password guess = hash_password (drawn_code w))).
Proof.
  intros issued Hf Hclock Hhash.
  destruct (generate_otp_run email w) as (Hres & Husers & _).
  split; [done|].
  destruct (find_one_split _ _ _ Hf) as (c1 & c2 & Hc & Hc1 & Hd).
  set (upd := <["temp_password" := PStr (hash_password (drawn_code w))]>
                (<["otp_expiration" := PInt (clock w + 15 * 60)]> ∅)) in *.
  assert (Hd' : matches [("email", PStr email)] (upd ∪ d) = true).
  { rewrite matches_single in Hd |- * by done.
    apply bool_decide_eq_true in Hd. apply bool_decide_eq_true_2.
    rewrite lookup_union_r; [done|]. unfold upd. by simplify_map_eq. }
  assert (Hf1 : find_one [("email", PStr email)] (users issued.2) = Some (upd ∪ d)).
  { unfold issued. rewrite Husers, Hc, update_one_app_skip by done.
    rewrite update_one_cons, Hd. unfold apply_update. cbn [foldr].
    rewrite find_one_app_skip by done. by rewrite find_one_cons, Hd'. }
  assert (Htemp : (upd ∪ d) !! "temp_password"
                  = Some (PStr (hash_password (drawn_code w)))).
  { apply lookup_union_Some_l. unfold upd. by simplify_map_eq. }
  assert (Hexp : (upd ∪ d) !! "otp_expiration" = Some (PInt (clock w + 15 * 60))).
  { apply lookup_union_Some_l. unfold upd. by simplify_map_eq. }
  unfold verify_otp. unfold_effects. unfold_monad. cbn. rewrite Hf1. cbn [found].
  assert (Ht : truthy (PDict (upd ∪ d)) = true)
    by (eapply truthy_found_Some; [|exact Hf1]; discriminate).
  rewrite Ht. cbn. rewrite Htemp, Hexp. cbn.
  rewrite (bool_decide_eq_false_2 (hash_password (drawn_code w) = "")) by done.
  cbn. destruct (Z.eqb_spec (clock w + 15 * 60) 0) as [?|_]; [lia|]. cbn.
  destruct (Z.ltb_spec (clock w + 15 * 60) t).
  - rewrite bool_decide_eq_false_2 by lia. done.
  - rewrite (bool_decide_eq_true_2 (t ≤ _)) by lia. cbn.
    f_equal. apply bool_decide_ext. split; congruence.
Qed.
End OtpLifetime.

Lemma otp_round_trip_witness :
  let issued := @AuthUtils.generate_otp Sample.env "alice@example.com" before_asking in
  issued.1 = inr "1234"
  ∧ (@AuthUtils.verify_otp Sample.env "alice@example.com" "1234"
       (set_clock (1700000000 + 15 * 60) issued.2)).1 = inr true
  ∧ (@AuthUtils.verify_otp Sample.env "alice@example.com" "1234"
       (set_clock (1700000000 + 15 * 60 + 1) issued.2)).1 = inr false.
Proof.
  cbv zeta.
  assert (Hf : find_one [("email", PStr "alice@example.com")] (users before_asking)
               = Some Sample.alice) by by_running.
  assert (Hclock : 0 ≤ clock before_asking) by by_running.
  assert (Hhash : @AuthUtils.hash_password Sample.env (@drawn_code before_asking) ≠ "")
    by by_running.
  split_and!.
  - exact (proj1 (@otp_round_trip Sample.env "alice@example.com" "1234" 0
                    before_asking Sample.alice Hf Hclock Hhash)).
  - rewrite (proj2 (@otp_round_trip Sample.env "alice@example.com" "1234"
                      (1700000000 + 15 * 60) before_asking Sample.alice
                      Hf Hclock Hhash)).
    by_running.
  - rewrite (proj2 (@otp_round_trip Sample.env "alice@example.com" "1234"
                      (1700000000 + 15 * 60 + 1) before_asking Sample.alice
                      Hf Hclock Hhash)).
    by_running.
Defined.

(** ** Writing documents *)

Section DocumentWrites.
Import AuthUtils AuthRoutes DocumentRoutes.
Context {env : Env}.
Implicit Types (c : list (gmap string pyval)) (d : gmap string pyval).

Lemma doc_id_lt_fresh c x : x ∈ c → (doc_id x < fresh_id c)%N.
Proof.
  unfold fresh_id. induction c as [|y c IH]; [by intros ?%elem_of_nil|].
  intros [->|Hx]%elem_of_cons; cbn; [lia|]. specialize (IH Hx). lia.
Qed.

Lemma fresh_id_unmatched c :
  Forall (λ x, field_matches x ("_id", PId (fresh_id c)) = false) c.
Proof.
  apply Forall_forall. intros x Hx. rewrite field_matches_value by done.
  apply bool_decide_eq_false_2. intros Hid.
  pose proof (doc_id_lt_fresh c x Hx) as Hlt.
  unfold doc_id in Hlt. rewrite Hid in Hlt. lia.
Qed.

Lemma matches_false_head filter kv d :
  field_matches d kv = false → matches (kv :: filter) d = false.
Proof. intros Hf. unfold matches. cbn. by rewrite Hf. Qed.

Lemma fresh_id_unfound filter c :
  Forall (λ x, matches (("_id", PId (fresh_id c)) :: filter) x = false) c.
Proof.
  eapply Forall_impl; [apply fresh_id_unmatched|].
  intros x Hx. by apply matches_false_head.
Qed.

Lemma matches_all filter d :
  Forall (λ kv, d !! kv.1 = Some kv.2) filter → matches filter d = true.
Proof.
  intros Hall. unfold matches. apply forallb_forall. intros kv Hin.
  rewrite Forall_forall in Hall. unfold field_matches.
  rewrite bool_decide_eq_true_2; [done|]. by apply Hall, list_elem_of_In.
Qed.

Lemma from_mongo_run d w :
  has_id d → pydantic_accepts (answered d) = true →
  from_mongo d w = (inr (answered d), w).
Proof.
  intros Hid Hok. unfold from_mongo, answered in *. lazy zeta.
  rewrite (has_id_doc_id _ Hid). cbn [py_str]. by rewrite Hok.
Qed.

Lemma created_lookup document uid w :
  created document uid w !! "_id" = Some (PId (fresh_id (documents w)))
  ∧ created document uid w !! "user_id" = Some uid
  ∧ doc_id (created document uid w) = fresh_id (documents w).
Proof.
  unfold doc_id, created. split_and!; by simplify_map_eq.
Qed.

Lemma read_document_run document_id oid (cu : gmap string pyval) uid w d :
  cu !! "id" = Some uid →
  ObjectId document_id = Some oid →
  find_one [("_id", PId oid); ("user_id", uid)] (documents w) = Some d →
  has_id d → pydantic_accepts (answered d) = true →
  (read_document document_id (PDict cu) w).1 = inr (answered d).
Proof.
  intros Hid Hoid Hf Hd Hok. unfold read_document, py_getitem, ObjectId_is_valid.
  rewrite Hid. unfold make_object_id, documents_find_one. rewrite Hoid.
  unfold_monad. cbn. rewrite Hf. cbn [found].
  by rewrite (from_mongo_run d _ Hd Hok).
Qed.

(** What a reply keeps of the stored document: its id, as a string, and
    its owner. *)
Lemma answered_id d : answered d !! "id" = Some (PStr (oid_str (doc_id d))).
Proof. unfold answered. by rewrite lookup_insert_eq. Qed.

Lemma answered_owner d : owner (answered d) = owner d.
Proof.
  unfold owner, answered. by rewrite lookup_insert_ne, lookup_delete_ne.
Qed.

(** X8. Create, then read. The document is stored at the end of the
    collection and belongs to the requester whatever the body said; the
    reply names the stored document's id and the requester as its owner;
    reading that id back as the same user gives the same reply, and any
    other user gets 404. *)
Theorem create_then_read (document cu : gmap string pyval) (uid : pyval)
    (w : world) :
  let stored := created document uid w in
  let w1 := (create_document document (PDict cu) w).2 in
  cu !! "id" = Some uid →
  (fresh_id (documents w) < 2 ^ 96)%N →
  pydantic_accepts (answered stored) = true →
  documents w1 = documents w ++ [stored]
  ∧ owner stored = uid
  ∧ (∃ reply,
       (create_document document (PDict cu) w).1 = inr reply
       ∧ reply !! "id" = Some (PStr (oid_str (doc_id stored)))
       ∧ owner reply = uid
       ∧ (read_document (oid_str (doc_id stored)) (PDict cu) w1).1 = inr reply)
  ∧ (∀ (cu' : gmap string pyval) uid',
       cu' !! "id" = Some uid' → uid' ≠ uid →
       (read_document (oid_str (doc_id stored)) (PDict cu') w1).1
       = inl (HTTPException 404 "Document not found or unauthorized")).
Proof.
  intros stored w1 Hid Hfresh Hok.
  destruct (created_lookup document uid w) as (Hsid & Hsuid & Hdoc).
  fold stored in Hsid, Hsuid, Hdoc.
  assert (Hhas : has_id stored) by (by eexists).
  assert (Hown : owner stored = uid) by (unfold owner; by rewrite Hsuid).
  assert (Hrun : create_document document (PDict cu) w
                 = (inr (answered stored),
                    log (EvDocumentsFind [("_id", PId (fresh_id (documents w)))])
                      (set_documents (documents w ++ [stored]) w))).
  { unfold create_document, py_getitem. rewrite Hid.
    unfold documents_insert_one, documents_find_one, utcnow, insert_one.
    unfold_monad. cbn.
    rewrite find_one_app_skip by apply fresh_id_unfound.
    rewrite find_one_cons. fold (created document uid w). fold stored.
    rewrite matches_single, bool_decide_eq_true_2 by done. cbn [found].
    by rewrite (from_mongo_run stored _ Hhas Hok). }
  assert (Hw1 : documents w1 = documents w ++ [stored])
    by (unfold w1; by rewrite Hrun).
  assert (Hoid : ObjectId (oid_str (doc_id stored)) = Some (fresh_id (documents w)))
    by (rewrite Hdoc; by apply ObjectId_oid_str).
  split_and!.
  - done.
  - done.
  - exists (answered stored). split_and!.
    + by rewrite Hrun.
    + apply answered_id.
    + by rewrite answered_owner.
    + eapply read_document_run; [done | exact Hoid | | done | done].
      rewrite Hw1, find_one_app_skip by apply fresh_id_unfound.
      rewrite find_one_cons, matches_all; [done|].
      by repeat constructor.
  - intros cu' uid' Hid' Hne.
    eapply read_document_not_owned; [done | exact Hoid |].
    intros x Hx Hxid. rewrite Hw1 in Hx.
    apply elem_of_app in Hx as [Hx|Hx].
    + pose proof (doc_id_lt_fresh _ x Hx) as Hlt.
      unfold doc_id in Hlt. rewrite Hxid in Hlt. lia.
    + apply list_elem_of_singleton in Hx as ->.
      unfold owner. rewrite Hsuid. cbn. congruence.
Qed.

Lemma delete_one_cons filter d c :
  delete_one filter (d :: c) = if matches filter d then c else d :: delete_one filter c.
Proof. reflexivity. Qed.

Lemma delete_one_app_skip filter c1 c2 :
  Forall (λ x, matches filter x = false) c1 →
  delete_one filter (c1 ++ c2) = c1 ++ delete_one filter c2.
Proof.
  induction 1 as [|x c1 Hx _ IH]; [done|].
  cbn [app]. by rewrite delete_one_cons, Hx, IH.
Qed.

Lemma delete_one_no_match filter c :
  find_one filter c = None → delete_one filter c = c.
Proof.
  intros Hf%find_one_None_Forall.
  rewrite <-(app_nil_r c) at 1. rewrite delete_one_app_skip by done.
  by rewrite app_nil_r.
Qed.

Lemma delete_document_run document_id oid (cu : gmap string pyval) uid w :
  cu !! "id" = Some uid →
  ObjectId document_id = Some oid →
  let filter := [("_id", PId oid); ("user_id", uid)] in
  (delete_document document_id (PDict cu) w).1
  = match find_one filter (documents w) with
    | Some _ => inr PNone
    | None => inl (HTTPException 404 "Document not found or unauthorized")
    end
  ∧ documents (delete_document document_id (PDict cu) w).2
    = delete_one filter (documents w)
  ∧ users (delete_document document_id (PDict cu) w).2 = users w.
Proof.
  intros Hid Hoid filter. unfold delete_document, py_getitem, ObjectId_is_valid.
  rewrite Hid. unfold make_object_id, documents_delete_one, matched_count.
  rewrite Hoid. unfold_monad. cbn. fold filter.
  by destruct (find_one filter (documents w)).
Qed.

(** X9. Deleting by id touches only a document of the requester. When
    every document with that id belongs to someone else the answer is 404
    and the collection is unchanged; when the requester owns one, exactly
    that document is removed and no document with that id is left. *)
Theorem delete_document_owned_only (document_id : string) (oid : N)
    (cu : gmap string pyval) (uid : pyval) (w : world) :
  let w1 := (delete_document document_id (PDict cu) w).2 in
  cu !! "id" = Some uid →
  ObjectId document_id = Some oid →
  well_formed (documents w) →
  ((∀ x, x ∈ documents w → x !! "_id" = Some (PId oid) → owner x ≠ uid) →
     (delete_document document_id (PDict cu) w).1
     = inl (HTTPException 404 "Document not found or unauthorized")
     ∧ documents w1 = documents w)
  ∧ (∀ d, find_one [("_id", PId oid); ("user_id", uid)] (documents w) = Some d →
       (delete_document document_id (PDict cu) w).1 = inr PNone
       ∧ (∃ c1 c2, documents w = c1 ++ d :: c2 ∧ documents w1 = c1 ++ c2)
       ∧ (∀ x, x ∈ documents w1 → x !! "_id" ≠ Some (PId oid))).
Proof.
  intros w1 Hid Hoid [Hids Hnd].
  destruct (delete_document_run document_id oid cu uid w Hid Hoid)
    as (Hres & Hdocs & _). cbn zeta in Hres, Hdocs.
  split.
  - intros Hnot.
    assert (Hf : find_one [("_id", PId oid); ("user_id", uid)] (documents w) = None).
    { apply find_one_None_Forall, Forall_forall. intros x Hx.
      apply not_true_is_false. intros Hm. apply (Hnot x Hx).
      - eapply matches_value_lookup; [|exact Hm]. done.
      - eapply matches_owner; [|exact Hm]. apply elem_of_cons. right. left. }
    rewrite Hf in Hres. split; [done|].
    unfold w1. rewrite Hdocs. by apply delete_one_no_match.
  - intros d Hf. rewrite Hf in Hres.
    destruct (find_one_split _ _ _ Hf) as (c1 & c2 & Hc & Hc1 & Hd).
    assert (Hw1 : documents w1 = c1 ++ c2).
    { unfold w1. rewrite Hdocs, Hc, delete_one_app_skip by done.
      by rewrite delete_one_cons, Hd. }
    assert (Hdid : doc_id d = oid).
    { apply matches_value_lookup in Hd; [|done]. unfold doc_id. by rewrite Hd. }
    split_and!; [done | by exists c1, c2 |].
    intros x Hx Hxid. rewrite Hw1 in Hx. rewrite Hc in Hnd.
    rewrite fmap_app, fmap_cons in Hnd.
    apply NoDup_app in Hnd as (_ & Hdisj & Hnd2).
    apply NoDup_cons in Hnd2 as [Hnotin _].
    assert (Hxd : doc_id x = doc_id d) by (unfold doc_id at 1; by rewrite Hxid, Hdid).
    apply elem_of_app in Hx as [Hx|Hx].
    + apply (Hdisj (doc_id x)); [by apply list_elem_of_fmap_2 | rewrite Hxd; left].
    + apply Hnotin. rewrite <-Hxd. by apply list_elem_of_fmap_2.
Qed.

Lemma from_mongo_world d w : (from_mongo d w).2 = w.
Proof. unfold from_mongo. lazy zeta. by destruct (pydantic_accepts _). Qed.

Lemma from_mongo_result d w w' : (from_mongo d w).1 = (from_mongo d w').1.
Proof. unfold from_mongo. lazy zeta. by destruct (pydantic_accepts _). Qed.

(** X11. An update whose body sets no field (every field of the dumped
    model is [None]) is refused with 400 "No fields to update" before the
    store is looked at: the world is exactly as it was. *)
Theorem update_document_no_fields (document_id : string)
    (document : gmap string pyval) (current_user : pyval) (w : world) :
  ObjectId_is_valid document_id = true →
  map_Forall (λ _ v, v = PNone) document →
  update_document document_id document current_user w
  = (inl (HTTPException 400 "No fields to update"), w).
Proof.
  intros Hvalid Hnone. unfold update_document. rewrite Hvalid. cbn [negb].
  lazy zeta.
  assert (Hempty : filter (λ kv : string * pyval, kv.2 ≠ PNone) document = ∅).
  { apply map_empty_filter_2. intros k v Hk Hv. apply Hv. cbn.
    by apply (Hnone k v). }
  rewrite Hempty. reflexivity.
Qed.

Lemma update_document_run document_id oid (document cu : gmap string pyval)
    uid w k v :
  cu !! "id" = Some uid →
  ObjectId document_id = Some oid →
  document !! k = Some v → v ≠ PNone →
  let flt := [("_id", PId oid); ("user_id", uid)] in
  let w1 := (update_document document_id document (PDict cu) w).2 in
  documents w1 = update_one flt (document_update document w) [] (documents w)
  ∧ (update_document document_id document (PDict cu) w).1
    = match find_one flt (documents w) with
      | None => inl (HTTPException 404 "Document not found or unauthorized")
      | Some _ =>
          match find_one [("_id", PId oid)] (documents w1) with
          | Some d => (from_mongo d w).1
          | None => inl (PyError "'NoneType' object has no attribute 'items'")
          end
      end.
Proof.
  intros Hid Hoid Hk Hv flt w1. unfold w1, update_document, ObjectId_is_valid.
  rewrite Hoid. cbn [negb]. lazy zeta.
  assert (Hne : filter (λ kv : string * pyval, kv.2 ≠ PNone) document ≠ ∅).
  { intros Hempty. by apply (map_filter_empty_not_lookup _ _ k v Hempty). }
  unfold truthy. rewrite (bool_decide_eq_false_2 _ Hne). cbn [negb].
  unfold py_getitem. rewrite Hid.
  unfold make_object_id, documents_update_one, documents_find_one, matched_count,
    utcnow. rewrite Hoid. unfold_monad. cbn. fold flt.
  fold (document_update document w).
  destruct (find_one flt (documents w)); cbn; [|done].
  destruct (find_one [("_id", PId oid)] _) eqn:Hf2; cbn [found].
  - rewrite from_mongo_world. cbn. rewrite Hf2. split; [done|].
    apply from_mongo_result.
  - cbn. by rewrite Hf2.
Qed.

Lemma document_update_lookup (document : gmap string pyval) w k :
  k ≠ "updated_at" →
  document_update document w !! k
  = match document !! k with
    | Some v => if bool_decide (v = PNone) then None else Some v
    | None => None
    end.
Proof.
  intros Hk. unfold document_update. rewrite lookup_insert_ne by done.
  destruct (document !! k) as [v|] eqn:Hd.
  - case_bool_decide as Hv.
    + apply map_lookup_filter_None. right. intros v' Hv'. cbn. congruence.
    + apply map_lookup_filter_Some. by split.
  - apply map_lookup_filter_None. by left.
Qed.

(** X10. Updating by id touches only a document of the requester. When
    every document with that id belongs to someone else the answer is 404
    and the collection is unchanged. When the requester owns one, it is
    replaced in place: it keeps its id and owner, gets the time of the
    update, takes the fields the body sets and keeps every field the body
    leaves out or gives as [None]; the request succeeds, and the reply
    names that document's id and the requester as its owner. *)
Theorem update_document_owned_only (document_id : string) (oid : N)
    (document cu : gmap string pyval) (uid : pyval) (w : world)
    (k : string) (v : pyval) :
  let w1 := (update_document document_id document (PDict cu) w).2 in
  let upd := document_update document w in
  cu !! "id" = Some uid →
  ObjectId document_id = Some oid →
  well_formed (documents w) →
  document !! k = Some v → v ≠ PNone →
  document !! "user_id" = None → document !! "_id" = None →
  ((∀ x, x ∈ documents w → x !! "_id" = Some (PId oid) → owner x ≠ uid) →
     (update_document document_id document (PDict cu) w).1
     = inl (HTTPException 404 "Document not found or unauthorized")
     ∧ documents w1 = documents w)
  ∧ (∀ d, find_one [("_id", PId oid); ("user_id", uid)] (documents w) = Some d →
          pydantic_accepts (answered (upd ∪ d)) = true →
       (∃ reply,
          (update_document document_id document (PDict cu) w).1 = inr reply
          ∧ reply !! "id" = Some (PStr (oid_str oid))
          ∧ owner reply = uid)
       ∧ (∃ c1 c2, documents w = c1 ++ d :: c2
                   ∧ documents w1 = c1 ++ (upd ∪ d) :: c2)
       ∧ owner (upd ∪ d) = uid
       ∧ (upd ∪ d) !! "_id" = Some (PId oid)
       ∧ (upd ∪ d) !! "updated_at" = Some (PInt (clock w))
       ∧ (∀ k' v', k' ≠ "updated_at" → document !! k' = Some v' → v' ≠ PNone →
            (upd ∪ d) !! k' = Some v')
       ∧ (∀ k', k' ≠ "updated_at" →
            document !! k' = None ∨ document !! k' = Some PNone →
            (upd ∪ d) !! k' = d !! k')).
Proof.
  intros w1 upd Hid Hoid [Hids Hnd] Hk Hv Hnouid Hnoid.
  destruct (update_document_run document_id oid document cu uid w k v
              Hid Hoid Hk Hv) as [Hdocs Hres].
  cbn zeta in Hdocs, Hres. fold w1 in Hdocs, Hres. fold upd in Hdocs.
  split.
  - intros Hnot.
    assert (Hf : find_one [("_id", PId oid); ("user_id", uid)] (documents w) = None).
    { apply find_one_None_Forall, Forall_forall. intros x Hx.
      apply not_true_is_false. intros Hm. apply (Hnot x Hx).
      - eapply matches_value_lookup; [|exact Hm]. done.
      - eapply matches_owner; [|exact Hm]. apply elem_of_cons. right. left. }
    rewrite Hf in Hres. split; [done|].
    rewrite Hdocs. by apply update_one_no_match.
  - intros d Hf Hok. rewrite Hf in Hres.
    destruct (find_one_split _ _ _ Hf) as (c1 & c2 & Hc & Hc1 & Hd).
    assert (Hdid : d !! "_id" = Some (PId oid))
      by (by apply matches_value_lookup in Hd).
    assert (Hown : owner d = uid).
    { eapply matches_owner; [|exact Hd]. apply elem_of_cons. right. left. }
    assert (Hw1 : documents w1 = c1 ++ (upd ∪ d) :: c2).
    { rewrite Hdocs, Hc, update_one_app_skip by done.
      by rewrite update_one_cons, Hd. }
    assert (Hupd_id : upd !! "_id" = None)
      by (unfold upd; rewrite document_update_lookup by done; by rewrite Hnoid).
    assert (Hupd_uid : upd !! "user_id" = None)
      by (unfold upd; rewrite document_update_lookup by done; by rewrite Hnouid).
    assert (Hid' : (upd ∪ d) !! "_id" = Some (PId oid))
      by (by rewrite lookup_union_r).
    assert (Hdoc : doc_id d = oid) by (unfold doc_id; by rewrite Hdid).
    assert (Hdoc' : doc_id (upd ∪ d) = oid) by (unfold doc_id; by rewrite Hid').
    assert (Hf1 : find_one [("_id", PId oid)] (documents w1) = Some (upd ∪ d)).
    { rewrite Hw1. rewrite Hc in Hnd. rewrite <-Hdoc.
      rewrite find_one_app_skip by (by eapply unique_id_before).
      rewrite find_one_cons, matches_single by done.
      by rewrite Hdoc, bool_decide_eq_true_2. }
    rewrite Hf1 in Hres.
    assert (Hhas : has_id (upd ∪ d)) by (by eexists).
    rewrite (from_mongo_run _ w Hhas) in Hres by done.
    assert (Hown' : owner (upd ∪ d) = uid)
      by (unfold owner in *; by rewrite lookup_union_r).
    split_and!.
    + exists (answered (upd ∪ d)). split_and!; [done | |].
      * by rewrite answered_id, Hdoc'.
      * by rewrite answered_owner.
    + by exists c1, c2.
    + unfold owner in *. by rewrite lookup_union_r.
    + done.
    + apply lookup_union_Some_l. unfold upd, document_update.
      by rewrite lookup_insert_eq.
    + intros k' v' Hk' Hdk Hv'. apply lookup_union_Some_l.
      unfold upd. rewrite document_update_lookup, Hdk by done.
      by rewrite bool_decide_eq_false_2.
    + intros k' Hk' Hdk. apply lookup_union_r.
      unfold upd. rewrite document_update_lookup by done.
      destruct Hdk as [->| ->]; [done|]. by rewrite bool_decide_eq_true_2.
Qed.
End DocumentWrites.

Lemma shelf_well_formed : well_formed (documents shelf).
Proof.
  split.
  - repeat constructor; eexists; reflexivity.
  - by_running.
Qed.

Lemma create_then_read_witness :
  let r := @DocumentRoutes.create_document Sample.env visa (PDict alice_user) shelf in
  ∃ reply, r.1 = inr reply
           ∧ reply !! "id" = Some (PStr (oid_str 18))
           ∧ owner reply = PStr (oid_str 1)
           ∧ (@DocumentRoutes.read_document Sample.env (oid_str 18)
                (PDict alice_user) r.2).1 = inr reply.
Proof.
  cbv zeta.
  destruct (@create_then_read Sample.env visa alice_user (PStr (oid_str 1)) shelf)
    as (_ & _ & (reply & Hres & Hid & Hown & Hread) & _).
  - reflexivity.
  - by_running.
  - reflexivity.
  - exists reply. split_and!; [exact Hres | | exact Hown | exact Hread].
    rewrite Hid. by_running.
Defined.

Lemma delete_document_owned_only_witness :
  let mine := DocumentRoutes.delete_document (oid_str 16)
                (PDict alice_user) shelf in
  let other := DocumentRoutes.delete_document (oid_str 17)
                 (PDict alice_user) shelf in
  mine.1 = inr PNone
  ∧ other.1 = inl (HTTPException 404 "Document not found or unauthorized")
  ∧ documents other.2 = documents shelf.
Proof.
  cbv zeta.
  destruct (delete_document_owned_only (oid_str 16) 16%N alice_user
              (PStr (oid_str 1)) shelf) as [_ Hmine];
    [reflexivity | by_running | exact shelf_well_formed |].
  destruct (delete_document_owned_only (oid_str 17) 17%N alice_user
              (PStr (oid_str 1)) shelf) as [Hother _];
    [reflexivity | by_running | exact shelf_well_formed |].
  split.
  - destruct (Hmine (dict [("_id", PId 16); ("user_id", PStr (oid_str 1));
                           ("document_name", PStr "passport");
                           ("scan_type", PStr "id")])) as [Hres _].
    + by_running.
    + exact Hres.
  - apply Hother. refine (proj1 (Forall_forall _ _) _). by_running.
Defined.

Lemma update_document_owned_only_witness :
  let mine := @DocumentRoutes.update_document Sample.env (oid_str 16) rename
                (PDict alice_user) shelf in
  let other := @DocumentRoutes.update_document Sample.env (oid_str 17) rename
                 (PDict alice_user) shelf in
  (∃ reply, mine.1 = inr reply ∧ reply !! "id" = Some (PStr (oid_str 16)))
  ∧ (∃ d', d' ∈ documents mine.2
           ∧ d' !! "document_name" = Some (PStr "old passport")
           ∧ d' !! "scan_type" = Some (PStr "id"))
  ∧ other.1 = inl (HTTPException 404 "Document not found or unauthorized")
  ∧ documents other.2 = documents shelf.
Proof.
  cbv zeta.
  destruct (@update_document_owned_only Sample.env (oid_str 16) 16%N rename
              alice_user (PStr (oid_str 1)) shelf "document_name"
              (PStr "old passport")) as [_ Hmine];
    [reflexivity | by_running | exact shelf_well_formed | by_running | done
    | by_running | by_running |].
  destruct (@update_document_owned_only Sample.env (oid_str 17) 17%N rename
              alice_user (PStr (oid_str 1)) shelf "document_name"
              (PStr "old passport")) as [Hother _];
    [reflexivity | by_running | exact shelf_well_formed | by_running | done
    | by_running | by_running |].
  destruct (Hmine (dict [("_id", PId 16); ("user_id", PStr (oid_str 1));
                         ("document_name", PStr "passport");
                         ("scan_type", PStr "id")]))
    as ((reply & Hres & Hid & _) & (c1 & c2 & _ & Hdocs) & _ & _ & _ & Hset & Hkept);
    [by_running | reflexivity |].
  split_and!.
  - exists reply. split; [exact Hres | exact Hid].
  - eexists. split_and!.
    + rewrite Hdocs. apply elem_of_app. right. left.
    + apply (Hset "document_name" (PStr "old passport")); [done | by_running | done].
    + rewrite (Hkept "scan_type"); [by_running | done | right; by_running].
  - apply Hother. refine (proj1 (Forall_forall _ _) _). by_running.
  - apply Hother. refine (proj1 (Forall_forall _ _) _). by_running.
Defined.

Lemma update_document_no_fields_witness :
  @DocumentRoutes.update_document Sample.env (oid_str 16) blank (PDict alice_user) shelf
  = (inl (HTTPException 400 "No fields to update"), shelf).
Proof.
  apply (@update_document_no_fields Sample.env (oid_str 16) blank (PDict alice_user)
           shelf).
  - by_running.
  - by_running.
Defined.

(** ** The state check of the callbacks *)

Section StateCheck.
Import AuthUtils AuthRoutes.
Context {env : Env}.

Ltac abstract_try :=
  lazy zeta;
  match goal with
  | |- context [try_except ?m ?h] => set (blk := try_except m h)
  end.

Lemma guard_true (stored st : pyval) :
  truthy stored = false ∨ stored ≠ st →
  negb (truthy stored) || negb (bool_decide (stored = st)) = true.
Proof.
  intros [->|Hne]; [done|].
  rewrite (bool_decide_eq_false_2 _ Hne). apply orb_true_r.
Qed.

(** X12. The state check fails closed. A callback whose query is well
    formed but whose session holds no state for the provider, or holds a
    state other than the one presented, is refused with 400 "Invalid state
    parameter" right after reading the session: no request is sent to the
    provider and nothing is written. *)
Theorem callback_rejects_wrong_state (p : provider) (q : callback_query)
    (w : world) :
  well_formed_query p q = true →
  truthy (stored_state p w) = false ∨ stored_state p w ≠ opt_str (q_state q) →
  callback p q w
  = (inl (HTTPException 400 "Invalid state parameter"),
     log (EvSessionGet (state_key p)) w).
Proof.
  unfold stored_state.
  destruct p; cbn [callback state_key well_formed_query]; intros Hq Hs;
    apply guard_true in Hs.
  - apply bool_decide_eq_true in Hq as [code Hcode].
    unfold auth_google_callback. rewrite Hcode. abstract_try.
    unfold session_get. unfold_monad. cbn. by rewrite Hs.
  - apply andb_prop in Hq as [[He Hc]%andb_prop Hst].
    apply negb_true_iff in He.
    unfold linkedin_callback. rewrite He, Hc, Hst. abstract_try.
    unfold session_get. unfold_monad. cbn. by rewrite Hs.
  - apply andb_prop in Hq as [[He Hc]%andb_prop Hst].
    apply negb_true_iff in He.
    unfold facebook_callback. rewrite He, Hc, Hst. abstract_try.
    unfold session_get. unfold_monad. cbn. by rewrite Hs.
Qed.

Lemma start_run (p : provider) (w : world) :
  let s := token_urlsafe (default 0%N (head (entropy w))) in
  session (start p w).2 = <[state_key p := PStr s]> (session w)
  ∧ users (start p w).2 = users w
  ∧ http_status (start p w).1 = 200.
Proof.
  destruct p; cbn [start state_key];
    unfold auth_google, auth_linkedin, auth_facebook, generate_oauth_state;
    unfold_effects; unfold_monad; cbn; destruct (entropy w); done.
Qed.

(** X13. Start, then callback. Starting a flow stores the drawn state
    under the provider's own session key. A callback of that provider
    presenting that state passes the check and goes on to the
    code-for-token request; a callback of another provider, for which the
    session holds no state, is refused, whatever state it presents. *)
Theorem start_then_callback (p : provider) (w : world) :
  let s := token_urlsafe (default 0%N (head (entropy w))) in
  let w1 := (start p w).2 in
  s ≠ "" →
  stored_state p w1 = PStr s
  ∧ (∀ q, q_state q = Some s →
          opt_truthy (q_code q) = true → opt_truthy (q_error q) = false →
       ∃ tr, trace (callback p q w1).2
             = trace w1 ++ EvSessionGet (state_key p) :: token_request p q :: tr)
  ∧ (∀ p' q, p' ≠ p → session w !! state_key p' = None →
             well_formed_query p' q = true →
       (callback p' q w1).1
       = inl (HTTPException 400 "Invalid state parameter")).
Proof.
  intros s w1 Hs.
  destruct (start_run p w) as (Hsess & _ & _). fold s w1 in Hsess.
  assert (Hst : stored_state p w1 = PStr s)
    by (unfold stored_state; by rewrite Hsess, lookup_insert_eq).
  assert (Htruthy : truthy (PStr s) = true)
    by (cbn; by rewrite bool_decide_eq_false_2).
  split_and!; [done | |].
  - intros q Hq Hcode Herr. apply callback_guard_passes.
    + destruct p; cbn [well_formed_query].
      * destruct (q_code q); [by apply bool_decide_eq_true_2 | done].
      * rewrite Herr, Hcode. cbn. unfold opt_truthy. by rewrite Hq.
      * rewrite Herr, Hcode. cbn. unfold opt_truthy. by rewrite Hq.
    + by rewrite Hst.
    + by rewrite Hst, Hq.
  - intros p' q Hne Hnone Hq. apply callback_guard_rejects; [done|].
    rewrite Hsess, lookup_insert_ne; [done|]. destruct p, p'; done.
Qed.

Lemma profile_run (w : world) :
  Main.profile w
  = (inr (match session w !! "user" with
          | Some u =>
              if truthy u
              then PDict (dict [("message", PStr "You are logged in!");
                                ("user", u); ("authenticated", PBool true)])
              else PDict (dict [("message", PStr "Not logged in");
                                ("authenticated", PBool false)])
          | None => PDict (dict [("message", PStr "Not logged in");
                                 ("authenticated", PBool false)])
          end), log (EvSessionGet "user") w).
Proof.
  unfold Main.profile. unfold_effects. unfold_monad. cbn.
  destruct (session w !! "user") as [u|]; cbn; [|done]. by destruct (truthy u).
Qed.

(** X14. Logging out ends the session: afterwards [profile] reports that
    nobody is logged in and every provider callback is refused at the
    state check; the users and documents are not touched, and every other
    session entry is kept. *)
Theorem logout_ends_session (w : world) :
  let w1 := (Main.logout w).2 in
  (Main.profile w1).1
  = inr (PDict (dict [("message", PStr "Not logged in");
                      ("authenticated", PBool false)]))
  ∧ (∀ p q, well_formed_query p q = true →
       (callback p q w1).1 = inl (HTTPException 400 "Invalid state parameter"))
  ∧ users w1 = users w ∧ documents w1 = documents w
  ∧ (∀ k, k ∉ ["user"; "google_oauth_state"; "linkedin_oauth_state";
               "facebook_oauth_state"] →
       session w1 !! k = session w !! k).
Proof.
  intros w1. split_and!.
  - rewrite profile_run.
    replace (session w1 !! "user") with (@None pyval); [done|].
    unfold w1, Main.logout. unfold_effects. unfold_monad. cbn. by simplify_map_eq.
  - intros p q Hq. apply callback_guard_rejects; [done|]. apply logout_clears_state.
  - reflexivity.
  - reflexivity.
  - intros k. rewrite !not_elem_of_cons. intros (? & ? & ? & ? & _).
    unfold w1, Main.logout. unfold_effects. unfold_monad. cbn.
    by rewrite !lookup_delete_ne.
Qed.
End StateCheck.

Lemma callback_rejects_wrong_state_witness :
  @callback Sample.env Google forged started
  = (inl (HTTPException 400 "Invalid state parameter"),
     log (EvSessionGet "google_oauth_state") started).
Proof.
  apply (@callback_rejects_wrong_state Sample.env Google forged started).
  - reflexivity.
  - right. by_running.
Defined.

Lemma start_then_callback_witness :
  let w1 := (@start Sample.env LinkedIn (set_entropy [9%N] Sample.world0)).2 in
  stored_state LinkedIn w1 = PStr "state-9"
  ∧ (@callback Sample.env Google redirect w1).1
    = inl (HTTPException 400 "Invalid state parameter").
Proof.
  cbv zeta.
  destruct (@start_then_callback Sample.env LinkedIn (set_entropy [9%N] Sample.world0))
    as (Hst & _ & Hother).
  - by_running.
  - split; [exact Hst|].
    apply (Hother Google redirect); [done | reflexivity | reflexivity].
Defined.

(** ** The session after a callback *)

Section SessionUser.
Import AuthUtils AuthRoutes.
Context {env : Env}.

Lemma callback_session_user (p : provider) (q : callback_query) (w w1 : world)
    (body : pyval) :
  callback p q w = (inr body, w1) →
  ∃ u uid, session w1 !! "user" = Some (PDict u)
           ∧ u !! "id" = Some (PStr uid)
           ∧ u !! "auth_provider" = Some (PStr (provider_name p))
           ∧ response_user_id body = Some (PStr uid).
Proof.
  destruct p; cbn [callback provider_name].
  - unfold auth_google_callback.
    destruct (q_code q) as [code|]; [|discriminate].
    intros Hok. inv_bind Hok.
    destruct (negb _ || negb _) eqn:Hg in Hok; [discriminate|].
    apply try_inr in Hok; [|intros; cbn; eauto].
    lazy zeta in Hok.
    repeat (inv_bind Hok).
    destruct (negb (truthy _)) in Hok; [discriminate|].
    repeat (inv_bind Hok).
    destruct (negb (truthy _)) in Hok; [discriminate|].
    inv_bind Hok.
    inv_bind_as Hok Hs. apply generate_access_token_inr in Hs as [-> ->].
    inv_bind_as Hok Hs. apply session_set_inr in Hs as ->.
    injection Hok as <- <-. cbn.
    eexists _, _. split_and!; [by rewrite lookup_insert_eq | | |]; reflexivity.
  - unfold linkedin_callback.
    destruct (opt_truthy (q_error q)); [discriminate|].
    destruct (negb _ || negb _) eqn:Hpar; [discriminate|].
    intros Hok. inv_bind Hok.
    destruct (negb _ || negb _) eqn:Hg in Hok; [discriminate|].
    apply try_inr in Hok; [|apply api_error_handler_raises].
    lazy zeta in Hok.
    repeat (inv_bind Hok).
    destruct (negb (truthy _)) in Hok; [discriminate|].
    inv_bind Hok.
    inv_bind_as Hok Hs. apply generate_access_token_inr in Hs as [-> ->].
    inv_bind_as Hok Hs. apply session_set_inr in Hs as ->.
    injection Hok as <- <-. cbn.
    eexists _, _. split_and!; [by rewrite lookup_insert_eq | | |]; reflexivity.
  - unfold facebook_callback.
    destruct (opt_truthy (q_error q)); [discriminate|].
    destruct (negb _ || negb _) eqn:Hpar; [discriminate|].
    intros Hok. inv_bind Hok.
    destruct (negb _ || negb _) eqn:Hg in Hok; [discriminate|].
    apply try_inr in Hok; [|apply api_error_handler_raises].
    lazy zeta in Hok.
    repeat (inv_bind Hok).
    destruct (negb (truthy _)) in Hok; [discriminate|].
    inv_bind Hok.
    inv_bind_as Hok Hs. apply session_set_inr in Hs as ->.
    injection Hok as <- <-. cbn.
    eexists _, _. split_and!; [by rewrite lookup_insert_eq | | |]; reflexivity.
Qed.

(** X15. Callback, then profile. After a callback of any provider has
    succeeded, [profile] in the same session reports a logged-in user, and
    that user is the one the callback answered with: the same id, and the
    provider's name as [auth_provider]. *)
Theorem callback_then_profile (p : provider) (q : callback_query) (w w1 : world)
    (body : pyval) :
  callback p q w = (inr body, w1) →
  ∃ u uid,
    (Main.profile w1).1
    = inr (PDict (dict [("message", PStr "You are logged in!");
                        ("user", PDict u); ("authenticated", PBool true)]))
    ∧ u !! "id" = Some (PStr uid)
    ∧ u !! "auth_provider" = Some (PStr (provider_name p))
    ∧ response_user_id body = Some (PStr uid).
Proof.
  intros (u & uid & Hsess & Hid & Hprov & Hresp)%callback_session_user.
  exists u, uid. split_and!; [|done..].
  rewrite profile_run, Hsess.
  assert (Hne : u ≠ ∅) by (intros ->; by rewrite lookup_empty in Hid).
  cbn. by rewrite (bool_decide_eq_false_2 _ Hne).
Qed.
End SessionUser.

Lemma callback_then_profile_witness :
  let first := @callback Sample.env Google redirect started in
  ∃ u, (Main.profile first.2).1
       = inr (PDict (dict [("message", PStr "You are logged in!");
                           ("user", PDict u); ("authenticated", PBool true)]))
       ∧ u !! "auth_provider" = Some (PStr "google").
Proof.
  cbv zeta.
  destruct (@callback_then_profile Sample.env Google redirect started
              (@callback Sample.env Google redirect started).2
              (match (@callback Sample.env Google redirect started).1 with
               | inr b => b
               | inl _ => PNone
               end))
    as (u & uid & Hprof & _ & Hprov & _).
  - by_running.
  - by exists u.
Defined.

(** ** Failed callbacks *)

Section FailedCallbacks.
Import AuthUtils AuthRoutes.
Context {env : Env}.

Lemma fails_clean_raise {A} (e : exn) : fails_clean (@raise A e).
Proof. intros w e' w' _ [= _ <-]. reflexivity. Qed.

Lemma fails_clean_total {A} (m : M A) :
  (∀ w, Forall has_id (users w) → ∃ a w', m w = (inr a, w')) → fails_clean m.
Proof.
  intros Hm w e w' Hw Hfail. destruct (Hm w Hw) as (a & w0 & Hok). congruence.
Qed.

Lemma fails_clean_bind {A B} (m : M A) (k : A → M B) :
  preserves untouched m → (∀ a, fails_clean (k a)) → fails_clean (m ≫= k).
Proof.
  intros Hm Hk w e w' Hw. unfold_monad. specialize (Hm w).
  destruct (m w) as [[e0|a] w0]; cbn in *.
  - by intros [= _ <-].
  - intros Hfail. etrans; [exact Hm|].
    eapply Hk; [|exact Hfail]. destruct Hm as (-> & _). done.
Qed.

Lemma fails_clean_try {A} (m : M A) (h : exn → M A) :
  fails_clean m → (∀ e, preserves untouched (h e)) → fails_clean (try_except m h).
Proof.
  intros Hm Hh w e w' Hw. unfold_monad.
  destruct (m w) as [[e0|a] w0] eqn:Hrun; [|discriminate].
  intros Hfail. etrans; [by eapply Hm|].
  specialize (Hh e0 w0). by rewrite Hfail in Hh.
Qed.

Lemma reconcile_succeeds (email : pyval) (fields : gmap string pyval) (w : world) :
  Forall has_id (users w) →
  ∃ uid w', reconcile email fields w = (inr uid, w').
Proof.
  intros Hids. unfold reconcile. unfold_effects. unfold_monad. cbn.
  destruct (find_one [("email", email)] (users w)) as [d|] eqn:Hf; cbn [found].
  - apply find_one_Some in Hf as [Hin _].
    rewrite Forall_forall in Hids. destruct (Hids d Hin) as [n Hn].
    destruct (truthy (PDict d)); cbn; [rewrite Hn|]; cbn;
      try destruct (entropy w); cbn; eauto.
  - cbn. destruct (entropy w); cbn; eauto.
Qed.

Ltac fails_clean_step :=
  lazymatch goal with
  | |- fails_clean (raise _) => apply fails_clean_raise
  | |- fails_clean (try_except _ _) => apply fails_clean_try
  | |- fails_clean (reconcile _ _ ≫= _) => idtac
  | |- fails_clean (_ ≫= _) => apply fails_clean_bind
  | |- fails_clean (if ?b then _ else _) => destruct b
  | |- fails_clean (match ?x with _ => _ end) => destruct x
  | |- fails_clean (let _ := _ in _) => lazy zeta
  | |- ∀ _, _ => intros ?
  end.

Ltac fails_clean_prefix :=
  repeat first
    [ progress fails_clean_step
    | match goal with |- preserves untouched _ => solve [frame_untouched] end ].

Lemma reconcile_tail_fails_clean email fields (k : string → M pyval) :
  (∀ uid w, ∃ a w', k uid w = (inr a, w')) →
  fails_clean (reconcile email fields ≫= k).
Proof.
  intros Hk. apply fails_clean_total. intros w Hw.
  destruct (reconcile_succeeds email fields w Hw) as (uid & w0 & Hr).
  unfold_monad. rewrite Hr. apply Hk.
Qed.

Ltac fails_clean_tail :=
  apply reconcile_tail_fails_clean; intros ? ?;
  unfold generate_access_token; unfold_effects; unfold_monad; cbn; eauto.

(** X16. A callback that fails has written nothing. Whatever makes a
    provider callback raise (a malformed query, a wrong state, a provider
    that refuses the code, a profile without an email), the users, the
    documents, the session and the outbox are as they were before the
    request. *)
Theorem callback_fails_clean (p : provider) (q : callback_query) (w w' : world)
    (e : exn) :
  Forall has_id (users w) →
  callback p q w = (inl e, w') →
  users w' = users w ∧ documents w' = documents w
  ∧ session w' = session w ∧ outbox w' = outbox w.
Proof.
  intros Hw Hfail.
  assert (Hclean : fails_clean (callback p q)); [|by eapply Hclean].
  destruct p; cbn [callback].
  - unfold auth_google_callback. fails_clean_prefix. fails_clean_tail.
  - unfold linkedin_callback. fails_clean_prefix. fails_clean_tail.
  - unfold facebook_callback. fails_clean_prefix. fails_clean_tail.
Qed.
End FailedCallbacks.

Lemma callback_fails_clean_witness :
  let r := @callback Sample.env Google forged started in
  r.1 = inl (HTTPException 400 "Invalid state parameter")
  ∧ users r.2 = users started ∧ session r.2 = session started.
Proof.
  cbv zeta.
  destruct (@callback_fails_clean Sample.env Google forged started
              (@callback Sample.env Google forged started).2
              (HTTPException 400 "Invalid state parameter"))
    as (Hu & _ & Hs & _).
  - repeat constructor; eexists; reflexivity.
  - by_running.
  - split_and!; [by_running | exact Hu | exact Hs].
Defined.

(** ** The current user *)

Section CurrentUser.
Import AuthUtils AuthRoutes.
Context {env : Env}.

Lemma prefix_bearer (s : string) :
  String.prefix "Bearer " s = true → ∃ t, s = "Bearer " +:+ t.
Proof.
  intros Hp.
  do 7 (destruct s as [|? s]; [discriminate|];
        cbn [String.prefix] in Hp;
        match type of Hp with
        | (if ?c then _ else _) = true => destruct c; [subst|discriminate]
        end).
  by exists s.
Qed.

Lemma prefix_bearer_app (t : string) :
  String.prefix "Bearer " ("Bearer " +:+ t) = true.
Proof. change (String.prefix "" t = true). by destruct t. Qed.

Lemma second_word_bearer (t : string) :
  second_word ("Bearer " +:+ t) = Some (until_space t).
Proof. reflexivity. Qed.

Lemma get_current_user_bearer (token_of_string : string → pyval) (t : string)
    (w : world) :
  get_current_user token_of_string (Some ("Bearer " +:+ t)) w
  = match verify_access_token (token_of_string (until_space t)) w with
    | (inr token_data, w') =>
        (inr (PDict (dict [("id", default PNone (token_data !! "sub"));
                           ("email", default PNone (token_data !! "email"))])), w')
    | (inl (ValueError msg), w') => (inl (HTTPException 401 msg), w')
    | (inl e, w') => (inl e, w')
    end.
Proof.
  unfold get_current_user. unfold_monad.
  change (second_word (default "" (Some ("Bearer " +:+ t))))
    with (Some (until_space t)).
  change (default "" (Some ("Bearer " +:+ t))) with ("Bearer " +:+ t).
  rewrite prefix_bearer_app.
  change (opt_truthy (Some ("Bearer " +:+ t))) with true.
  cbv iota beta. cbn [negb orb].
  destruct (verify_access_token _ w) as [[[]|] ?]; reflexivity.
Qed.

(** X17. [get_current_user] changes nothing, and its outcome is fixed by
    the header and the token in it.  A header that is absent or does not
    start with "Bearer " gets 401 "Missing or invalid access token".  For
    a header "Bearer " followed by [t], the token is [t] up to its first
    space: when it verifies, the reply is the [sub] and [email] of its
    claims as [id] and [email]; when verification fails, the reply is a
    401 with the message of that failure.  So there are four outcomes
    only: the user of the token, or a 401 with "Missing or invalid access
    token", "Token has expired" or "Invalid token". *)
Theorem get_current_user_outcomes (token_of_string : string → pyval)
    (authorization : option string) (w : world) :
  let r := get_current_user token_of_string authorization w in
  let user_of (claims : gmap string pyval) :=
    PDict (dict [("id", default PNone (claims !! "sub"));
                 ("email", default PNone (claims !! "email"))]) in
  r.2 = w
  ∧ (String.prefix "Bearer " (default "" authorization) = false →
     r.1 = inl (HTTPException 401 "Missing or invalid access token"))
  ∧ (∀ t, authorization = Some ("Bearer " +:+ t) →
       (∀ claims,
          (verify_access_token (token_of_string (until_space t)) w).1 = inr claims →
          r.1 = inr (user_of claims))
       ∧ (∀ msg,
            (verify_access_token (token_of_string (until_space t)) w).1
            = inl (ValueError msg) →
            r.1 = inl (HTTPException 401 msg)))
  ∧ ((∃ t claims,
        authorization = Some ("Bearer " +:+ t)
        ∧ (verify_access_token (token_of_string (until_space t)) w).1 = inr claims
        ∧ r.1 = inr (user_of claims))
     ∨ r.1 = inl (HTTPException 401 "Missing or invalid access token")
     ∨ r.1 = inl (HTTPException 401 "Token has expired")
     ∨ r.1 = inl (HTTPException 401 "Invalid token")).
Proof.
  intros r user_of. unfold r, user_of.
  destruct (String.prefix "Bearer " (default "" authorization)) eqn:Hp.
  - apply prefix_bearer in Hp as [t Ht].
    destruct authorization as [s|]; [|discriminate]. cbn in Ht. subst s.
    rewrite get_current_user_bearer.
    destruct (verify_outcomes (token_of_string (until_space t)) w)
      as [[claims Hv]|[Hv|Hv]].
    + rewrite Hv. cbn. split_and!; [done | done | |].
      * intros t' Heq. simplify_eq/=.
        rewrite Hv. cbn. split; [by intros ? [= <-] | done].
      * left. exists t, claims. by rewrite Hv.
    + rewrite Hv. cbn. split_and!; [done | done | | by right; right; left].
      intros t' Heq. simplify_eq/=.
      rewrite Hv. cbn. split; [done | by intros ? [= <-]].
    + rewrite Hv. cbn. split_and!; [done | done | | by right; right; right].
      intros t' Heq. simplify_eq/=.
      rewrite Hv. cbn. split; [done | by intros ? [= <-]].
  - assert (Hr : get_current_user token_of_string authorization w
                 = (inl (HTTPException 401 "Missing or invalid access token"), w)).
    { unfold get_current_user. by rewrite Hp, orb_true_r. }
    rewrite Hr. cbn. split_and!; [done | done | | by right; left].
    intros t ->. cbn in Hp. by rewrite prefix_bearer_app in Hp.
Qed.

(** X18. A header "Bearer " followed by a token that was issued for
    [claims] (one day of life, as [generate_access_token] gives it) is
    accepted as long as the token has not expired, and the current user
    is the [sub] and [email] of those claims; what follows the token after
    a further space is ignored. *)
Theorem get_current_user_accepts_issued (token_of_string : string → pyval)
    (t : string) (claims : gmap string pyval) (issued : Z) (w : world) :
  token_of_string (until_space t)
  = jwt_encode (<["exp" := PInt (issued + 24 * 60 * 60)]> claims) SECRET_KEY →
  clock w < issued + 24 * 60 * 60 →
  claims !! "exp" = None →
  get_current_user token_of_string (Some ("Bearer " +:+ t)) w
  = (inr (PDict (dict [("id", default PNone (claims !! "sub"));
                       ("email", default PNone (claims !! "email"))])), w).
Proof.
  intros Htok Hclock Hexp. rewrite get_current_user_bearer.
  pose proof (verify_issued claims issued w Hclock) as Hv.
  destruct (verify_outcomes (token_of_string (until_space t)) w)
    as [[c Hc]|[Hc|Hc]]; rewrite Htok in Hc; rewrite Hc in Hv; cbn in Hv;
    [|discriminate..].
  injection Hv as ->. rewrite Htok, Hc.
  by rewrite !lookup_insert_ne.
Qed.
End CurrentUser.

Lemma get_current_user_accepts_issued_witness :
  @AuthUtils.get_current_user Sample.env read_token
    (Some "Bearer alice.compact.token") Sample.world0
  = (inr (PDict alice_user), Sample.world0).
Proof.
  apply (@get_current_user_accepts_issued Sample.env read_token
           "alice.compact.token" alice_claims 1700000000 Sample.world0).
  - reflexivity.
  - by_running.
  - reflexivity.
Defined.

(** ** Handlers that only read *)

Section ReadOnly.
Import AuthUtils AuthRoutes DocumentRoutes.
Context {env : Env}.

Lemma preserves_for_each {A B} (f : A → M B) (l : list A) :
  (∀ x, preserves untouched (f x)) → preserves untouched (for_each f l).
Proof.
  intros Hf. induction l as [|x l IH]; cbn [for_each]; repeat frame_step; auto.
Qed.

Lemma preserves_from_mongo d : preserves untouched (from_mongo d).
Proof. unfold from_mongo. frame_untouched. Qed.

(** X19. Logging in, checking a one-time code, reading the profile,
    listing or reading documents and resolving the current user never
    write: whether they return or raise, the users, the documents, the
    session and the outbox are as they were. *)
Theorem lookups_write_nothing (login_data : LoginRequest) (email otp : string)
    (skip limit : Z) (document_id : string) (current_user : pyval)
    (token_of_string : string → pyval) (authorization : option string)
    (w : world) :
  untouched w (login_user login_data w).2
  ∧ untouched w (verify_otp email otp w).2
  ∧ untouched w (Main.profile w).2
  ∧ untouched w (read_documents skip limit current_user w).2
  ∧ untouched w (read_document document_id current_user w).2
  ∧ untouched w (get_current_user token_of_string authorization w).2.
Proof.
  split_and!.
  - assert (Hp : preserves untouched (login_user login_data)); [|apply Hp].
    unfold login_user. frame_untouched.
  - assert (Hp : preserves untouched (verify_otp email otp)); [|apply Hp].
    unfold verify_otp. frame_untouched.
  - assert (Hp : preserves untouched Main.profile); [|apply Hp].
    unfold Main.profile. frame_untouched.
  - assert (Hp : preserves untouched (read_documents skip limit current_user));
      [|apply Hp].
    unfold read_documents, documents_find. frame_untouched.
    apply preserves_for_each, preserves_from_mongo.
  - assert (Hp : preserves untouched (read_document document_id current_user));
      [|apply Hp].
    unfold read_document, make_object_id, documents_find_one. frame_untouched;
      apply preserves_from_mongo.
  - assert (Hp : preserves untouched
                   (get_current_user token_of_string authorization)); [|apply Hp].
    unfold get_current_user. frame_untouched.
Qed.
End ReadOnly.

(** ** Pages of documents *)

Section Pages.
Import AuthUtils AuthRoutes DocumentRoutes.
Context {env : Env}.

Lemma for_each_from_mongo_run (c : list (gmap string pyval)) (w : world) :
  Forall has_id c →
  Forall (λ d, pydantic_accepts (answered d) = true) c →
  for_each from_mongo c w = (inr (answered <$> c), w).
Proof.
  intros Hids Hok. induction c as [|d c IH]; [done|].
  apply Forall_cons in Hids as [Hd Hids]. apply Forall_cons in Hok as [Hdok Hok].
  cbn [for_each]. unfold_monad.
  rewrite (from_mongo_run d w Hd Hdok). by rewrite (IH Hids Hok).
Qed.

Lemma Forall_sublist_page {A} (P : A → Prop) (f : A → bool) (n m : nat) (l : list A) :
  Forall P l → Forall P (take n (drop m (List.filter f l))).
Proof.
  intros Hl. apply Forall_forall. intros x Hx.
  apply subseteq_take, subseteq_drop in Hx.
  apply list_elem_of_In, List.filter_In in Hx as [Hx _].
  rewrite Forall_forall in Hl. by apply Hl, list_elem_of_In.
Qed.

(** X20. A listing is a page of the requester's documents in stored
    order: with [skip] and [limit] not negative, the request succeeds and
    the replies are, one for one and in order, those of the documents
    whose [user_id] is the requester's, without the first [skip], cut at
    [limit] (each reply naming its document's id and owner); so there are
    never more than [limit] of them.  A negative [skip] or [limit] is not
    refused as a bad request: the driver's error surfaces as status
    500. *)
Theorem read_documents_page (skip limit : Z) (cu : gmap string pyval)
    (uid : pyval) (w : world) :
  let mine := find [("user_id", uid)] (documents w) in
  let page := take (Z.to_nat limit) (drop (Z.to_nat skip) mine) in
  let r := (read_documents skip limit (PDict cu) w).1 in
  cu !! "id" = Some uid →
  Forall has_id (documents w) →
  Forall (λ d, pydantic_accepts (answered d) = true) (documents w) →
  (0 ≤ skip → 0 ≤ limit →
     ∃ l, r = inr l
          ∧ (λ x, x !! "id") <$> l
            = (λ d, Some (PStr (oid_str (doc_id d)))) <$> page
          ∧ owner <$> l = owner <$> page)
  ∧ (∀ l, r = inr l → Z.of_nat (length l) ≤ limit)
  ∧ (skip < 0 ∨ limit < 0 → http_status r = 500).
Proof.
  intros mine page r Hid Hids Hok.
  assert (Hrun : r = if skip <? 0
                     then inl (ValueError "The 'skip' parameter must be >= 0")
                     else if limit <? 0
                     then inl (ValueError "length must be non-negative")
                     else inr (answered <$> page)).
  { unfold r, read_documents, py_getitem. rewrite Hid.
    unfold documents_find. unfold_monad. cbn.
    destruct (skip <? 0); [done|]. destruct (limit <? 0); [done|]. cbn.
    fold mine. fold page. rewrite for_each_from_mongo_run; [done | |];
      by apply Forall_sublist_page. }
  split_and!.
  - intros Hs Hl. exists (answered <$> page). split_and!.
    + rewrite Hrun.
      destruct (Z.ltb_spec skip 0); [lia|]. by destruct (Z.ltb_spec limit 0); [lia|].
    + rewrite <-list_fmap_compose. apply list_fmap_ext.
      intros i d _. apply answered_id.
    + rewrite <-list_fmap_compose. apply list_fmap_ext.
      intros i d _. apply answered_owner.
  - intros l Hl. rewrite Hrun in Hl.
    destruct (Z.ltb_spec skip 0); [done|].
    destruct (Z.ltb_spec limit 0); [done|].
    injection Hl as <-. unfold page. rewrite length_fmap, length_take. lia.
  - intros Hneg. rewrite Hrun.
    destruct (Z.ltb_spec skip 0); [done|].
    destruct (Z.ltb_spec limit 0); [done|lia].
Qed.
End Pages.

Lemma read_documents_page_witness :
  (∃ l, (@DocumentRoutes.read_documents Sample.env 0 1 (PDict alice_user) shelf).1
        = inr l
        ∧ (λ x, x !! "id") <$> l = [Some (PStr (oid_str 16))])
  ∧ (∃ l, (@DocumentRoutes.read_documents Sample.env 1 1 (PDict alice_user) shelf).1
          = inr l
          ∧ (λ x, x !! "id") <$> l = [])
  ∧ http_status
      (@DocumentRoutes.read_documents Sample.env (-1) 1 (PDict alice_user) shelf).1
    = 500.
Proof.
  assert (Hid : alice_user !! "id" = Some (PStr (oid_str 1))) by reflexivity.
  assert (Hids : Forall has_id (documents shelf))
    by (repeat constructor; eexists; reflexivity).
  assert (Hok : Forall (λ d, @pydantic_accepts Sample.env (answered d) = true)
                  (documents shelf)) by (repeat constructor).
  split_and!.
  - destruct (proj1 (@read_documents_page Sample.env 0 1 alice_user _ shelf
                       Hid Hids Hok)) as (l & Hl & Hlids & _); [lia | lia |].
    exists l. split; [exact Hl|]. rewrite Hlids. by_running.
  - destruct (proj1 (@read_documents_page Sample.env 1 1 alice_user _ shelf
                       Hid Hids Hok)) as (l & Hl & Hlids & _); [lia | lia |].
    exists l. split; [exact Hl|]. rewrite Hlids. by_running.
  - apply (proj2 (proj2 (@read_documents_page Sample.env (-1) 1 alice_user _ shelf
                           Hid Hids Hok))).
    left. lia.
Defined.

(** ** Profile updates *)

Section ProfileUpdate.
Import AuthUtils AuthRoutes.
Context {env : Env}.
Implicit Types (c : list (gmap string pyval)) (d : gmap string pyval).

Lemma profile_update_lookup (patch : UserCreate) (k : string) :
  k ∉ ["first_name"; "last_name"; "email"; "mobile_number"] →
  profile_update patch !! k = None.
Proof.
  rewrite !not_elem_of_cons. intros (? & ? & ? & ? & _).
  unfold profile_update, add_field.
  destruct (uc_mobile_number patch), (uc_email patch), (uc_last_name patch),
    (uc_first_name patch); by simplify_map_eq.
Qed.

Lemma update_profile_run (patch : UserCreate) (cu : gmap string pyval) (n : N)
    (w : world) :
  cu !! "id" = Some (PStr (oid_str n)) →
  (n < 2 ^ 96)%N →
  profile_update patch ≠ ∅ →
  let flt := [("_id", PId n)] in
  let w1 := (update_profile patch (PDict cu) w).2 in
  users w1 = update_one flt (profile_update patch) [] (users w)
  ∧ documents w1 = documents w ∧ session w1 = session w
  ∧ (update_profile patch (PDict cu) w).1
    = if modified_count flt (profile_update patch) [] (users w) =? 0 then
        inl (HTTPException 500
               ("An error occurred during profile update: "
                +:+ http_exception_str 400 "No changes made to profile"))
      else
        match find_one flt (update_one flt (profile_update patch) [] (users w)) with
        | Some u =>
            match u !! "_id" with
            | Some i =>
                inr (PDict (dict
                  [("message", PStr "User profile details Updated Successfully");
                   ("user", PDict (dict
                      [("id", PStr (py_str i));
                       ("first_name", default PNone (u !! "first_name"));
                       ("last_name", default PNone (u !! "last_name"));
                       ("email", default PNone (u !! "email"));
                       ("mobile_number", default PNone (u !! "mobile_number"))]))]))
            | None =>
                inl (HTTPException 500
                       ("An error occurred during profile update: " +:+ "'_id'"))
            end
        | None =>
            inl (HTTPException 500
                   ("An error occurred during profile update: "
                    +:+ "object is not subscriptable"))
        end.
Proof.
  intros Hid Hn Hne flt w1. unfold w1, update_profile, py_getitem. rewrite Hid.
  lazy zeta. fold (profile_update patch).
  unfold truthy. rewrite (bool_decide_eq_false_2 _ Hne). cbn [negb].
  unfold make_object_id. unfold_effects. unfold_monad.
  cbn -[ObjectId]. rewrite (ObjectId_oid_str n Hn). cbn. fold flt.
  destruct (modified_count flt (profile_update patch) [] (users w) =? 0); cbn;
    [done|].
  destruct (find_one flt (update_one _ _ _ _)) as [u|]; cbn; [|done].
  destruct (u !! "_id"); cbn; done.
Qed.

(** X21. [update_profile] has no failure other than status 500: whatever
    goes wrong inside, including its own 400 "No update fields provided"
    and "No changes made to profile", is caught and raised again as a 500
    whose detail quotes the cause. *)
Theorem update_profile_fails_with_500 (patch : UserCreate) (current_user : pyval)
    (w : world) :
  match (update_profile patch current_user w).1 with
  | inr _ => True
  | inl e =>
      ∃ cause, e = HTTPException 500
                     ("An error occurred during profile update: " +:+ exn_str cause)
  end.
Proof.
  unfold update_profile. unfold try_except at 1.
  match goal with |- context [match ?m w with _ => _ end] => destruct (m w) as [[e|a] w'] end;
    cbn; [by exists e | done].
Qed.

Lemma response_model_world (content : pyval) (w : world) :
  (response_model content w).2 = w.
Proof.
  unfold response_model. destruct content; try done.
  by case_bool_decide.
Qed.

(** The reply of [update_profile] conforms exactly when the four fields
    it reads from the stored user are strings. *)
Lemma response_model_profile (i : string) (a b c e : pyval) (w : world) :
  let content :=
    PDict (dict
      [("message", PStr "User profile details Updated Successfully");
       ("user", PDict (dict [("id", PStr i); ("first_name", a); ("last_name", b);
                             ("email", c); ("mobile_number", e)]))]) in
  (response_model content w).1
  = if is_str a && is_str b && is_str c && is_str e then inr content
    else inl (PyError "ResponseValidationError").
Proof.
  intros content. unfold content, response_model.
  match goal with
  | |- context [bool_decide ?P] =>
      assert (HP : P ↔ is_str a && is_str b && is_str c && is_str e = true)
  end.
  { unfold dict. cbn [list_to_map foldr uncurry fst snd].
    rewrite !map_Forall_insert by done. cbn [is_str_or_dict_of_str is_str].
    rewrite bool_decide_eq_true, !map_Forall_insert by done.
    rewrite !andb_true_iff. cbn [is_str].
    split.
    - intros (_ & (_ & ? & ? & ? & ? & _) & _). done.
    - intros (((? & ?) & ?) & ?).
      split_and!; try done; apply map_Forall_empty. }
  destruct (is_str a && is_str b && is_str c && is_str e).
  - rewrite bool_decide_eq_true_2; [done | by apply HP].
  - rewrite bool_decide_eq_false_2; [done|]. intros HP'. by apply HP in HP'.
Qed.

(** X22. A profile update through the route. An update that changes
    something rewrites the requester's own user in place with the fields
    of the patch; the password is not among them, so a password in the
    patch is ignored.  The answer is the stored first name, last name,
    email and mobile number when all four are strings; when one of them
    is not (a user without a mobile number, say), the reply fails the
    route's response model and the answer is status 500, although the
    update has been written.  Sending the same patch again changes
    nothing, and that is answered as a failure too: status 500, quoting
    "No changes made to profile". *)
Theorem update_profile_twice (patch : UserCreate) (cu : gmap string pyval)
    (n : N) (w : world) (d : gmap string pyval) :
  let d' := profile_update patch ∪ d in
  let field k := default PNone (d' !! k) in
  let first := put_profiles patch (PDict cu) w in
  let second := put_profiles patch (PDict cu) first.2 in
  cu !! "id" = Some (PStr (oid_str n)) →
  (n < 2 ^ 96)%N →
  well_formed (users w) →
  find_one [("_id", PId n)] (users w) = Some d →
  d' ≠ d →
  (∃ c1 c2, users w = c1 ++ d :: c2 ∧ users first.2 = c1 ++ d' :: c2)
  ∧ d' !! "password" = d !! "password"
  ∧ first.1
    = (if is_str (field "first_name") && is_str (field "last_name")
          && is_str (field "email") && is_str (field "mobile_number")
       then inr (PDict (dict
              [("message", PStr "User profile details Updated Successfully");
               ("user", PDict (dict
                  [("id", PStr (oid_str n));
                   ("first_name", field "first_name");
                   ("last_name", field "last_name");
                   ("email", field "email");
                   ("mobile_number", field "mobile_number")]))]))
       else inl (PyError "ResponseValidationError"))
  ∧ second.1
    = inl (HTTPException 500
             ("An error occurred during profile update: "
              +:+ http_exception_str 400 "No changes made to profile"))
  ∧ users second.2 = users first.2.
Proof.
  intros d' field first second Hid Hn [Hids Hnd] Hf Hchg.
  assert (Hne : profile_update patch ≠ ∅).
  { intros Hempty. apply Hchg. unfold d'. rewrite Hempty. apply (left_id_L ∅ (∪)). }
  destruct (find_one_split _ _ _ Hf) as (c1 & c2 & Hc & Hc1 & Hd).
  assert (Hdid : d !! "_id" = Some (PId n)) by (by apply matches_value_lookup in Hd).
  assert (Hdoc : doc_id d = n) by (unfold doc_id; by rewrite Hdid).
  assert (Hd'id : d' !! "_id" = Some (PId n)).
  { unfold d'. rewrite lookup_union_r; [done|].
    apply profile_update_lookup. by_running. }
  assert (Hd' : matches [("_id", PId n)] d' = true)
    by (rewrite matches_single by done; by apply bool_decide_eq_true_2).
  (* the handler's first run *)
  destruct (update_profile_run patch cu n w Hid Hn Hne) as (Hu1 & _ & _ & Hr1).
  cbn zeta in Hu1, Hr1.
  assert (Hm1 : modified_count [("_id", PId n)] (profile_update patch) [] (users w) = 1).
  { unfold modified_count. rewrite Hf. unfold apply_update. cbn [foldr].
    fold d'. by rewrite bool_decide_eq_false_2. }
  assert (Hupd : update_one [("_id", PId n)] (profile_update patch) [] (users w)
                 = c1 ++ d' :: c2).
  { rewrite Hc, update_one_app_skip by done. by rewrite update_one_cons, Hd. }
  assert (Hfind : find_one [("_id", PId n)] (c1 ++ d' :: c2) = Some d').
  { rewrite find_one_app_skip by done. by rewrite find_one_cons, Hd'. }
  rewrite Hm1, Hupd, Hfind, Hd'id in Hr1. cbn [Z.eqb py_str] in Hr1.
  rewrite Hupd in Hu1.
  (* the route's first run *)
  assert (Hfirst2 : users first.2 = c1 ++ d' :: c2).
  { unfold first, put_profiles. unfold_monad.
    destruct (update_profile patch (PDict cu) w) as [[e|a] w'] eqn:Hrun;
      cbn in Hu1 |- *; [done|]. by rewrite response_model_world. }
  assert (Hfirst1 : first.1
                    = (response_model
                         (PDict (dict
                            [("message", PStr "User profile details Updated Successfully");
                             ("user", PDict (dict
                                [("id", PStr (oid_str n));
                                 ("first_name", field "first_name");
                                 ("last_name", field "last_name");
                                 ("email", field "email");
                                 ("mobile_number", field "mobile_number")]))]))
                         (update_profile patch (PDict cu) w).2).1).
  { unfold first, put_profiles. unfold_monad.
    destruct (update_profile patch (PDict cu) w) as [[e|a] w'] eqn:Hrun;
      cbn in Hr1 |- *; [done|]. by injection Hr1 as ->. }
  (* the second run *)
  destruct (update_profile_run patch cu n first.2 Hid Hn Hne) as (Hu2 & _ & _ & Hr2).
  cbn zeta in Hu2, Hr2.
  assert (Hidem : profile_update patch ∪ d' = d').
  { unfold d'. by rewrite (assoc_L (∪)), (idemp_L (∪)). }
  assert (Hm2 : modified_count [("_id", PId n)] (profile_update patch) []
                  (users first.2) = 0).
  { unfold modified_count. rewrite Hfirst2, Hfind. unfold apply_update. cbn [foldr].
    by rewrite bool_decide_eq_true_2. }
  rewrite Hm2 in Hr2. cbn [Z.eqb] in Hr2.
  split_and!.
  - exists c1, c2. split; [exact Hc | exact Hfirst2].
  - unfold d'. apply lookup_union_r.
    apply profile_update_lookup. by_running.
  - rewrite Hfirst1. apply response_model_profile.
  - unfold second, put_profiles. unfold_monad.
    destruct (update_profile patch (PDict cu) first.2) as [[e|a] w'] eqn:Hrun;
      cbn in Hr2 |- *; [done | discriminate].
  - unfold second, put_profiles. unfold_monad.
    destruct (update_profile patch (PDict cu) first.2) as [[e|a] w'] eqn:Hrun;
      cbn in Hr2, Hu2 |- *; [|discriminate].
    rewrite Hu2, Hfirst2, update_one_app_skip by done.
    rewrite update_one_cons, Hd'. unfold apply_update. cbn [foldr].
    by rewrite Hidem.
Qed.
End ProfileUpdate.

Lemma update_profile_twice_witness :
  let first := @AuthRoutes.put_profiles Sample.env new_name (PDict alice_user)
                 Sample.world0 in
  let second := @AuthRoutes.put_profiles Sample.env new_name (PDict alice_user)
                  first.2 in
  let other := @AuthRoutes.put_profiles Sample.env new_first_name (PDict alice_user)
                 Sample.world0 in
  first.1
  = inr (PDict (dict
      [("message", PStr "User profile details Updated Successfully");
       ("user", PDict (dict
          [("id", PStr (oid_str 1)); ("first_name", PStr "Alicia");
           ("last_name", PStr "Liddell"); ("email", PStr "alice@example.com");
           ("mobile_number", PStr "+44 1865 270000")]))]))
  ∧ http_status second.1 = 500
  ∧ users second.2 = users first.2
  ∧ http_status other.1 = 500
  ∧ users other.2 ≠ users Sample.world0.
Proof.
  cbv zeta.
  assert (Hid : alice_user !! "id" = Some (PStr (oid_str 1))) by reflexivity.
  assert (Hn : (1 < 2 ^ 96)%N) by by_running.
  assert (Hwf : well_formed (users Sample.world0))
    by (split; [repeat constructor; eexists; reflexivity | by_running]).
  assert (Hf : find_one [("_id", PId 1)] (users Sample.world0) = Some Sample.alice)
    by by_running.
  destruct (@update_profile_twice Sample.env new_name alice_user 1%N Sample.world0
              Sample.alice Hid Hn Hwf Hf)
    as (_ & _ & Hfirst & Hsecond & Hsame); [by_running|].
  destruct (@update_profile_twice Sample.env new_first_name alice_user 1%N
              Sample.world0 Sample.alice Hid Hn Hwf Hf)
    as ((c1 & c2 & _ & Hwritten) & _ & Hother & _ & _); [by_running|].
  split_and!.
  - rewrite Hfirst. by_running.
  - by rewrite Hsecond.
  - exact Hsame.
  - rewrite Hother. by_running.
  - by_running.
Defined.
